(** * IdeaGenerator (src/Code.tsx): workflow engine of the script wizard

    A shallow embedding of the parts of the React component that carry
    control flow: response normalisation, the retry loop and error
    classification, the heuristic score, the session snapshot, and the
    step machine with its two effects (first refinement question, final
    generation).

    Conventions.
    - A JavaScript string is a [string]; its characters stand for code
      units, and the classifications below ([\W], [trim], [toLowerCase])
      are the ones of the ASCII range.
    - A React state variable is a record field; a handler is a function on
      the record; a [useRef] cell is a field as well.
    - Counters and lengths are [Z] or [nat]; the step, whose values are
      1, 2, 3, 3.5 and 4, is a [Q]; the numbers of the score are IEEE 754
      binary64 values, the primitive floats of the kernel. *)

From Stdlib Require Import String Ascii List ZArith QArith Bool Lia.
From Stdlib Require Floats.PrimFloat Floats.SpecFloat Floats.FloatOps.
From Stdlib Require Import DecimalString.
Import ListNotations.

Local Open Scope string_scope.
Local Open Scope Z_scope.

(* ================================================================== *)
(** ** JavaScript values received from the generation service *)
(* ================================================================== *)

Module Js.

(** What [response.json()], [JSON.parse] and [safeJsonParse] can hand to
    [normalizeResult], plus [undefined].  A number is carried as the text
    [String(n)] gives for it, which is all the code asks of a number
    here. *)
#[warnings="-register-all"]
Inductive value : Type :=
| Undefined
| Null
| Bool (b : bool)
| Num (text : string)
| Str (s : string)
| Arr (items : list value)
| Obj (fields : list (string * value)).

(** [typeof v], restricted to the answers the code compares with. *)
Inductive type_tag : Type :=
  TUndefined | TObject | TBoolean | TNumber | TString.

Definition typeof (v : value) : type_tag :=
  match v with
  | Undefined => TUndefined
  | Null => TObject
  | Bool _ => TBoolean
  | Num _ => TNumber
  | Str _ => TString
  | Arr _ => TObject
  | Obj _ => TObject
  end.

Definition is_string (v : value) : bool :=
  match typeof v with TString => true | _ => false end.

Definition is_object (v : value) : bool :=
  match typeof v with TObject => true | _ => false end.

(** [v == null] *)
Definition loose_null (v : value) : bool :=
  match v with Undefined | Null => true | _ => false end.

(** ToBoolean *)
Definition truthy (v : value) : bool :=
  match v with
  | Undefined | Null => false
  | Bool b => b
  | Num t => negb (String.eqb t "0" || String.eqb t "NaN")
  | Str s => negb (String.eqb s "")
  | Arr _ | Obj _ => true
  end.

Fixpoint lookup (k : string) (fs : list (string * value)) : option value :=
  match fs with
  | [] => None
  | (k', v) :: rest => if String.eqb k k' then Some v else lookup k rest
  end.

(** [v.k] for the three keys the code reads ([result], [content], [script]):
    an own field of an object, [undefined] on anything else that is not
    [null]/[undefined] (arrays and primitives have no such member).  The
    code never reads a member of [null] or [undefined]: each access is
    behind a truthiness test. *)
Definition get (v : value) (k : string) : value :=
  match v with
  | Obj fs => match lookup k fs with Some x => x | None => Undefined end
  | _ => Undefined
  end.

(** [String(v)].  Only booleans and numbers reach the last line of
    [normalizeResult]; the text given here for arrays and objects is never
    used. *)
Definition to_String (v : value) : string :=
  match v with
  | Undefined => "undefined"
  | Null => "null"
  | Bool true => "true"
  | Bool false => "false"
  | Num t => t
  | Str s => s
  | Arr _ | Obj _ => "[object Object]"
  end.

End Js.

(* ================================================================== *)
(** ** normalizeResult (Code.tsx 504-523) *)
(* ================================================================== *)

Definition normalizeResult (input : Js.value) : Js.value :=
  if Js.loose_null input then Js.Str ""
  else if Js.is_string input then input
  else if Js.is_object input then
    let result := Js.get input "result" in
    if Js.is_string result then result
    else if Js.truthy result && Js.is_object result then result
    else if Js.truthy result && Js.is_string (Js.get result "content")
      then Js.get result "content"
    else input
  else Js.Str (Js.to_String input).

(** The same function with the third test on [result] taken out. *)
Definition normalizeResult_two_tests (input : Js.value) : Js.value :=
  if Js.loose_null input then Js.Str ""
  else if Js.is_string input then input
  else if Js.is_object input then
    let result := Js.get input "result" in
    if Js.is_string result then result
    else if Js.truthy result && Js.is_object result then result
    else input
  else Js.Str (Js.to_String input).

(* ================================================================== *)
(** ** String primitives used by the score and by the step guards *)
(* ================================================================== *)

Module Text.

Definition code (c : ascii) : N := N_of_ascii c.

Definition between (lo hi : N) (c : ascii) : bool :=
  (N.leb lo (code c) && N.leb (code c) hi)%bool.

(** [\w] is [[A-Za-z0-9_]]; [\W] is its complement. *)
Definition is_word_char (c : ascii) : bool :=
  (between 65 90 c || between 97 122 c || between 48 57 c
   || N.eqb (code c) 95)%bool.

Definition is_nonword_char (c : ascii) : bool := negb (is_word_char c).

(** The class [[.!?]]. *)
Definition is_sentence_end (c : ascii) : bool :=
  (N.eqb (code c) 46 || N.eqb (code c) 33 || N.eqb (code c) 63)%bool.

(** White space removed by [trim]: TAB, LF, VT, FF, CR, SPACE, NBSP. *)
Definition is_space (c : ascii) : bool :=
  (between 9 13 c || N.eqb (code c) 32 || N.eqb (code c) 160)%bool.

Definition lower_char (c : ascii) : ascii :=
  if between 65 90 c then ascii_of_N (code c + 32) else c.

Fixpoint toLowerCase (s : string) : string :=
  match s with
  | EmptyString => EmptyString
  | String c r => String (lower_char c) (toLowerCase r)
  end.

(** [hay.includes(needle)] *)
Fixpoint includes (needle hay : string) : bool :=
  (String.prefix needle hay
   || match hay with
      | EmptyString => false
      | String _ r => includes needle r
      end)%bool.

(** [s.split(sep)] for a one-character separator. *)
Fixpoint split (sep : ascii) (s : string) : list string :=
  match s with
  | EmptyString => [EmptyString]
  | String c r =>
      if Ascii.eqb c sep then EmptyString :: split sep r
      else match split sep r with
           | p :: ps => String c p :: ps
           | [] => [String c EmptyString]
           end
  end.

Definition starts_with_class (cls : ascii -> bool) (s : string) : bool :=
  match s with
  | EmptyString => false
  | String c _ => cls c
  end.

(** [s.split(/[cls]+/)]: the pieces between maximal runs of [cls]. *)
Fixpoint split_runs (cls : ascii -> bool) (s : string) : list string :=
  match s with
  | EmptyString => [EmptyString]
  | String c r =>
      if cls c then
        if starts_with_class cls r then split_runs cls r
        else EmptyString :: split_runs cls r
      else match split_runs cls r with
           | p :: ps => String c p :: ps
           | [] => [String c EmptyString]
           end
  end.

Fixpoint drop_spaces (s : string) : string :=
  match s with
  | EmptyString => EmptyString
  | String c r => if is_space c then drop_spaces r else s
  end.

Fixpoint rev_onto (s acc : string) : string :=
  match s with
  | EmptyString => acc
  | String c r => rev_onto r (String c acc)
  end.

Definition rev (s : string) : string := rev_onto s EmptyString.

Definition trim (s : string) : string :=
  rev (drop_spaces (rev (drop_spaces s))).

(** [new Set(l).size] *)
Definition distinct (l : list string) : nat :=
  List.length (nodup string_dec l).

(** [parts.join(sep)] *)
Fixpoint join (sep : string) (parts : list string) : string :=
  match parts with
  | [] => EmptyString
  | [p] => p
  | p :: rest => p ++ sep ++ join sep rest
  end.

End Text.

(* ================================================================== *)
(** ** calculateScores (Code.tsx 734-781) *)
(* ================================================================== *)

Module Score.

Import PrimFloat.
Local Open Scope float_scope.

(** A JavaScript number: an IEEE 754 binary64 value.  [+], [-], [*], [/]
    and the comparisons are the ones of the primitive floats, which round
    to nearest, ties to even, as JavaScript does. *)
Definition number : Set := float.
Bind Scope float_scope with number.

(** The number that an integer denotes: the nearest binary64 value,
    exact up to [2^53]. *)
Definition of_Z (z : Z) : number :=
  FloatOps.SF2Prim (SpecFloat.binary_normalize FloatOps.prec FloatOps.emax z 0 false).

(** The object handed to [setScoreData]. *)
Record scores : Type := {
  overall : number;
  creativity : number;
  engagement : number;
  clarity : number;
  timing : number
}.

(** What one call does: it returns before scoring, it stores a score, or
    [scriptText.split] is applied to something that is not a string. *)
Inductive outcome : Type :=
| NotScored
| Scored (sc : scores)
| TypeError.

(** [Math.round]: the integer nearest to [x], halves towards [+Infinity];
    [NaN], the infinities and the zeros are returned as they are.  A
    finite [x] is [n * 2^e] with integers [n] and [e]; for [e < 0] the
    result is the floor of [x + 1/2], computed on the integers. *)
Definition Math_round (x : number) : number :=
  match FloatOps.Prim2SF x with
  | SpecFloat.S754_finite s m e =>
      if Z.leb 0 e then x
      else
        let n := if s then Z.neg m else Z.pos m in
        let d := Z.pow 2 (- e) in
        let r := Z.div (2 * n + d) (2 * d) in
        if (Z.eqb r 0 && s)%bool then neg_zero else of_Z r
  | _ => x
  end.

(** [Math.max] and [Math.min] of two numbers: [NaN] if one of them is
    [NaN]; of two zeros the positive one is the larger. *)
Definition Math_max (x y : number) : number :=
  if (is_nan x || is_nan y)%bool then nan
  else if ltb x y then y
  else if ltb y x then x
  else if get_sign x then y else x.

Definition Math_min (x y : number) : number :=
  if (is_nan x || is_nan y)%bool then nan
  else if ltb x y then x
  else if ltb y x then y
  else if get_sign x then x else y.

(** [typeof apiResults === "string" ? apiResults : apiResults.script || ""];
    [None] when the value found is neither a string nor falsy. *)
Definition scriptText (apiResults : Js.value) : option string :=
  if Js.is_string apiResults then
    match apiResults with Js.Str t => Some t | _ => None end
  else
    let script := Js.get apiResults "script" in
    if Js.truthy script then
      match script with Js.Str t => Some t | _ => None end
    else Some "".

(** [scriptText.split(" ").length] *)
Definition words (text : string) : Z :=
  Z.of_nat (List.length (Text.split " " text)).

(** [(scriptLength / 60) * 150] *)
Definition expectedWords (scriptLength : Z) : number :=
  (of_Z scriptLength / 60) * 150.

(** [Math.max(0, 100 - (Math.abs(words - expectedWords) / expectedWords) * 100)] *)
Definition timingScore (text : string) (scriptLength : Z) : number :=
  Math_max 0
    (100 - (abs (of_Z (words text) - expectedWords scriptLength)
            / expectedWords scriptLength) * 100).

(** [scriptText.split(/[.!?]+/).filter((s) => s.trim().length > 0)] *)
Definition sentences (text : string) : list string :=
  filter (fun s => Nat.ltb 0 (String.length (Text.trim s)))
         (Text.split_runs Text.is_sentence_end text).

(** [sentences.length > 0 ? words / sentences.length : 15] *)
Definition avgWordsPerSentence (text : string) : number :=
  match sentences text with
  | [] => 15
  | _ :: _ =>
      of_Z (words text) / of_Z (Z.of_nat (List.length (sentences text)))
  end.

(** [Math.max(0, 100 - Math.abs(avgWordsPerSentence - 15) * 5)] *)
Definition clarityScore (text : string) : number :=
  Math_max 0 (100 - abs (avgWordsPerSentence text - 15) * 5).

(** [/\?/.test(scriptText)] *)
Definition hasQuestions (text : string) : bool := Text.includes "?" text.

Definition hasCTA (text : string) (ctaInclusion : bool) : bool :=
  (ctaInclusion
   && (Text.includes "subscribe" (Text.toLowerCase text)
       || Text.includes "follow" (Text.toLowerCase text)
       || Text.includes "like" (Text.toLowerCase text)))%bool.

(** [70 + (hasQuestions ? 15 : 0) + (hasCTA ? 15 : 0)] *)
Definition engagementScore (text : string) (ctaInclusion : bool) : number :=
  70 + (if hasQuestions text then 15 else 0)
     + (if hasCTA text ctaInclusion then 15 else 0).

(** [new Set(scriptText.toLowerCase().split(/\W+/))] *)
Definition uniqueWords (text : string) : nat :=
  Text.distinct (Text.split_runs Text.is_nonword_char (Text.toLowerCase text)).

(** [Math.min(100, (uniqueWords.size / words) * 200)] *)
Definition creativityScore (text : string) : number :=
  Math_min 100
    ((of_Z (Z.of_nat (uniqueWords text)) / of_Z (words text)) * 200).

(** [(timingScore + clarityScore + engagementScore + creativityScore) / 4] *)
Definition overallScore (text : string) (scriptLength : Z) (cta : bool)
  : number :=
  (timingScore text scriptLength + clarityScore text
   + engagementScore text cta + creativityScore text) / 4.

Definition score_text (text : string) (scriptLength : Z) (cta : bool)
  : scores :=
  {| overall := Math_round (overallScore text scriptLength cta);
     creativity := Math_round (creativityScore text);
     engagement := Math_round (engagementScore text cta);
     clarity := Math_round (clarityScore text);
     timing := Math_round (timingScore text scriptLength) |}.

Definition calculateScores
  (apiResults : Js.value) (scriptLength : Z) (ctaInclusion : bool)
  : outcome :=
  if negb (Js.truthy apiResults) then NotScored
  else match scriptText apiResults with
       | None => TypeError
       | Some text => Scored (score_text text scriptLength ctaInclusion)
       end.

End Score.

(* ================================================================== *)
(** ** The request pipeline: fetchWithRetry and createApiError *)
(* ================================================================== *)

Module Net.

(** A thrown value, as far as the code looks at it. *)
Record JsError : Type := {
  name : string;
  message : string
}.

Record Response : Type := {
  status : Z;
  statusText : string;
  contentType : string;
  body : string
}.

(** What one [await fetch(url, options)] does. *)
Inductive fetched : Type :=
| Resolves (r : Response)
| Rejects (e : JsError).

(** The network, as the loop sees it: the outcome of attempt [i]. *)
Definition network : Type := nat -> fetched.

(** What the loop does besides fetching, in order. *)
Inductive action : Type :=
| Sleep (ms : Z)
| SetRetryCount (i : nat)
| Fetch (i : nat).

Inductive completion : Type :=
| Returns (r : Response)
| Throws (e : option JsError).

(** [`${n}`] for an integer. *)
Definition decimal (n : Z) : string := NilZero.string_of_int (Z.to_int n).

(** [Math.min(1000 * Math.pow(2, i - 1), 8000)], for [i > 0]. *)
Definition backoff (i : nat) : Z :=
  Z.min (1000 * 2 ^ (Z.of_nat i - 1)) 8000.

Definition before_attempt (i : nat) : list action :=
  if Nat.ltb 0 i then [Sleep (backoff i); SetRetryCount i] else [].

(** The [for] loop of [fetchWithRetry] from index [i] on; [fuel] counts the
    iterations left, [maxRetries + 1 - i].  [lastError] is what the final
    [throw lastError] would throw. *)
Fixpoint attempts (fuel : nat) (maxRetries i : nat) (net : network)
  (lastError : option JsError) : list action * completion :=
  match fuel with
  | O => ([], Throws lastError)
  | S fuel' =>
      let pre := (before_attempt i ++ [Fetch i])%list in
      match net i with
      | Resolves response =>
          if (Z.leb 500 (status response) && Nat.ltb i maxRetries)%bool then
            let lastError' :=
              Some {| name := "Error";
                      message := "HTTP " ++ decimal (status response) |} in
            let '(acts, c) := attempts fuel' maxRetries (S i) net lastError' in
            ((pre ++ acts)%list, c)
          else (pre, Returns response)
      | Rejects error =>
          if (negb (String.eqb (name error) "AbortError")
              && Nat.ltb i maxRetries)%bool then
            let '(acts, c) := attempts fuel' maxRetries (S i) net (Some error) in
            ((pre ++ acts)%list, c)
          else (pre, Throws (Some error))
      end
  end.

Definition fetchWithRetry (maxRetries : nat) (net : network)
  : list action * completion :=
  attempts (S maxRetries) maxRetries 0 net None.

(** [response.ok] *)
Definition ok (r : Response) : bool :=
  (Z.leb 200 (status r) && Z.leb (status r) 299)%bool.

(** [s.slice(0, n)] *)
Fixpoint slice0 (n : nat) (s : string) : string :=
  match n, s with
  | S n', String c r => String c (slice0 n' r)
  | _, _ => EmptyString
  end.

(** The error the two generation calls throw on [!response.ok]
    (Code.tsx 839-845 and 1053-1058). *)
Definition http_error (r : Response) : JsError :=
  {| name := "Error";
     message :=
       "HTTP " ++ decimal (status r) ++ " " ++ statusText r
       ++ (if String.eqb (body r) "" then ""
           else " · " ++ slice0 300 (body r)) |}.

Inductive ErrorType : Type := network_error | timeout | server | unknown.

Record ApiError : Type := {
  type : ErrorType;
  text : string;
  retryable : bool
}.

(** [createApiError] (Code.tsx 525-565).  [onLine] is [navigator.onLine];
    [error] is [None] for [undefined]. *)
Definition createApiError (onLine : bool) (error : option JsError)
  : ApiError :=
  let nm := match error with Some e => name e | None => "" end in
  let msg := match error with Some e => message e | None => "" end in
  if String.eqb nm "AbortError" then
    {| type := timeout;
       text := "The request timed out. Please try again in a moment.";
       retryable := true |}
  else if negb onLine then
    {| type := network_error;
       text := "Internet connection lost. Please check your network.";
       retryable := true |}
  else if Text.includes "HTTP 5" msg then
    {| type := server;
       text := "The server is temporarily unavailable. Please try again shortly.";
       retryable := true |}
  else if Text.includes "HTTP 4" msg then
    {| type := server;
       text := "Bad request. Please check your input.";
       retryable := false |}
  else
    {| type := unknown;
       text := if String.eqb msg "" then "Something went wrong. Please try again."
               else msg;
       retryable := true |}.

(** [ctype.includes("text/event-stream")] (Code.tsx 1060) *)
Definition streamed (r : Response) : bool :=
  Text.includes "text/event-stream" (contentType r).

(** What a generation call throws up to its test [!response.ok] (Code.tsx
    1053-1058): the error of [fetchWithRetry], or the error made from an
    answer that is not ok.  What is thrown later, while the body of an ok
    answer is read, is the [DecodeThrows] of [Wizard.decoded]. *)
Definition generation_error (c : completion) : option (option JsError) :=
  match c with
  | Returns r => if ok r then None else Some (Some (http_error r))
  | Throws e => Some e
  end.

End Net.

(* ================================================================== *)
(** ** The component state *)
(* ================================================================== *)

Module Wizard.

Local Open Scope Q_scope.

Inductive speaker : Type := ai | user.

(** [`msg_${Date.now()}_${messageIdCounter.current}`] *)
Record message_id : Type := {
  id_time : Z;
  id_count : Z
}.

Record ChatMessage : Type := {
  id : message_id;
  type : speaker;
  content : string;
  options : option (list string);
  timestamp : Z
}.

(** What [fetchNextQuestion] resolves to, typed as the service contract
    has it: [{question: string | null, options?: string[]}]. *)
Record question_reply : Type := {
  question : option string;
  reply_options : list string
}.

(** A call of [fetchNextQuestion] made by the effect of Code.tsx 1124 and
    not yet finished.  [isMounted] is the local variable of the effect run
    that made the call: the promise callbacks read it, the cleanup of that
    run writes it.  [typing] holds the cleaned question while
    [typeMessage] reveals it. *)
Record question_fetch : Type := {
  isMounted : bool;
  typing : option (string * list string)
}.

(** Bookkeeping of what is in flight; none of it is a variable of the
    component.  [effectDeps] are the dependencies seen by the last run of
    the first-question effect, [effectOwnsFetch] tells whether that run
    made the call at the head of [questionFetches]; [publications] counts
    the timers of the event-stream branch that are set and have not
    fired. *)
Record runtime : Type := {
  questionFetches : list question_fetch;
  effectOwnsFetch : bool;
  effectDeps : option (Q * nat * bool);
  generationCalls : nat;
  generationsInFlight : nat;
  repliesInFlight : nat;
  transitionsInFlight : nat;
  publications : nat
}.

(** The [useState] and [useRef] cells of [IdeaGenerator] that the engine
    reads or writes.  Left out: presentation only cells ([windowWidth],
    [userInput], [isTyping], [typingText], [loadingProgress], [retryCount],
    [estimatedTime], the edit panel, confetti, popups). *)
Record state : Type := {
  isExpanded : bool;
  currentStep : Q;
  selectedStyle : string;
  customStyleName : string;
  broadTopic : string;
  keyword : string;
  scriptLength : Z;
  selectedLanguage : string;
  selectedTone : string;
  ctaInclusion : bool;
  chatMessages : list ChatMessage;
  skipRefinement : bool;
  showSkipConfirm : bool;
  questionFetchFailed : bool;
  hasAttemptedQuestionFetch : bool;
  messageIdCounter : Z;
  apiResults : Js.value;
  isLoading : bool;
  apiError : option Net.ApiError;
  scoreData : option Score.scores;
  hasUnsavedChanges : bool;
  modalTitle : option string;
  pending : runtime
}.

Definition set_questionFetches (v : list question_fetch) (s : runtime) : runtime :=
  {| questionFetches := v;
     effectOwnsFetch := effectOwnsFetch s;
     effectDeps := effectDeps s;
     generationCalls := generationCalls s;
     generationsInFlight := generationsInFlight s;
     repliesInFlight := repliesInFlight s;
     transitionsInFlight := transitionsInFlight s;
     publications := publications s |}.

Definition set_effectOwnsFetch (v : bool) (s : runtime) : runtime :=
  {| questionFetches := questionFetches s;
     effectOwnsFetch := v;
     effectDeps := effectDeps s;
     generationCalls := generationCalls s;
     generationsInFlight := generationsInFlight s;
     repliesInFlight := repliesInFlight s;
     transitionsInFlight := transitionsInFlight s;
     publications := publications s |}.

Definition set_effectDeps (v : option (Q * nat * bool)) (s : runtime) : runtime :=
  {| questionFetches := questionFetches s;
     effectOwnsFetch := effectOwnsFetch s;
     effectDeps := v;
     generationCalls := generationCalls s;
     generationsInFlight := generationsInFlight s;
     repliesInFlight := repliesInFlight s;
     transitionsInFlight := transitionsInFlight s;
     publications := publications s |}.

Definition set_generationCalls (v : nat) (s : runtime) : runtime :=
  {| questionFetches := questionFetches s;
     effectOwnsFetch := effectOwnsFetch s;
     effectDeps := effectDeps s;
     generationCalls := v;
     generationsInFlight := generationsInFlight s;
     repliesInFlight := repliesInFlight s;
     transitionsInFlight := transitionsInFlight s;
     publications := publications s |}.

Definition set_generationsInFlight (v : nat) (s : runtime) : runtime :=
  {| questionFetches := questionFetches s;
     effectOwnsFetch := effectOwnsFetch s;
     effectDeps := effectDeps s;
     generationCalls := generationCalls s;
     generationsInFlight := v;
     repliesInFlight := repliesInFlight s;
     transitionsInFlight := transitionsInFlight s;
     publications := publications s |}.

Definition set_repliesInFlight (v : nat) (s : runtime) : runtime :=
  {| questionFetches := questionFetches s;
     effectOwnsFetch := effectOwnsFetch s;
     effectDeps := effectDeps s;
     generationCalls := generationCalls s;
     generationsInFlight := generationsInFlight s;
     repliesInFlight := v;
     transitionsInFlight := transitionsInFlight s;
     publications := publications s |}.

Definition set_transitionsInFlight (v : nat) (s : runtime) : runtime :=
  {| questionFetches := questionFetches s;
     effectOwnsFetch := effectOwnsFetch s;
     effectDeps := effectDeps s;
     generationCalls := generationCalls s;
     generationsInFlight := generationsInFlight s;
     repliesInFlight := repliesInFlight s;
     transitionsInFlight := v;
     publications := publications s |}.

Definition set_publications (v : nat) (s : runtime) : runtime :=
  {| questionFetches := questionFetches s;
     effectOwnsFetch := effectOwnsFetch s;
     effectDeps := effectDeps s;
     generationCalls := generationCalls s;
     generationsInFlight := generationsInFlight s;
     repliesInFlight := repliesInFlight s;
     transitionsInFlight := transitionsInFlight s;
     publications := v |}.

Definition set_isExpanded (v : bool) (s : state) : state :=
  {| isExpanded := v; currentStep := currentStep s;
     selectedStyle := selectedStyle s; customStyleName := customStyleName s;
     broadTopic := broadTopic s; keyword := keyword s;
     scriptLength := scriptLength s; selectedLanguage := selectedLanguage s;
     selectedTone := selectedTone s; ctaInclusion := ctaInclusion s;
     chatMessages := chatMessages s; skipRefinement := skipRefinement s;
     showSkipConfirm := showSkipConfirm s;
     questionFetchFailed := questionFetchFailed s;
     hasAttemptedQuestionFetch := hasAttemptedQuestionFetch s;
     messageIdCounter := messageIdCounter s; apiResults := apiResults s;
     isLoading := isLoading s; apiError := apiError s;
     scoreData := scoreData s; hasUnsavedChanges := hasUnsavedChanges s;
     modalTitle := modalTitle s; pending := pending s |}.

Definition set_currentStep (v : Q) (s : state) : state :=
  {| isExpanded := isExpanded s; currentStep := v;
     selectedStyle := selectedStyle s; customStyleName := customStyleName s;
     broadTopic := broadTopic s; keyword := keyword s;
     scriptLength := scriptLength s; selectedLanguage := selectedLanguage s;
     selectedTone := selectedTone s; ctaInclusion := ctaInclusion s;
     chatMessages := chatMessages s; skipRefinement := skipRefinement s;
     showSkipConfirm := showSkipConfirm s;
     questionFetchFailed := questionFetchFailed s;
     hasAttemptedQuestionFetch := hasAttemptedQuestionFetch s;
     messageIdCounter := messageIdCounter s; apiResults := apiResults s;
     isLoading := isLoading s; apiError := apiError s;
     scoreData := scoreData s; hasUnsavedChanges := hasUnsavedChanges s;
     modalTitle := modalTitle s; pending := pending s |}.

Definition set_selectedStyle (v : string) (s : state) : state :=
  {| isExpanded := isExpanded s; currentStep := currentStep s;
     selectedStyle := v; customStyleName := customStyleName s;
     broadTopic := broadTopic s; keyword := keyword s;
     scriptLength := scriptLength s; selectedLanguage := selectedLanguage s;
     selectedTone := selectedTone s; ctaInclusion := ctaInclusion s;
     chatMessages := chatMessages s; skipRefinement := skipRefinement s;
     showSkipConfirm := showSkipConfirm s;
     questionFetchFailed := questionFetchFailed s;
     hasAttemptedQuestionFetch := hasAttemptedQuestionFetch s;
     messageIdCounter := messageIdCounter s; apiResults := apiResults s;
     isLoading := isLoading s; apiError := apiError s;
     scoreData := scoreData s; hasUnsavedChanges := hasUnsavedChanges s;
     modalTitle := modalTitle s; pending := pending s |}.

Definition set_customStyleName (v : string) (s : state) : state :=
  {| isExpanded := isExpanded s; currentStep := currentStep s;
     selectedStyle := selectedStyle s; customStyleName := v;
     broadTopic := broadTopic s; keyword := keyword s;
     scriptLength := scriptLength s; selectedLanguage := selectedLanguage s;
     selectedTone := selectedTone s; ctaInclusion := ctaInclusion s;
     chatMessages := chatMessages s; skipRefinement := skipRefinement s;
     showSkipConfirm := showSkipConfirm s;
     questionFetchFailed := questionFetchFailed s;
     hasAttemptedQuestionFetch := hasAttemptedQuestionFetch s;
     messageIdCounter := messageIdCounter s; apiResults := apiResults s;
     isLoading := isLoading s; apiError := apiError s;
     scoreData := scoreData s; hasUnsavedChanges := hasUnsavedChanges s;
     modalTitle := modalTitle s; pending := pending s |}.

Definition set_broadTopic (v : string) (s : state) : state :=
  {| isExpanded := isExpanded s; currentStep := currentStep s;
     selectedStyle := selectedStyle s; customStyleName := customStyleName s;
     broadTopic := v; keyword := keyword s; scriptLength := scriptLength s;
     selectedLanguage := selectedLanguage s; selectedTone := selectedTone s;
     ctaInclusion := ctaInclusion s; chatMessages := chatMessages s;
     skipRefinement := skipRefinement s;
     showSkipConfirm := showSkipConfirm s;
     questionFetchFailed := questionFetchFailed s;
     hasAttemptedQuestionFetch := hasAttemptedQuestionFetch s;
     messageIdCounter := messageIdCounter s; apiResults := apiResults s;
     isLoading := isLoading s; apiError := apiError s;
     scoreData := scoreData s; hasUnsavedChanges := hasUnsavedChanges s;
     modalTitle := modalTitle s; pending := pending s |}.

Definition set_keyword (v : string) (s : state) : state :=
  {| isExpanded := isExpanded s; currentStep := currentStep s;
     selectedStyle := selectedStyle s; customStyleName := customStyleName s;
     broadTopic := broadTopic s; keyword := v;
     scriptLength := scriptLength s; selectedLanguage := selectedLanguage s;
     selectedTone := selectedTone s; ctaInclusion := ctaInclusion s;
     chatMessages := chatMessages s; skipRefinement := skipRefinement s;
     showSkipConfirm := showSkipConfirm s;
     questionFetchFailed := questionFetchFailed s;
     hasAttemptedQuestionFetch := hasAttemptedQuestionFetch s;
     messageIdCounter := messageIdCounter s; apiResults := apiResults s;
     isLoading := isLoading s; apiError := apiError s;
     scoreData := scoreData s; hasUnsavedChanges := hasUnsavedChanges s;
     modalTitle := modalTitle s; pending := pending s |}.

Definition set_scriptLength (v : Z) (s : state) : state :=
  {| isExpanded := isExpanded s; currentStep := currentStep s;
     selectedStyle := selectedStyle s; customStyleName := customStyleName s;
     broadTopic := broadTopic s; keyword := keyword s; scriptLength := v;
     selectedLanguage := selectedLanguage s; selectedTone := selectedTone s;
     ctaInclusion := ctaInclusion s; chatMessages := chatMessages s;
     skipRefinement := skipRefinement s;
     showSkipConfirm := showSkipConfirm s;
     questionFetchFailed := questionFetchFailed s;
     hasAttemptedQuestionFetch := hasAttemptedQuestionFetch s;
     messageIdCounter := messageIdCounter s; apiResults := apiResults s;
     isLoading := isLoading s; apiError := apiError s;
     scoreData := scoreData s; hasUnsavedChanges := hasUnsavedChanges s;
     modalTitle := modalTitle s; pending := pending s |}.

Definition set_selectedLanguage (v : string) (s : state) : state :=
  {| isExpanded := isExpanded s; currentStep := currentStep s;
     selectedStyle := selectedStyle s; customStyleName := customStyleName s;
     broadTopic := broadTopic s; keyword := keyword s;
     scriptLength := scriptLength s; selectedLanguage := v;
     selectedTone := selectedTone s; ctaInclusion := ctaInclusion s;
     chatMessages := chatMessages s; skipRefinement := skipRefinement s;
     showSkipConfirm := showSkipConfirm s;
     questionFetchFailed := questionFetchFailed s;
     hasAttemptedQuestionFetch := hasAttemptedQuestionFetch s;
     messageIdCounter := messageIdCounter s; apiResults := apiResults s;
     isLoading := isLoading s; apiError := apiError s;
     scoreData := scoreData s; hasUnsavedChanges := hasUnsavedChanges s;
     modalTitle := modalTitle s; pending := pending s |}.

Definition set_selectedTone (v : string) (s : state) : state :=
  {| isExpanded := isExpanded s; currentStep := currentStep s;
     selectedStyle := selectedStyle s; customStyleName := customStyleName s;
     broadTopic := broadTopic s; keyword := keyword s;
     scriptLength := scriptLength s; selectedLanguage := selectedLanguage s;
     selectedTone := v; ctaInclusion := ctaInclusion s;
     chatMessages := chatMessages s; skipRefinement := skipRefinement s;
     showSkipConfirm := showSkipConfirm s;
     questionFetchFailed := questionFetchFailed s;
     hasAttemptedQuestionFetch := hasAttemptedQuestionFetch s;
     messageIdCounter := messageIdCounter s; apiResults := apiResults s;
     isLoading := isLoading s; apiError := apiError s;
     scoreData := scoreData s; hasUnsavedChanges := hasUnsavedChanges s;
     modalTitle := modalTitle s; pending := pending s |}.

Definition set_ctaInclusion (v : bool) (s : state) : state :=
  {| isExpanded := isExpanded s; currentStep := currentStep s;
     selectedStyle := selectedStyle s; customStyleName := customStyleName s;
     broadTopic := broadTopic s; keyword := keyword s;
     scriptLength := scriptLength s; selectedLanguage := selectedLanguage s;
     selectedTone := selectedTone s; ctaInclusion := v;
     chatMessages := chatMessages s; skipRefinement := skipRefinement s;
     showSkipConfirm := showSkipConfirm s;
     questionFetchFailed := questionFetchFailed s;
     hasAttemptedQuestionFetch := hasAttemptedQuestionFetch s;
     messageIdCounter := messageIdCounter s; apiResults := apiResults s;
     isLoading := isLoading s; apiError := apiError s;
     scoreData := scoreData s; hasUnsavedChanges := hasUnsavedChanges s;
     modalTitle := modalTitle s; pending := pending s |}.

Definition set_chatMessages (v : list ChatMessage) (s : state) : state :=
  {| isExpanded := isExpanded s; currentStep := currentStep s;
     selectedStyle := selectedStyle s; customStyleName := customStyleName s;
     broadTopic := broadTopic s; keyword := keyword s;
     scriptLength := scriptLength s; selectedLanguage := selectedLanguage s;
     selectedTone := selectedTone s; ctaInclusion := ctaInclusion s;
     chatMessages := v; skipRefinement := skipRefinement s;
     showSkipConfirm := showSkipConfirm s;
     questionFetchFailed := questionFetchFailed s;
     hasAttemptedQuestionFetch := hasAttemptedQuestionFetch s;
     messageIdCounter := messageIdCounter s; apiResults := apiResults s;
     isLoading := isLoading s; apiError := apiError s;
     scoreData := scoreData s; hasUnsavedChanges := hasUnsavedChanges s;
     modalTitle := modalTitle s; pending := pending s |}.

Definition set_skipRefinement (v : bool) (s : state) : state :=
  {| isExpanded := isExpanded s; currentStep := currentStep s;
     selectedStyle := selectedStyle s; customStyleName := customStyleName s;
     broadTopic := broadTopic s; keyword := keyword s;
     scriptLength := scriptLength s; selectedLanguage := selectedLanguage s;
     selectedTone := selectedTone s; ctaInclusion := ctaInclusion s;
     chatMessages := chatMessages s; skipRefinement := v;
     showSkipConfirm := showSkipConfirm s;
     questionFetchFailed := questionFetchFailed s;
     hasAttemptedQuestionFetch := hasAttemptedQuestionFetch s;
     messageIdCounter := messageIdCounter s; apiResults := apiResults s;
     isLoading := isLoading s; apiError := apiError s;
     scoreData := scoreData s; hasUnsavedChanges := hasUnsavedChanges s;
     modalTitle := modalTitle s; pending := pending s |}.

Definition set_showSkipConfirm (v : bool) (s : state) : state :=
  {| isExpanded := isExpanded s; currentStep := currentStep s;
     selectedStyle := selectedStyle s; customStyleName := customStyleName s;
     broadTopic := broadTopic s; keyword := keyword s;
     scriptLength := scriptLength s; selectedLanguage := selectedLanguage s;
     selectedTone := selectedTone s; ctaInclusion := ctaInclusion s;
     chatMessages := chatMessages s; skipRefinement := skipRefinement s;
     showSkipConfirm := v; questionFetchFailed := questionFetchFailed s;
     hasAttemptedQuestionFetch := hasAttemptedQuestionFetch s;
     messageIdCounter := messageIdCounter s; apiResults := apiResults s;
     isLoading := isLoading s; apiError := apiError s;
     scoreData := scoreData s; hasUnsavedChanges := hasUnsavedChanges s;
     modalTitle := modalTitle s; pending := pending s |}.

Definition set_questionFetchFailed (v : bool) (s : state) : state :=
  {| isExpanded := isExpanded s; currentStep := currentStep s;
     selectedStyle := selectedStyle s; customStyleName := customStyleName s;
     broadTopic := broadTopic s; keyword := keyword s;
     scriptLength := scriptLength s; selectedLanguage := selectedLanguage s;
     selectedTone := selectedTone s; ctaInclusion := ctaInclusion s;
     chatMessages := chatMessages s; skipRefinement := skipRefinement s;
     showSkipConfirm := showSkipConfirm s; questionFetchFailed := v;
     hasAttemptedQuestionFetch := hasAttemptedQuestionFetch s;
     messageIdCounter := messageIdCounter s; apiResults := apiResults s;
     isLoading := isLoading s; apiError := apiError s;
     scoreData := scoreData s; hasUnsavedChanges := hasUnsavedChanges s;
     modalTitle := modalTitle s; pending := pending s |}.

Definition set_hasAttemptedQuestionFetch (v : bool) (s : state) : state :=
  {| isExpanded := isExpanded s; currentStep := currentStep s;
     selectedStyle := selectedStyle s; customStyleName := customStyleName s;
     broadTopic := broadTopic s; keyword := keyword s;
     scriptLength := scriptLength s; selectedLanguage := selectedLanguage s;
     selectedTone := selectedTone s; ctaInclusion := ctaInclusion s;
     chatMessages := chatMessages s; skipRefinement := skipRefinement s;
     showSkipConfirm := showSkipConfirm s;
     questionFetchFailed := questionFetchFailed s;
     hasAttemptedQuestionFetch := v; messageIdCounter := messageIdCounter s;
     apiResults := apiResults s; isLoading := isLoading s;
     apiError := apiError s; scoreData := scoreData s;
     hasUnsavedChanges := hasUnsavedChanges s; modalTitle := modalTitle s;
     pending := pending s |}.

Definition set_messageIdCounter (v : Z) (s : state) : state :=
  {| isExpanded := isExpanded s; currentStep := currentStep s;
     selectedStyle := selectedStyle s; customStyleName := customStyleName s;
     broadTopic := broadTopic s; keyword := keyword s;
     scriptLength := scriptLength s; selectedLanguage := selectedLanguage s;
     selectedTone := selectedTone s; ctaInclusion := ctaInclusion s;
     chatMessages := chatMessages s; skipRefinement := skipRefinement s;
     showSkipConfirm := showSkipConfirm s;
     questionFetchFailed := questionFetchFailed s;
     hasAttemptedQuestionFetch := hasAttemptedQuestionFetch s;
     messageIdCounter := v; apiResults := apiResults s;
     isLoading := isLoading s; apiError := apiError s;
     scoreData := scoreData s; hasUnsavedChanges := hasUnsavedChanges s;
     modalTitle := modalTitle s; pending := pending s |}.

Definition set_apiResults (v : Js.value) (s : state) : state :=
  {| isExpanded := isExpanded s; currentStep := currentStep s;
     selectedStyle := selectedStyle s; customStyleName := customStyleName s;
     broadTopic := broadTopic s; keyword := keyword s;
     scriptLength := scriptLength s; selectedLanguage := selectedLanguage s;
     selectedTone := selectedTone s; ctaInclusion := ctaInclusion s;
     chatMessages := chatMessages s; skipRefinement := skipRefinement s;
     showSkipConfirm := showSkipConfirm s;
     questionFetchFailed := questionFetchFailed s;
     hasAttemptedQuestionFetch := hasAttemptedQuestionFetch s;
     messageIdCounter := messageIdCounter s; apiResults := v;
     isLoading := isLoading s; apiError := apiError s;
     scoreData := scoreData s; hasUnsavedChanges := hasUnsavedChanges s;
     modalTitle := modalTitle s; pending := pending s |}.

Definition set_isLoading (v : bool) (s : state) : state :=
  {| isExpanded := isExpanded s; currentStep := currentStep s;
     selectedStyle := selectedStyle s; customStyleName := customStyleName s;
     broadTopic := broadTopic s; keyword := keyword s;
     scriptLength := scriptLength s; selectedLanguage := selectedLanguage s;
     selectedTone := selectedTone s; ctaInclusion := ctaInclusion s;
     chatMessages := chatMessages s; skipRefinement := skipRefinement s;
     showSkipConfirm := showSkipConfirm s;
     questionFetchFailed := questionFetchFailed s;
     hasAttemptedQuestionFetch := hasAttemptedQuestionFetch s;
     messageIdCounter := messageIdCounter s; apiResults := apiResults s;
     isLoading := v; apiError := apiError s; scoreData := scoreData s;
     hasUnsavedChanges := hasUnsavedChanges s; modalTitle := modalTitle s;
     pending := pending s |}.

Definition set_apiError (v : option Net.ApiError) (s : state) : state :=
  {| isExpanded := isExpanded s; currentStep := currentStep s;
     selectedStyle := selectedStyle s; customStyleName := customStyleName s;
     broadTopic := broadTopic s; keyword := keyword s;
     scriptLength := scriptLength s; selectedLanguage := selectedLanguage s;
     selectedTone := selectedTone s; ctaInclusion := ctaInclusion s;
     chatMessages := chatMessages s; skipRefinement := skipRefinement s;
     showSkipConfirm := showSkipConfirm s;
     questionFetchFailed := questionFetchFailed s;
     hasAttemptedQuestionFetch := hasAttemptedQuestionFetch s;
     messageIdCounter := messageIdCounter s; apiResults := apiResults s;
     isLoading := isLoading s; apiError := v; scoreData := scoreData s;
     hasUnsavedChanges := hasUnsavedChanges s; modalTitle := modalTitle s;
     pending := pending s |}.

Definition set_scoreData (v : option Score.scores) (s : state) : state :=
  {| isExpanded := isExpanded s; currentStep := currentStep s;
     selectedStyle := selectedStyle s; customStyleName := customStyleName s;
     broadTopic := broadTopic s; keyword := keyword s;
     scriptLength := scriptLength s; selectedLanguage := selectedLanguage s;
     selectedTone := selectedTone s; ctaInclusion := ctaInclusion s;
     chatMessages := chatMessages s; skipRefinement := skipRefinement s;
     showSkipConfirm := showSkipConfirm s;
     questionFetchFailed := questionFetchFailed s;
     hasAttemptedQuestionFetch := hasAttemptedQuestionFetch s;
     messageIdCounter := messageIdCounter s; apiResults := apiResults s;
     isLoading := isLoading s; apiError := apiError s; scoreData := v;
     hasUnsavedChanges := hasUnsavedChanges s; modalTitle := modalTitle s;
     pending := pending s |}.

Definition set_hasUnsavedChanges (v : bool) (s : state) : state :=
  {| isExpanded := isExpanded s; currentStep := currentStep s;
     selectedStyle := selectedStyle s; customStyleName := customStyleName s;
     broadTopic := broadTopic s; keyword := keyword s;
     scriptLength := scriptLength s; selectedLanguage := selectedLanguage s;
     selectedTone := selectedTone s; ctaInclusion := ctaInclusion s;
     chatMessages := chatMessages s; skipRefinement := skipRefinement s;
     showSkipConfirm := showSkipConfirm s;
     questionFetchFailed := questionFetchFailed s;
     hasAttemptedQuestionFetch := hasAttemptedQuestionFetch s;
     messageIdCounter := messageIdCounter s; apiResults := apiResults s;
     isLoading := isLoading s; apiError := apiError s;
     scoreData := scoreData s; hasUnsavedChanges := v;
     modalTitle := modalTitle s; pending := pending s |}.

Definition set_modalTitle (v : option string) (s : state) : state :=
  {| isExpanded := isExpanded s; currentStep := currentStep s;
     selectedStyle := selectedStyle s; customStyleName := customStyleName s;
     broadTopic := broadTopic s; keyword := keyword s;
     scriptLength := scriptLength s; selectedLanguage := selectedLanguage s;
     selectedTone := selectedTone s; ctaInclusion := ctaInclusion s;
     chatMessages := chatMessages s; skipRefinement := skipRefinement s;
     showSkipConfirm := showSkipConfirm s;
     questionFetchFailed := questionFetchFailed s;
     hasAttemptedQuestionFetch := hasAttemptedQuestionFetch s;
     messageIdCounter := messageIdCounter s; apiResults := apiResults s;
     isLoading := isLoading s; apiError := apiError s;
     scoreData := scoreData s; hasUnsavedChanges := hasUnsavedChanges s;
     modalTitle := v; pending := pending s |}.

Definition set_pending (v : runtime) (s : state) : state :=
  {| isExpanded := isExpanded s; currentStep := currentStep s;
     selectedStyle := selectedStyle s; customStyleName := customStyleName s;
     broadTopic := broadTopic s; keyword := keyword s;
     scriptLength := scriptLength s; selectedLanguage := selectedLanguage s;
     selectedTone := selectedTone s; ctaInclusion := ctaInclusion s;
     chatMessages := chatMessages s; skipRefinement := skipRefinement s;
     showSkipConfirm := showSkipConfirm s;
     questionFetchFailed := questionFetchFailed s;
     hasAttemptedQuestionFetch := hasAttemptedQuestionFetch s;
     messageIdCounter := messageIdCounter s; apiResults := apiResults s;
     isLoading := isLoading s; apiError := apiError s;
     scoreData := scoreData s; hasUnsavedChanges := hasUnsavedChanges s;
     modalTitle := modalTitle s; pending := v |}.

Notation "s |> f" := (f s) (at level 45, left associativity, only parsing).

Definition idle : runtime :=
  {| questionFetches := []; effectOwnsFetch := false; effectDeps := None;
     generationCalls := 0; generationsInFlight := 0;
     repliesInFlight := 0; transitionsInFlight := 0; publications := 0 |}.

(** The initial values of the cells (Code.tsx 191-268). *)
Definition initial : state :=
  {| isExpanded := false; currentStep := 1;
     selectedStyle := ""; customStyleName := ""; broadTopic := "";
     keyword := ""; scriptLength := 45;
     selectedLanguage := "Select"; selectedTone := "Select";
     ctaInclusion := false; chatMessages := [];
     skipRefinement := false; showSkipConfirm := false;
     questionFetchFailed := false; hasAttemptedQuestionFetch := false;
     messageIdCounter := 0; apiResults := Js.Null; isLoading := false;
     apiError := None; scoreData := None; hasUnsavedChanges := false;
     modalTitle := None; pending := idle |}.

(* ------------------------------------------------------------------ *)
(** *** Step navigation (Code.tsx 1314-1352) *)

(** [a < b] on numbers. *)
Definition Qlt_bool (a b : Q) : bool := negb (Qle_bool b a).

Definition handleNext (s : state) : state :=
  if Qeq_bool (currentStep s) 3 then
    s |> set_currentStep 3.5
      |> set_questionFetchFailed false
      |> set_hasAttemptedQuestionFetch false
  else if (Qlt_bool (currentStep s) 4
           && negb (Qeq_bool (currentStep s) 3.5))%bool then
    s |> set_currentStep (currentStep s + 1)
  else s.

Definition handleBack (s : state) : state :=
  if Qeq_bool (currentStep s) 3.5 then
    s |> set_currentStep 3
      |> set_chatMessages []
      |> set_skipRefinement false
      |> set_questionFetchFailed false
      |> set_hasAttemptedQuestionFetch false
  else if Qlt_bool 1 (currentStep s) then
    s |> set_currentStep (currentStep s - 1)
  else s.

Definition nonempty (t : string) : bool := negb (String.eqb t "").

Definition canProceed (s : state) : bool :=
  if Qeq_bool (currentStep s) 1 then
    (nonempty (selectedStyle s)
     && (negb (String.eqb (selectedStyle s) "other")
         || nonempty (Text.trim (customStyleName s))))%bool
  else if Qeq_bool (currentStep s) 2 then nonempty (Text.trim (keyword s))
  else if Qeq_bool (currentStep s) 3 then
    (negb (String.eqb (selectedTone s) "Select")
     && negb (String.eqb (selectedLanguage s) "Select"))%bool
  else if Qeq_bool (currentStep s) 3.5 then false
  else true.

(* ------------------------------------------------------------------ *)
(** *** Skipping the refinement (Code.tsx 990-998) *)

Definition handleSkipRefinement (s : state) : state :=
  s |> set_showSkipConfirm true.

Definition confirmSkip (s : state) : state :=
  s |> set_skipRefinement true
    |> set_showSkipConfirm false
    |> set_currentStep 4.

(* ------------------------------------------------------------------ *)
(** *** The chat (Code.tsx 926-988) *)

(** [generateMessageId]: the counter cell is advanced, the identifier is
    made of the clock and the counter. *)
Definition generateMessageId (now : Z) (s : state) : message_id * state :=
  let n := (messageIdCounter s + 1)%Z in
  ({| id_time := now; id_count := n |}, s |> set_messageIdCounter n).

Definition message_id_eqb (a b : message_id) : bool :=
  (Z.eqb (id_time a) (id_time b) && Z.eqb (id_count a) (id_count b))%bool.

(** [l.slice(-n)]: the last [n] elements, all of them when there are
    fewer. *)
Definition slice_last {A : Type} (n : nat) (l : list A) : list A :=
  skipn (List.length l - n) l.

Definition clear_options (answered : message_id) (msg : ChatMessage)
  : ChatMessage :=
  if message_id_eqb (id msg) answered then
    {| id := id msg; type := type msg; content := content msg;
       options := None; timestamp := timestamp msg |}
  else msg.

(** [handleChatResponse(response, messageId)] up to its [setTimeout]: the
    options of the answered question are removed, the answer is appended
    behind the last 49 messages, and the request for the next question is
    scheduled. *)
Definition handleChatResponse
  (response : string) (messageId : option message_id) (now : Z) (s : state)
  : state :=
  let s1 :=
    match messageId with
    | Some m => s |> set_chatMessages (map (clear_options m) (chatMessages s))
    | None => s
    end in
  let '(mid, s2) := generateMessageId now s1 in
  s2 |> set_chatMessages
          (slice_last 49 (chatMessages s2)
           ++ [ {| id := mid; type := user; content := response;
                   options := None; timestamp := now |} ])%list
     |> set_pending
          (pending s2 |> set_repliesInFlight (S (repliesInFlight (pending s2)))).

Definition closing_text : string := "Great! Generating the final script…".

(** [(nextQ.options || []).filter(opt => opt != null && opt !== '')] *)
Definition keep_options (l : list string) : list string :=
  filter nonempty l.

Definition asks (r : question_reply) : option string :=
  match question r with
  | Some q => if nonempty q then Some q else None
  | None => None
  end.

(** The callback handed to [typeMessage] inside the timer of
    [handleChatResponse], run when the typing has finished: the question
    is appended, or the closing line is appended and the move to step 4 is
    scheduled.  [content] receives the text that [cleanTextForTyping]
    produced from the question. *)
Definition chatReplyTyped (nextQ : question_reply) (now : Z) (s : state)
  : state :=
  let s0 :=
    s |> set_pending
           (pending s |> set_repliesInFlight (Nat.pred (repliesInFlight (pending s)))) in
  let '(mid, s1) := generateMessageId now s0 in
  match asks nextQ with
  | Some cleanedQuestion =>
      s1 |> set_chatMessages
              (chatMessages s1
               ++ [ {| id := mid; type := ai; content := cleanedQuestion;
                       options := Some (keep_options (reply_options nextQ));
                       timestamp := now |} ])%list
  | None =>
      s1 |> set_chatMessages
              (chatMessages s1
               ++ [ {| id := mid; type := ai; content := closing_text;
                       options := None; timestamp := now |} ])%list
         |> set_pending
              (pending s1
               |> set_transitionsInFlight (S (transitionsInFlight (pending s1))))
  end.

(** [setTimeout(() => setCurrentStep(4), TIMINGS.STEP_TRANSITION)] *)
Definition chatTransition (s : state) : state :=
  s |> set_pending
         (pending s
          |> set_transitionsInFlight (Nat.pred (transitionsInFlight (pending s))))
    |> set_currentStep 4.

(* ------------------------------------------------------------------ *)
(** *** The final generation (Code.tsx 1001-1122) *)

(** [fetchFinalScriptRef.current()] up to its first [await]. *)
Definition fetchFinalScript (s : state) : state :=
  s |> set_isLoading true
    |> set_apiError None
    |> set_apiResults Js.Null
    |> set_scoreData None
    |> set_pending
         (pending s
          |> set_generationCalls (S (generationCalls (pending s)))
          |> set_generationsInFlight (S (generationsInFlight (pending s)))).

(** What the branch on the content type reads from the body of an ok
    answer (Code.tsx 1060-1102): the value of [response.json()], or of
    [safeJsonParse] applied to the text of [response.text()], or of
    [safeJsonParse] applied to the trimmed text of all the chunks of an
    event stream; or what is thrown on the way ([response.json()] and
    [response.text()] can throw, and the event-stream branch throws when
    the body has no reader). *)
Inductive decoded : Type :=
| Decoded (v : Js.value)
| DecodeThrows (e : Net.JsError).

(** The rest of [fetchFinalScriptRef.current()]: the [try] after
    [fetchWithRetry] has completed with [c], the [catch] and the
    [finally].  In the event-stream branch [setApiResults(acc)] and
    [setApiResults(final)] are called one after the other, and the second
    one wins. *)
Definition fetchFinalScript_settled
  (onLine : bool) (c : Net.completion) (d : decoded) (s : state) : state :=
  let s1 :=
    match Net.generation_error c with
    | Some error => s |> set_apiError (Some (Net.createApiError onLine error))
    | None =>
        match d with
        | Decoded v => s |> set_apiResults (normalizeResult v)
        | DecodeThrows e =>
            s |> set_apiError (Some (Net.createApiError onLine (Some e)))
        end
    end in
  s1 |> set_isLoading false
     |> set_pending
          (pending s1
           |> set_generationsInFlight (Nat.pred (generationsInFlight (pending s1)))).

(** The event-stream branch while it reads (Code.tsx 1067-1084).  A chunk
    that finds [updateScheduled] false sets a timer of 100 ms;
    [streamChunk] is that chunk.  The flag belongs to the call, and the
    calls in flight are only counted here, so the count stands for the
    timers of all of them: the sessions of the model are the ones of the
    component and some more, in which a call has several timers set. *)
Definition streamChunk (s : state) : state :=
  s |> set_pending
         (pending s |> set_publications (S (publications (pending s)))).

(** The timer fires: [setApiResults(acc)], where [acc] is the text read
    by then, the whole text if the stream has ended. *)
Definition streamPublished (acc : string) (s : state) : state :=
  s |> set_apiResults (Js.Str acc)
    |> set_pending
         (pending s |> set_publications (Nat.pred (publications (pending s)))).

(** The test of the effect of Code.tsx 1118-1122. *)
Definition generationWanted (s : state) : bool :=
  (Qeq_bool (currentStep s) 4
   && negb (Js.truthy (apiResults s))
   && negb (isLoading s))%bool.

Definition generationEffect (s : state) : state :=
  if generationWanted s then fetchFinalScript s else s.

(** The effect of Code.tsx 783-787.  A [TypeError] inside the effect
    stores nothing. *)
Definition scoreEffect (s : state) : state :=
  if (Js.truthy (apiResults s) && Qeq_bool (currentStep s) 4)%bool then
    match Score.calculateScores (apiResults s) (scriptLength s) (ctaInclusion s) with
    | Score.Scored sc => s |> set_scoreData (Some sc)
    | Score.NotScored | Score.TypeError => s
    end
  else s.

(** The "Retry" button of the error panel and the "Regenerate" entry of
    the actions menu (Code.tsx 5615, 6067-6074). *)
Definition retryGeneration (s : state) : state := fetchFinalScript s.

Definition regenerate (s : state) : state :=
  fetchFinalScript (s |> set_apiResults Js.Null |> set_scoreData None).

(** The "Go back" button of the error panel (Code.tsx 5643-5647). *)
Definition errorGoBack (s : state) : state :=
  handleBack (s |> set_apiError None).

(* ------------------------------------------------------------------ *)
(** *** The first refinement question (Code.tsx 668-723, 1124-1201) *)

Definition no_question : question_reply :=
  {| question := None; reply_options := [] |}.

(** [fetchNextQuestion]: the request goes through [fetchWithRetry] with two
    retries; whatever is thrown inside the [try] is caught and replaced by
    [{question: null, options: []}].  [decode] is [res.json()], [None]
    when it throws. *)
Definition fetchNextQuestion
  (net : Net.network) (decode : string -> option question_reply)
  : question_reply :=
  match snd (Net.fetchWithRetry 2 net) with
  | Net.Returns res =>
      if Net.ok res then
        match decode (Net.body res) with
        | Some data => data
        | None => no_question
        end
      else no_question
  | Net.Throws _ => no_question
  end.

Definition questionWanted (s : state) : bool :=
  (Qeq_bool (currentStep s) 3.5
   && Nat.eqb (List.length (chatMessages s)) 0
   && negb (isLoading s)
   && negb (hasAttemptedQuestionFetch s))%bool.

(** One run of the effect body: a fresh [isMounted] is [true]; when the
    test passes the attempt is recorded, loading starts and the call is
    made. *)
Definition questionEffect (s : state) : state :=
  if questionWanted s then
    s |> set_hasAttemptedQuestionFetch true
      |> set_isLoading true
      |> set_pending
           (pending s
            |> set_questionFetches
                 ({| isMounted := true; typing := None |}
                  :: questionFetches (pending s))
            |> set_effectOwnsFetch true)
  else
    s |> set_pending (pending s |> set_effectOwnsFetch false).

(** The cleanup returned by the last run: [isMounted = false], on the
    variable of that run. *)
Definition questionEffect_cleanup (s : state) : state :=
  if effectOwnsFetch (pending s) then
    match questionFetches (pending s) with
    | f :: rest =>
        s |> set_pending
               (pending s
                |> set_questionFetches
                     ({| isMounted := false; typing := typing f |} :: rest))
    | [] => s
    end
  else s.

Definition fallback_text : string :=
  "Unable to generate refinement questions. You can skip this step.".

Fixpoint remove_nth {A : Type} (k : nat) (l : list A) : list A :=
  match k, l with
  | _, [] => []
  | O, _ :: r => r
  | S k', x :: r => x :: remove_nth k' r
  end.

Fixpoint replace_nth {A : Type} (k : nat) (y : A) (l : list A) : list A :=
  match k, l with
  | _, [] => []
  | O, _ :: r => y :: r
  | S k', x :: r => x :: replace_nth k' y r
  end.

Definition set_fetches (l : list question_fetch) (s : state) : state :=
  s |> set_pending (pending s |> set_questionFetches l).

(** A question that passes [firstQ && firstQ.question && firstQ.question.trim()]. *)
Definition valid_question (r : question_reply) : option string :=
  match question r with
  | Some q => if (nonempty q && nonempty (Text.trim q))%bool then Some q else None
  | None => None
  end.

(** The [.then] callback of call number [k], run with the reply
    [firstQ]. *)
Definition questionResolved
  (k : nat) (firstQ : question_reply) (now : Z) (s : state) : state :=
  match nth_error (questionFetches (pending s)) k with
  | None => s
  | Some f =>
      if negb (isMounted f) then
        s |> set_fetches (remove_nth k (questionFetches (pending s)))
      else
        match valid_question firstQ with
        | Some cleanedQuestion =>
            s |> set_fetches
                   (replace_nth k
                      {| isMounted := isMounted f;
                         typing := Some (cleanedQuestion,
                                         keep_options (reply_options firstQ)) |}
                      (questionFetches (pending s)))
        | None =>
            let '(mid, s1) := generateMessageId now s in
            s1 |> set_isLoading false
               |> set_questionFetchFailed true
               |> set_chatMessages
                    [ {| id := mid; type := ai; content := fallback_text;
                         options := Some []; timestamp := now |} ]
               |> set_fetches (remove_nth k (questionFetches (pending s1)))
        end
  end.

(** The callback handed to [typeMessage] by the [.then] callback, run when
    the typing of the first question has finished. *)
Definition questionTyped (k : nat) (now : Z) (s : state) : state :=
  match nth_error (questionFetches (pending s)) k with
  | None => s
  | Some f =>
      match typing f with
      | None => s
      | Some (cleanedQuestion, opts) =>
          if negb (isMounted f) then
            s |> set_fetches (remove_nth k (questionFetches (pending s)))
          else
            let '(mid, s1) := generateMessageId now s in
            s1 |> set_chatMessages
                    [ {| id := mid; type := ai; content := cleanedQuestion;
                         options := Some opts; timestamp := now |} ]
               |> set_isLoading false
               |> set_fetches (remove_nth k (questionFetches (pending s1)))
      end
  end.

(* ------------------------------------------------------------------ *)
(** *** The session snapshot (Code.tsx 384-464) *)

(** The object written under ["ideaGenerator_state"]; [snap_timestamp] is
    [None] when the stored object has no [timestamp]. *)
Record snapshot : Type := {
  snap_currentStep : Q;
  snap_selectedStyle : string;
  snap_customStyleName : string;
  snap_broadTopic : string;
  snap_keyword : string;
  snap_scriptLength : Z;
  snap_selectedLanguage : string;
  snap_selectedTone : string;
  snap_ctaInclusion : bool;
  snap_chatMessages : list ChatMessage;
  snap_timestamp : option Z
}.

(** What the restore effect finds: no item, an item that makes
    [getItem], [JSON.parse] or the reading of [state.timestamp] throw, or
    a stored object. *)
Inductive stored : Type :=
| NoItem
| Unreadable
| Saved (snap : snapshot).

(** The object built by the auto-save effect at time [now]. *)
Definition autosave (now : Z) (s : state) : snapshot :=
  {| snap_currentStep := currentStep s;
     snap_selectedStyle := selectedStyle s;
     snap_customStyleName := customStyleName s;
     snap_broadTopic := broadTopic s;
     snap_keyword := keyword s;
     snap_scriptLength := scriptLength s;
     snap_selectedLanguage := selectedLanguage s;
     snap_selectedTone := selectedTone s;
     snap_ctaInclusion := ctaInclusion s;
     snap_chatMessages := chatMessages s;
     snap_timestamp := Some now |}.

(** [!state.timestamp] *)
Definition no_timestamp (snap : snapshot) : bool :=
  match snap_timestamp snap with
  | None => true
  | Some t => Z.eqb t 0
  end.

Definition repopulate (snap : snapshot) (s : state) : state :=
  s |> set_currentStep (snap_currentStep snap)
    |> set_selectedStyle (snap_selectedStyle snap)
    |> set_customStyleName (snap_customStyleName snap)
    |> set_broadTopic (snap_broadTopic snap)
    |> set_keyword (snap_keyword snap)
    |> set_scriptLength (snap_scriptLength snap)
    |> set_selectedLanguage (snap_selectedLanguage snap)
    |> set_selectedTone (snap_selectedTone snap)
    |> set_ctaInclusion (snap_ctaInclusion snap)
    |> set_chatMessages (snap_chatMessages snap)
    |> set_hasUnsavedChanges true.

(** The restore effect, run at time [now] ([Date.now()]). *)
Definition restore (now : Z) (item : stored) (s : state) : state :=
  if isExpanded s then s
  else
    match item with
    | NoItem => s
    | Unreadable => s |> set_modalTitle (Some "Restore Failed")
    | Saved snap =>
        if no_timestamp snap then s
        else
          let age := (now - match snap_timestamp snap with
                            | Some t => t
                            | None => 0
                            end)%Z in
          if Z.ltb age 3600000 then repopulate snap s else s
    end.

(* ------------------------------------------------------------------ *)
(** *** Closing the panel (Code.tsx 2543-2611) *)

Definition collapse_confirmed (s : state) : state :=
  s |> set_modalTitle None
    |> set_isExpanded false
    |> set_currentStep 1
    |> set_selectedStyle ""
    |> set_customStyleName ""
    |> set_broadTopic ""
    |> set_keyword ""
    |> set_apiResults Js.Null
    |> set_chatMessages []
    |> set_hasUnsavedChanges false.

Definition collapse_now (s : state) : state :=
  s |> set_isExpanded false
    |> set_currentStep 1
    |> set_selectedStyle ""
    |> set_customStyleName ""
    |> set_broadTopic ""
    |> set_keyword ""
    |> set_scriptLength 45
    |> set_selectedLanguage "Select"
    |> set_selectedTone "Select"
    |> set_ctaInclusion false
    |> set_apiResults Js.Null
    |> set_isLoading false
    |> set_apiError None
    |> set_scoreData None
    |> set_chatMessages []
    |> set_skipRefinement false
    |> set_hasUnsavedChanges false.

Definition handleCollapse (s : state) : state :=
  if (hasUnsavedChanges s || Qlt_bool 1 (currentStep s))%bool then
    s |> set_modalTitle (Some "Unsaved Work")
  else collapse_now s.

(** The confirm button of the modal: [onConfirm]. *)
Definition modalConfirm (s : state) : state :=
  match modalTitle s with
  | Some t =>
      if String.eqb t "Unsaved Work" then collapse_confirmed s
      else s |> set_modalTitle None
  | None => s
  end.

Definition modalCancel (s : state) : state := s |> set_modalTitle None.

(* ------------------------------------------------------------------ *)
(** *** Rendering: the effects after a state change *)

Definition deps_eqb (a b : Q * nat * bool) : bool :=
  let '(s1, n1, l1) := a in
  let '(s2, n2, l2) := b in
  (Qeq_bool s1 s2 && Nat.eqb n1 n2 && Bool.eqb l1 l2)%bool.

(** The dependencies of the first-question effect that are state:
    [currentStep], [chatMessages.length], [isLoading].  The three
    callbacks of the list also change identity, with the forms and the
    chat; a run caused by them alone finds the three values above and the
    attempt cell as the previous run left them, and so decides as that
    run did. *)
Definition questionDeps (s : state) : Q * nat * bool :=
  (currentStep s, List.length (chatMessages s), isLoading s).

Definition deps_changed (s : state) : bool :=
  match effectDeps (pending s) with
  | None => true
  | Some d => negb (deps_eqb d (questionDeps s))
  end.

(** One render and commit.  The score effect and the generation effect
    have no cleanup and test nothing but their dependencies, so they are
    run at every commit.  The first-question effect is run when one of its
    dependencies differs from the previous render, after the cleanup of
    its previous run. *)
Definition plainEffects (s : state) : state :=
  generationEffect (scoreEffect s).

Definition render (s : state) : state :=
  let rerun := deps_changed s in
  let deps := questionDeps s in
  let s1 := plainEffects s in
  if rerun then
    let s2 := questionEffect (questionEffect_cleanup s1) in
    s2 |> set_pending (pending s2 |> set_effectDeps (Some deps))
  else s1.

(** A state change is followed by renders until no effect writes any
    more; two are enough (see [render_settles]). *)
Definition commit (s : state) : state := render (render s).

(* ------------------------------------------------------------------ *)
(** *** Events *)

Inductive event : Type :=
| Expand
| SelectStyle (styleId : string)
| TypeCustomStyle (t : string)
| TypeKeyword (t : string)
| SetScriptLength (n : Z)
| PickLanguage (l : string)
| PickTone (t : string)
| SetCta (b : bool)
| Next
| Back
| ErrorGoBack
| SkipRequest
| SkipCancel
| SkipConfirm
| ChatSend (response : string) (messageId : option message_id) (now : Z)
| ChatReplyTyped (nextQ : question_reply) (now : Z)
| ChatTransition
| QuestionResolved (k : nat) (firstQ : question_reply) (now : Z)
| QuestionTyped (k : nat) (now : Z)
| Retry
| Regenerate
| GenerationSettled (onLine : bool) (c : Net.completion) (d : decoded)
| Collapse
| ModalConfirm
| ModalCancel
| StreamChunk (r : Net.Response)
| StreamPublished (acc : string).

Definition handler (e : event) (s : state) : state :=
  match e with
  | Expand => s |> set_isExpanded true
  | SelectStyle x => s |> set_selectedStyle x
  | TypeCustomStyle x => s |> set_customStyleName x
  | TypeKeyword x => s |> set_keyword x
  | SetScriptLength n => s |> set_scriptLength n
  | PickLanguage l => s |> set_selectedLanguage l
  | PickTone t => s |> set_selectedTone t
  | SetCta b => s |> set_ctaInclusion b
  | Next => handleNext s
  | Back => handleBack s
  | ErrorGoBack => errorGoBack s
  | SkipRequest => handleSkipRefinement s
  | SkipCancel => s |> set_showSkipConfirm false
  | SkipConfirm => confirmSkip s
  | ChatSend r m now => handleChatResponse r m now s
  | ChatReplyTyped q now => chatReplyTyped q now s
  | ChatTransition => chatTransition s
  | QuestionResolved k q now => questionResolved k q now s
  | QuestionTyped k now => questionTyped k now s
  | Retry => retryGeneration s
  | Regenerate => regenerate s
  | GenerationSettled o c d => fetchFinalScript_settled o c d s
  | Collapse => handleCollapse s
  | ModalConfirm => modalConfirm s
  | ModalCancel => modalCancel s
  | StreamChunk _ => streamChunk s
  | StreamPublished acc => streamPublished acc s
  end.

(** An event: its handler, then the renders it causes. *)
Definition apply (e : event) (s : state) : state := commit (handler e s).

(** The values of [type Step = 1 | 2 | 3 | 3.5 | 4]. *)
Definition valid_step (q : Q) : Prop :=
  q = 1 \/ q = 2 \/ q = 3 \/ q = 3.5 \/ q = 4.

(** The names the specification gives to the steps, in their order. *)
Inductive step_name : Type := Style | Topic | Settings | Refinement | Result.

Definition step_value (n : step_name) : Q :=
  match n with
  | Style => 1
  | Topic => 2
  | Settings => 3
  | Refinement => 3.5
  | Result => 4
  end.

Definition position (n : step_name) : nat :=
  match n with
  | Style => 0
  | Topic => 1
  | Settings => 2
  | Refinement => 3
  | Result => 4
  end.

(** The name of a step value ([Style] for a number that is no step). *)
Definition name_of (q : Q) : step_name :=
  if Qeq_bool q 2 then Topic
  else if Qeq_bool q 3 then Settings
  else if Qeq_bool q 3.5 then Refinement
  else if Qeq_bool q 4 then Result
  else Style.

(** A completion of asynchronous work can only happen for work that is in
    flight; a chunk of an event stream is read from the ok answer [r] of a
    generation in flight whose content type names an event stream. *)
Definition possible (e : event) (s : state) : bool :=
  match e with
  | ChatReplyTyped _ _ => Nat.ltb 0 (repliesInFlight (pending s))
  | ChatTransition => Nat.ltb 0 (transitionsInFlight (pending s))
  | QuestionResolved k _ _ =>
      match nth_error (questionFetches (pending s)) k with
      | Some f => match typing f with None => true | Some _ => false end
      | None => false
      end
  | QuestionTyped k _ =>
      match nth_error (questionFetches (pending s)) k with
      | Some f => match typing f with None => false | Some _ => true end
      | None => false
      end
  | GenerationSettled _ _ _ => Nat.ltb 0 (generationsInFlight (pending s))
  | StreamChunk r =>
      (Nat.ltb 0 (generationsInFlight (pending s))
       && Net.ok r && Net.streamed r)%bool
  | StreamPublished _ => Nat.ltb 0 (publications (pending s))
  | _ => true
  end.

(** The error panel shows its two buttons for a retryable error. *)
Definition has_error (s : state) : bool :=
  match apiError s with Some e => Net.retryable e | None => false end.

(** What the interface lets happen in a state: buttons that are rendered
    and not disabled, and the keyboard shortcuts. *)
Definition offered (e : event) (s : state) : bool :=
  (possible e s &&
   match e with
   | Expand => negb (isExpanded s)
   | SelectStyle _ | TypeCustomStyle _ =>
       isExpanded s && Qeq_bool (currentStep s) 1
   | TypeKeyword _ => isExpanded s && Qeq_bool (currentStep s) 2
   | SetScriptLength _ | PickLanguage _ | PickTone _ | SetCta _ =>
       isExpanded s && Qeq_bool (currentStep s) 3
   | Next =>
       isExpanded s && canProceed s && negb (Qeq_bool (currentStep s) 4)
   | Back => Qlt_bool 1 (currentStep s)
   | ErrorGoBack | Retry =>
       isExpanded s && Qeq_bool (currentStep s) 4 && has_error s
       && negb (isLoading s)
   | SkipRequest => isExpanded s && Qeq_bool (currentStep s) 3.5
   | SkipCancel | SkipConfirm =>
       isExpanded s && Qeq_bool (currentStep s) 3.5 && showSkipConfirm s
   | ChatSend r _ _ =>
       isExpanded s && Qeq_bool (currentStep s) 3.5 && nonempty (Text.trim r)
   | Regenerate =>
       isExpanded s && Qeq_bool (currentStep s) 4 && Js.truthy (apiResults s)
       && negb (isLoading s)
   | Collapse => isExpanded s
   | ModalConfirm | ModalCancel =>
       match modalTitle s with Some _ => true | None => false end
   | ChatReplyTyped _ _ | ChatTransition | QuestionResolved _ _ _
   | QuestionTyped _ _ | GenerationSettled _ _ _
   | StreamChunk _ | StreamPublished _ => true
   end)%bool.

(** The item found at a cold start was written by the auto-save of an
    earlier session, or is unreadable, or is missing. *)
Definition written_by_autosave (item : stored) : Prop :=
  match item with
  | Saved snap => valid_step (snap_currentStep snap)
  | NoItem | Unreadable => True
  end.

(** Mounting: every effect runs once on the initial cells, among them the
    restore effect; then the renders its writes cause. *)
Definition boot (now : Z) (item : stored) : state :=
  commit (restore now item (render initial)).

(** States the component can be in.  The events of the user are taken in
    any state, offered by the interface or not, so that what holds of all
    reachable states does not depend on the guards of the interface. *)
Inductive reachable : state -> Prop :=
| reachable_boot now item :
    written_by_autosave item -> reachable (boot now item)
| reachable_apply e s :
    reachable s -> possible e s = true -> reachable (apply e s).

(** A session: events taken one after the other, each of them offered by
    the interface in the state it is taken in. *)
Fixpoint run (es : list event) (s : state) : option state :=
  match es with
  | [] => Some s
  | e :: rest => if offered e s then run rest (apply e s) else None
  end.

End Wizard.

(* ================================================================== *)
(** ** Concrete inputs and tables used by the statements *)
(* ================================================================== *)

Module Scenario.

Import Wizard.

(** The status line of a 4xx answer starts with the digit 4. *)
Definition starts_with_4 (n : nat) : bool :=
  match Net.decimal (400 + Z.of_nat n) with
  | String c _ => Ascii.eqb c "4"
  | EmptyString => false
  end.

Definition not_found : Net.Response :=
  {| Net.status := 404; Net.statusText := "Not Found";
     Net.contentType := "application/json"; Net.body := "" |}.

Definition unavailable : Net.Response :=
  {| Net.status := 500; Net.statusText := "Internal Server Error";
     Net.contentType := "text/plain"; Net.body := "" |}.

(** A service that fails once with 500 and then answers 404. *)
Definition flaky_then_missing : Net.network :=
  fun i => match i with
           | O => Net.Resolves unavailable
           | S _ => Net.Resolves not_found
           end.

(** A service that is down. *)
Definition always_unavailable : Net.network :=
  fun _ => Net.Resolves unavailable.

(** Where [handleNext] and [handleBack] lead from each step. *)
Definition after_next (n : step_name) : step_name :=
  match n with
  | Style => Topic
  | Topic => Settings
  | Settings => Refinement
  | Refinement => Refinement
  | Result => Result
  end.

Definition after_back (n : step_name) : step_name :=
  match n with
  | Style => Style
  | Topic => Style
  | Settings => Topic
  | Refinement => Settings
  | Result => Settings
  end.

(** The user's style, keyword and settings. *)
Definition selections (s : state)
  : string * string * string * string * Z * string * string * bool :=
  (selectedStyle s, customStyleName s, broadTopic s, keyword s,
   scriptLength s, selectedLanguage s, selectedTone s, ctaInclusion s).

(** Events that are no part of the dialogue: everything but an answer of
    the user and the late callbacks of a question call. *)
Definition outside_dialogue (e : event) : bool :=
  match e with
  | ChatSend _ _ _ | ChatReplyTyped _ _
  | QuestionResolved _ _ _ | QuestionTyped _ _ => false
  | _ => true
  end.

(** Events taken one after the other, offered or not. *)
Fixpoint play (es : list event) (s : state) : state :=
  match es with
  | [] => s
  | e :: rest => play rest (apply e s)
  end.

(** A user who fills the three forms and arrives at the refinement. *)
Definition to_refinement : list event :=
  [Expand; SelectStyle "meme"; Next; TypeKeyword "cats"; Next;
   PickTone "Casual"; PickLanguage "English"; Next].

(** The question call of the refinement entry fails: [fetchNextQuestion]
    has turned the failure into [no_question]. *)
Definition question_call_fails : list event :=
  (to_refinement ++ [QuestionResolved 0 no_question 1000])%list.

(** The user skips the refinement and confirms. *)
Definition skip : list event := [SkipRequest; SkipConfirm].

Definition answer (n : nat) : event := ChatSend "yes" None (Z.of_nat n).

Definition next_question : event :=
  ChatReplyTyped {| question := Some "And then?"; reply_options := [] |} 2000.

(** One exchange of the dialogue: an answer of the user, then the next
    question of the service. *)
Definition exchange (n : nat) : list event := [answer n; next_question].

(** Twenty-five exchanges in the refinement, then one more answer. *)
Definition long_dialogue : list event :=
  (to_refinement ++ flat_map exchange (seq 0 25) ++ [answer 25])%list.

(** A snapshot saved in step [q] of an earlier session, with one answer
    given in the refinement. *)
Definition saved_at (q : Q) (t : option Z) : snapshot :=
  {| snap_currentStep := q;
     snap_selectedStyle := "meme";
     snap_customStyleName := "";
     snap_broadTopic := "";
     snap_keyword := "cats";
     snap_scriptLength := 45;
     snap_selectedLanguage := "English";
     snap_selectedTone := "Casual";
     snap_ctaInclusion := false;
     snap_chatMessages :=
       [ {| id := {| id_time := 10; id_count := 1 |}; type := user;
            content := "yes"; options := None; timestamp := 10 |} ];
     snap_timestamp := t |}.

Definition saved_in_result (t : option Z) : snapshot := saved_at 4 t.

(** Every question call in flight has had its [isMounted] set to
    [false], and no effect run is left whose cleanup is still to come. *)
Definition unmounted (l : list question_fetch) : Prop :=
  Forall (fun f => isMounted f = false) l.

Definition calm (s : state) : Prop :=
  effectOwnsFetch (pending s) = false
  /\ unmounted (questionFetches (pending s)).

(** What a render makes of a calm state: a calm state in which a further
    render can only come from loading having started, or a state in which
    the first-question effect has just made its call. *)
Definition settled_or_fired (r : state) : Prop :=
  (calm r /\ (deps_changed r = true -> isLoading r = true))
  \/ (effectOwnsFetch (pending r) = true
      /\ (exists f rest,
            questionFetches (pending r) = f :: rest /\ unmounted rest)
      /\ isLoading r = true
      /\ deps_changed r = true).

(** The two ways into the Result step. *)
Definition enters_result (e : event) : Prop :=
  e = SkipConfirm \/ e = ChatTransition.

Definition script_arrives : event :=
  GenerationSettled true
    (Net.Returns {| Net.status := 200; Net.statusText := "OK";
                    Net.contentType := "application/json"; Net.body := "" |})
    (Decoded (Js.Obj [("result", Js.Str "Cats are great. Subscribe?")])).

(** An answer that is an event stream, and the text of its chunks, which
    ends in a space; trimmed, it is no JSON text, and [safeJsonParse]
    gives it back as it is. *)
Definition streamed_answer : Net.Response :=
  {| Net.status := 200; Net.statusText := "OK";
     Net.contentType := "text/event-stream; charset=utf-8"; Net.body := "" |}.

Definition streamed_text : string := "Cats are great. Subscribe? ".

(** The session is restored in the Result step, the script arrives, the
    user goes back to the settings, forward into the refinement, and
    skips it. *)
Definition back_and_skip : list event :=
  [script_arrives; Expand; Back; Next; SkipRequest].

End Scenario.

(* ================================================================== *)
(** ** What the requests carry, and measures of a retry trace *)
(* ================================================================== *)

Module Request.

Import Wizard.

(** [selectedStyle === "other" ? customStyleName : selectedStyle]
    (Code.tsx 688, 805, 1023). *)
Definition style (s : state) : string :=
  if String.eqb (selectedStyle s) "other" then customStyleName s
  else selectedStyle s.

Definition is_user (m : ChatMessage) : bool :=
  match type m with user => true | ai => false end.

(** The answers of the user, joined (Code.tsx 1016-1019). *)
Definition answers (s : state) : string :=
  Text.join ", " (map content (filter is_user (chatMessages s))).

(** [refinementContext: skipRefinement ? null : refinementContext]
    (Code.tsx 1029); [None] is [null]. *)
Definition refinementContext (s : state) : option string :=
  if skipRefinement s then None else Some (answers s).

End Request.

Module Measure.

Import PrimFloat.

(** The number of space characters of a text. *)
Fixpoint spaces (t : string) : nat :=
  match t with
  | EmptyString => O
  | String c r => if Ascii.eqb c " " then S (spaces r) else spaces r
  end.

(** A text of white space only. *)
Fixpoint blank (t : string) : bool :=
  match t with
  | EmptyString => true
  | String c r => (Text.is_space c && blank r)%bool
  end.







End Measure.

Module Trace.

Import Net.

(** The calls of [fetch] and the milliseconds slept in a trace. *)
Definition fetches (acts : list action) : nat :=
  List.length (filter (fun a => match a with Fetch _ => true | _ => false end)
                      acts).

Fixpoint slept (acts : list action) : Z :=
  match acts with
  | [] => 0
  | Sleep ms :: rest => ms + slept rest
  | _ :: rest => slept rest
  end.

(** The trace of [k] attempts made one after the other. *)
Definition rounds (k : nat) : list action :=
  flat_map (fun j => before_attempt j ++ [Fetch j])%list (seq 0 k).

(** An outcome after which the loop does not go on whatever the index:
    an answer below 500, or an abort. *)
Definition final (f : fetched) : bool :=
  match f with
  | Resolves r => Z.ltb (status r) 500
  | Rejects e => String.eqb (name e) "AbortError"
  end.

(** The status line of a 5xx answer starts with the digit 5. *)
Definition starts_with_5 (n : nat) : bool :=
  match decimal (500 + Z.of_nat n) with
  | String c _ => Ascii.eqb c "5"
  | EmptyString => false
  end.

(** What the loop hands back when it stops on an outcome. *)
Definition handed_back (f : fetched) : completion :=
  match f with
  | Resolves r => Returns r
  | Rejects e => Throws (Some e)
  end.

End Trace.

Module Outcome.

Import Wizard.

(** A generation that leaves no script behind: the request or the
    decoding failed, or what was decoded normalises to a falsy value. *)
Definition no_script (c : Net.completion) (d : decoded) : bool :=
  match Net.generation_error c with
  | Some _ => true
  | None =>
      match d with
      | Decoded v => negb (Js.truthy (normalizeResult v))
      | DecodeThrows _ => true
      end
  end.

(** The events that leave the Refinement step backwards or enter it. *)
Definition moves_around_refinement (e : event) : bool :=
  match e with
  | Next | Back | ErrorGoBack => true
  | _ => false
  end.

End Outcome.

(* ================================================================== *)
(** * Properties *)
(* ================================================================== *)

(* ================================================================== *)
(** ** Normalisation *)
(* ================================================================== *)

Section Normalisation.

Import Js.

Lemma normalizeResult_string (t : string) :
  normalizeResult (Str t) = Str t.
Proof. reflexivity. Qed.

Lemma normalizeResult_result_string (fs : list (string * value)) (t : string) :
  lookup "result" fs = Some (Str t) ->
  normalizeResult (Obj fs) = Str t.
Proof.
  intros H. unfold normalizeResult. cbn. rewrite H. reflexivity.
Qed.

Lemma normalizeResult_result_object
  (fs : list (string * value)) (r : value) :
  lookup "result" fs = Some r -> r <> Null -> is_object r = true ->
  normalizeResult (Obj fs) = r.
Proof.
  intros H Hn Ho. unfold normalizeResult. cbn. rewrite H.
  destruct r; try discriminate; try reflexivity.
  contradiction.
Qed.

(** A value with a string member [content] is an object, so the second
    test on [result] has already taken it. *)
Lemma content_needs_object (r : value) :
  is_string (get r "content") = true -> is_object r = true.
Proof.
  destruct r; cbn; try discriminate. reflexivity.
Qed.

(** The third test on [result] never decides: the function is the one
    without it. *)
Lemma normalizeResult_third_test_dead (input : value) :
  normalizeResult input = normalizeResult_two_tests input.
Proof.
  unfold normalizeResult, normalizeResult_two_tests.
  destruct (loose_null input); [reflexivity|].
  destruct (is_string input); [reflexivity|].
  destruct (is_object input); [|reflexivity].
  cbv zeta.
  destruct (is_string (get input "result")); [reflexivity|].
  destruct (truthy (get input "result")) eqn:Ht; cbn [andb]; [|reflexivity].
  destruct (is_object (get input "result")) eqn:Ho; [reflexivity|].
  destruct (is_string (get (get input "result") "content")) eqn:Hc;
    [|reflexivity].
  apply content_needs_object in Hc. congruence.
Qed.

Lemma normalizeResult_other_object (fs : list (string * value)) :
  is_string (get (Obj fs) "result") = false ->
  (truthy (get (Obj fs) "result") && is_object (get (Obj fs) "result"))%bool
  = false ->
  normalizeResult (Obj fs) = Obj fs.
Proof.
  intros Hs H. rewrite normalizeResult_third_test_dead.
  unfold normalizeResult_two_tests.
  change (loose_null (Obj fs)) with false.
  change (is_string (Obj fs)) with false.
  change (is_object (Obj fs)) with true. cbv iota zeta.
  rewrite Hs, H. reflexivity.
Qed.

(** C1 (the code departs from it): the envelope [{result: {content: "z"}}]
    is normalised to the object [{content: "z"}], not to the string ["z"]:
    the test "[result] is an object" comes before the test on
    [result.content]. *)
Theorem normalizeResult_content_envelope :
  normalizeResult (Obj [("result", Obj [("content", Str "z")])])
  = Obj [("content", Str "z")]
  /\ normalizeResult (Obj [("result", Obj [("content", Str "z")])]) <> Str "z".
Proof.
  split; [reflexivity|discriminate].
Qed.

(** C10: [normalizeResult(null)] and [normalizeResult(undefined)] are the
    empty string. *)
Theorem normalizeResult_null_is_empty :
  normalizeResult Null = Str "" /\ normalizeResult Undefined = Str "".
Proof. split; reflexivity. Qed.

End Normalisation.

(* ================================================================== *)
(** ** The score *)
(* ================================================================== *)

Section Scoring.

Import Score Measure PrimFloat.

Lemma split_nonempty (sep : ascii) (t : string) : Text.split sep t <> [].
Proof.
  destruct t as [|c r]; cbn; [discriminate|].
  destruct (Ascii.eqb c sep); [discriminate|].
  destruct (Text.split sep r); discriminate.
Qed.

Lemma words_pos (t : string) : (1 <= words t)%Z.
Proof.
  unfold words. pose proof (split_nonempty " " t) as H.
  destruct (Text.split " " t); [contradiction|cbn [List.length]; lia].
Qed.












End Scoring.

(* ================================================================== *)
(** ** Retry and error classification *)
(* ================================================================== *)

Section Pipeline.

Import Net.

Lemma backoff_first_three :
  backoff 1 = 1000 /\ backoff 2 = 2000 /\ backoff 3 = 4000.
Proof. repeat split. Qed.

Lemma backoff_capped (i : nat) : (4 <= i)%nat -> backoff i = 8000.
Proof.
  intros H. unfold backoff. apply Z.min_r.
  assert (Hp : 2 ^ 3 <= 2 ^ (Z.of_nat i - 1)).
  { apply Z.pow_le_mono_r; lia. }
  change (2 ^ 3) with 8 in Hp. lia.
Qed.

Lemma before_attempt_retry (i : nat) :
  before_attempt (S i) = [Sleep (backoff (S i)); SetRetryCount (S i)].
Proof. reflexivity. Qed.

(** A 5xx answer with attempts left: the loop goes on with the next
    index. *)
Lemma attempts_retry_5xx
  (fuel maxRetries i : nat) (net : network) (e : option JsError)
  (r : Response) :
  net i = Resolves r -> 500 <= status r -> (i < maxRetries)%nat ->
  attempts (S fuel) maxRetries i net e
  = ((before_attempt i ++ [Fetch i])
       ++ fst (attempts fuel maxRetries (S i) net
                 (Some {| name := "Error";
                          message := "HTTP " ++ decimal (status r) |})),
     snd (attempts fuel maxRetries (S i) net
            (Some {| name := "Error";
                     message := "HTTP " ++ decimal (status r) |})))%list.
Proof.
  intros Hn Hs Hi. cbn [attempts]. rewrite Hn.
  assert (H5 : Z.leb 500 (status r) = true) by (apply Z.leb_le; exact Hs).
  assert (Hl : Nat.ltb i maxRetries = true) by (apply Nat.ltb_lt; exact Hi).
  rewrite H5, Hl. cbn [andb].
  destruct (attempts fuel maxRetries (S i) net _). reflexivity.
Qed.

(** Every iteration with fuel left starts with its pause and its fetch. *)
Lemma attempts_starts
  (fuel maxRetries i : nat) (net : network) (e : option JsError) :
  exists rest,
    fst (attempts (S fuel) maxRetries i net e)
    = (before_attempt i ++ [Fetch i] ++ rest)%list.
Proof.
  cbn [attempts].
  destruct (net i) as [r|err].
  - destruct (Z.leb 500 (status r) && Nat.ltb i maxRetries)%bool.
    + destruct (attempts fuel maxRetries (S i) net _) as [acts c].
      exists acts. cbn [fst]. rewrite <- app_assoc. reflexivity.
    + exists []. cbn [fst]. rewrite app_nil_r. reflexivity.
  - destruct (negb (String.eqb (name err) "AbortError")
              && Nat.ltb i maxRetries)%bool.
    + destruct (attempts fuel maxRetries (S i) net _) as [acts c].
      exists acts. cbn [fst]. rewrite <- app_assoc. reflexivity.
    + exists []. cbn [fst]. rewrite app_nil_r. reflexivity.
Qed.

(** An answer below 500 ends the loop at once: it is returned. *)
Lemma attempts_return_below_500
  (fuel maxRetries i : nat) (net : network) (e : option JsError)
  (r : Response) :
  net i = Resolves r -> status r < 500 ->
  attempts (S fuel) maxRetries i net e
  = ((before_attempt i ++ [Fetch i])%list, Returns r).
Proof.
  intros Hn Hs. cbn [attempts]. rewrite Hn.
  assert (H5 : Z.leb 500 (status r) = false) by (apply Z.leb_gt; exact Hs).
  rewrite H5. reflexivity.
Qed.

(** A service that answers 5xx every time is asked [maxRetries + 1]
    times, with the pauses of the backoff in between, and its last answer
    is returned. *)
Lemma attempts_all_5xx
  (fuel maxRetries i : nat) (net : network) (e : option JsError) :
  (forall j, exists r, net j = Resolves r /\ 500 <= status r) ->
  (fuel + i = S maxRetries)%nat ->
  fst (attempts fuel maxRetries i net e)
  = flat_map (fun j => before_attempt j ++ [Fetch j])%list (seq i fuel).
Proof.
  intros Hall. revert i e.
  induction fuel as [|fuel IH]; intros i e Hsum; [reflexivity|].
  destruct (Hall i) as (r & Hn & Hs).
  cbn [seq flat_map].
  destruct (Nat.ltb i maxRetries) eqn:Hlt.
  - apply Nat.ltb_lt in Hlt.
    rewrite (attempts_retry_5xx _ _ _ _ _ _ Hn Hs Hlt). cbn [fst].
    rewrite IH by lia. reflexivity.
  - pose proof (proj1 (Nat.ltb_ge _ _) Hlt) as Hge.
    assert (fuel = 0)%nat by lia. subst fuel.
    cbn [attempts seq flat_map]. rewrite Hn, Hlt, andb_false_r.
    cbn [fst]. rewrite app_nil_r. reflexivity.
Qed.

Lemma fetchWithRetry_all_5xx (maxRetries : nat) (net : network) :
  (forall j, exists r, net j = Resolves r /\ 500 <= status r) ->
  fst (fetchWithRetry maxRetries net)
  = flat_map (fun j => before_attempt j ++ [Fetch j])%list
      (seq 0 (S maxRetries)).
Proof.
  intros H. apply attempts_all_5xx; [exact H|lia].
Qed.

Lemma fetchWithRetry_first_below_500
  (maxRetries : nat) (net : network) (r : Response) :
  net 0%nat = Resolves r -> status r < 500 ->
  fetchWithRetry maxRetries net = ([Fetch 0], Returns r).
Proof.
  intros Hn Hs. unfold fetchWithRetry.
  rewrite (attempts_return_below_500 _ _ _ _ _ _ Hn Hs). reflexivity.
Qed.

Lemma decimal_4xx (st : Z) :
  400 <= st <= 499 -> exists rest, decimal st = String "4" rest.
Proof.
  intros H.
  assert (Hall : forallb Scenario.starts_with_4 (seq 0 100) = true)
    by (vm_compute; reflexivity).
  rewrite forallb_forall in Hall.
  specialize (Hall (Z.to_nat (st - 400))).
  assert (Hin : In (Z.to_nat (st - 400)) (seq 0 100)).
  { apply in_seq. lia. }
  specialize (Hall Hin). unfold Scenario.starts_with_4 in Hall.
  replace (400 + Z.of_nat (Z.to_nat (st - 400))) with st in Hall by lia.
  destruct (decimal st) as [|c rest]; [discriminate|].
  apply Ascii.eqb_eq in Hall. subst c. exists rest. reflexivity.
Qed.

Lemma includes_prefix (needle hay : string) :
  String.prefix needle hay = true -> Text.includes needle hay = true.
Proof.
  intros H. destruct hay; cbn [Text.includes]; rewrite H; reflexivity.
Qed.

Lemma prefix_append (a rest : string) : String.prefix a (a ++ rest) = true.
Proof.
  induction a as [|c a IH]; [destruct rest; reflexivity|].
  cbn [append String.prefix].
  destruct (ascii_dec c c); [exact IH|congruence].
Qed.

Lemma http_error_4xx_mentions_4 (r : Response) :
  400 <= status r <= 499 ->
  Text.includes "HTTP 4" (message (http_error r)) = true.
Proof.
  intros H. destruct (decimal_4xx (status r) H) as [rest E].
  apply includes_prefix. cbn [http_error message]. rewrite E.
  apply (prefix_append "HTTP 4").
Qed.

End Pipeline.

Section Classification.

Import Net.

(** C5 (as amended): inside [fetchWithRetry] an answer with status 500 or
    more is retried while attempts remain, after a pause of
    [min(1000 * 2^(i-1), 8000)] ms before attempt [i] (1000, 2000, 4000,
    then 8000); an answer with a 4xx status is returned at once and never
    retried.  The error raised for a 4xx answer is classified as [server]
    and not retryable when the browser is on line and the error text does
    not contain "HTTP 5"; when [navigator.onLine] is false it is classified
    as [network] and retryable. *)
Theorem retry_5xx_not_4xx_and_classification
  (maxRetries : nat) (net : network) :
  (forall i e r,
      net i = Resolves r -> 500 <= status r -> (i < maxRetries)%nat ->
      exists rest c,
        attempts (S maxRetries - i) maxRetries i net e
        = ((before_attempt i ++ [Fetch i]
            ++ [Sleep (Z.min (1000 * 2 ^ (Z.of_nat (S i) - 1)) 8000);
                SetRetryCount (S i); Fetch (S i)] ++ rest)%list, c))
  /\ (backoff 1 = 1000 /\ backoff 2 = 2000 /\ backoff 3 = 4000
      /\ forall i, (4 <= i)%nat -> backoff i = 8000)
  /\ (forall fuel i e r,
        net i = Resolves r -> 400 <= status r <= 499 ->
        attempts (S fuel) maxRetries i net e
        = ((before_attempt i ++ [Fetch i])%list, Returns r)
        /\ generation_error (Returns r) = Some (Some (http_error r))
        /\ (Text.includes "HTTP 5" (message (http_error r)) = false ->
            createApiError true (Some (http_error r))
            = {| type := server;
                 text := "Bad request. Please check your input.";
                 retryable := false |})
        /\ type (createApiError false (Some (http_error r))) = network_error
        /\ retryable (createApiError false (Some (http_error r))) = true).
Proof.
  split; [|split].
  - intros i e r Hn Hs Hi.
    replace (S maxRetries - i)%nat with (S (S (maxRetries - S i)))%nat by lia.
    rewrite (attempts_retry_5xx _ _ _ _ _ _ Hn Hs Hi).
    destruct (attempts_starts (maxRetries - S i) maxRetries (S i) net
                (Some {| name := "Error";
                         message := "HTTP " ++ decimal (status r) |}))
      as [rest Hrest].
    exists rest. eexists.
    rewrite Hrest, before_attempt_retry. unfold backoff.
    rewrite <- !app_assoc. reflexivity.
  - split; [reflexivity|]. split; [reflexivity|]. split; [reflexivity|].
    exact backoff_capped.
  - intros fuel i e r Hn Hs.
    split; [apply attempts_return_below_500; [exact Hn|lia]|].
    assert (Hok : ok r = false).
    { unfold ok. apply andb_false_iff. right. apply Z.leb_gt. lia. }
    split; [cbn [generation_error]; rewrite Hok; reflexivity|].
    split; [|split; reflexivity].
    intros H5. unfold createApiError. cbn [name http_error].
    change (String.eqb "Error" "AbortError") with false. cbn [negb].
    cbv iota. rewrite H5, (http_error_4xx_mentions_4 r Hs). reflexivity.
Qed.

(** One failure with 500, then a 404: two fetches with a pause of one
    second between them, and a [server] error that is not retryable. *)
Lemma retry_5xx_not_4xx_and_classification_witness :
  (exists rest c,
      attempts 3 2 0 Scenario.flaky_then_missing None
      = ([Fetch 0; Sleep 1000; SetRetryCount 1; Fetch 1] ++ rest, c)%list)
  /\ attempts 2 2 1 Scenario.flaky_then_missing None
     = ([Sleep 1000; SetRetryCount 1; Fetch 1], Returns Scenario.not_found)
  /\ createApiError true (Some (http_error Scenario.not_found))
     = {| type := server;
          text := "Bad request. Please check your input.";
          retryable := false |}.
Proof.
  destruct (retry_5xx_not_4xx_and_classification 2 Scenario.flaky_then_missing)
    as (Hretry & _ & Hreturn).
  split.
  - exact (Hretry 0%nat None Scenario.unavailable eq_refl
             ltac:(cbn; lia) ltac:(lia)).
  - destruct (Hreturn 1%nat 1%nat None Scenario.not_found eq_refl
                ltac:(cbn; lia)) as (Ha & _ & Hc & _).
    split; [exact Ha|]. apply Hc. reflexivity.
Defined.

(** C5 as stated fails: when [navigator.onLine] is false, the error made
    from a 404 answer is classified as [network] and retryable. *)
Lemma offline_404_is_retryable :
  fetchWithRetry 2 (fun _ => Resolves Scenario.not_found)
  = ([Fetch 0], Returns Scenario.not_found)
  /\ generation_error (Returns Scenario.not_found)
     = Some (Some (http_error Scenario.not_found))
  /\ createApiError false (Some (http_error Scenario.not_found))
     = {| type := network_error;
          text := "Internet connection lost. Please check your network.";
          retryable := true |}.
Proof. repeat split. Qed.

End Classification.

(* ================================================================== *)
(** ** The step machine *)
(* ================================================================== *)

Section Steps.

Import Wizard Scenario.
Local Open Scope Q_scope.

Lemma valid_step_named (q : Q) :
  valid_step q -> q = step_value (name_of q).
Proof.
  intros [H|[H|[H|[H|H]]]]; subst q; reflexivity.
Qed.

Lemma step_value_valid (n : step_name) : valid_step (step_value n).
Proof.
  unfold valid_step. destruct n; cbn; auto.
Qed.

Lemma name_of_step_value (n : step_name) : name_of (step_value n) = n.
Proof. destruct n; reflexivity. Qed.

(** [handleNext] and [handleBack], step by step. *)
Lemma handleNext_step (s : state) (n : step_name) :
  currentStep s = step_value n ->
  currentStep (handleNext s) = step_value (after_next n).
Proof.
  intros H. unfold handleNext. rewrite H.
  destruct n; cbn; try reflexivity; exact H.
Qed.

Lemma handleBack_step (s : state) (n : step_name) :
  currentStep s = step_value n ->
  currentStep (handleBack s) = step_value (after_back n).
Proof.
  intros H. unfold handleBack. rewrite H.
  destruct n; cbn; try reflexivity; exact H.
Qed.

Lemma after_next_one_forward (n : step_name) :
  after_next n = n \/ position (after_next n) = S (position n).
Proof. destruct n; cbn; auto. Qed.

End Steps.

Section Rendering.

Import Wizard Scenario.
Local Open Scope Q_scope.

Ltac branch :=
  match goal with
  | |- context [if ?c then _ else _] => destruct c eqn:?
  | |- context [match ?c with Score.NotScored => _ | _ => _ end] =>
      destruct c eqn:?
  | |- context [match questionFetches ?c with [] => _ | _ => _ end] =>
      destruct (questionFetches c) eqn:?
  end.

Ltac effects :=
  unfold render, plainEffects, questionEffect, questionEffect_cleanup,
    generationEffect, scoreEffect, fetchFinalScript;
  cbv zeta.

(** The effects write neither the step nor the chat. *)
Lemma render_currentStep (s : state) :
  currentStep (render s) = currentStep s.
Proof. effects. repeat branch; reflexivity. Qed.

Lemma render_chatMessages (s : state) :
  chatMessages (render s) = chatMessages s.
Proof. effects. repeat branch; reflexivity. Qed.

Lemma commit_currentStep (s : state) :
  currentStep (commit s) = currentStep s.
Proof. unfold commit. rewrite !render_currentStep. reflexivity. Qed.

Lemma commit_chatMessages (s : state) :
  chatMessages (commit s) = chatMessages s.
Proof. unfold commit. rewrite !render_chatMessages. reflexivity. Qed.

Lemma handler_valid_step (e : event) (s : state) :
  valid_step (currentStep s) -> valid_step (currentStep (handler e s)).
Proof.
  intros Hv.
  assert (Hfour : valid_step 4) by (unfold valid_step; auto 6).
  assert (Hone : valid_step 1) by (unfold valid_step; auto).
  destruct e; cbn [handler]; try exact Hv.
  - rewrite (handleNext_step s _ (valid_step_named _ Hv)).
    apply step_value_valid.
  - rewrite (handleBack_step s _ (valid_step_named _ Hv)).
    apply step_value_valid.
  - unfold errorGoBack.
    rewrite (handleBack_step (set_apiError None s) (name_of (currentStep s))
               (valid_step_named _ Hv)).
    apply step_value_valid.
  - exact Hfour.
  - unfold handleChatResponse, generateMessageId.
    destruct messageId; exact Hv.
  - unfold chatReplyTyped, generateMessageId.
    destruct (asks nextQ); exact Hv.
  - exact Hfour.
  - unfold questionResolved, generateMessageId.
    destruct (nth_error _ k) as [f|]; [|exact Hv].
    destruct (negb (isMounted f)); [exact Hv|].
    destruct (valid_question firstQ); exact Hv.
  - unfold questionTyped, generateMessageId.
    destruct (nth_error _ k) as [f|]; [|exact Hv].
    destruct (typing f) as [[q o]|]; [|exact Hv].
    destruct (negb (isMounted f)); exact Hv.
  - unfold fetchFinalScript_settled.
    destruct (Net.generation_error c); [exact Hv|].
    destruct d; exact Hv.
  - unfold handleCollapse.
    destruct (hasUnsavedChanges s || Qlt_bool 1 (currentStep s))%bool;
      [exact Hv|exact Hone].
  - unfold modalConfirm.
    destruct (modalTitle s) as [t|]; [|exact Hv].
    destruct (String.eqb t "Unsaved Work"); [exact Hone|exact Hv].
Qed.

Lemma restore_valid_step (now : Z) (item : stored) (s : state) :
  written_by_autosave item -> valid_step (currentStep s) ->
  valid_step (currentStep (restore now item s)).
Proof.
  intros Hw Hv. unfold restore.
  destruct (isExpanded s); [exact Hv|].
  destruct item as [| |snap]; try exact Hv.
  destruct (no_timestamp snap); [exact Hv|].
  destruct (Z.ltb _ 3600000); [exact Hw|exact Hv].
Qed.

(** The step of a reachable state is one of the five. *)
Lemma reachable_valid_step (s : state) :
  reachable s -> valid_step (currentStep s).
Proof.
  induction 1 as [now item Hw|e s Hr IH Hp].
  - unfold boot. rewrite commit_currentStep.
    apply restore_valid_step; [exact Hw|].
    rewrite render_currentStep. unfold valid_step. auto.
  - unfold apply. rewrite commit_currentStep.
    apply handler_valid_step. exact IH.
Qed.

Lemma offered_possible (e : event) (s : state) :
  offered e s = true -> possible e s = true.
Proof.
  unfold offered. intros H. apply andb_true_iff in H. apply H.
Qed.

(** A session of offered events, begun in a reachable state, ends in a
    reachable state. *)
Lemma run_reachable (es : list event) (s s' : state) :
  reachable s -> run es s = Some s' -> reachable s'.
Proof.
  revert s. induction es as [|e es IH]; intros s Hr H; cbn [run] in H.
  - injection H as <-. exact Hr.
  - destruct (offered e s) eqn:Ho; [|discriminate].
    apply (IH (apply e s)); [|exact H].
    apply reachable_apply; [exact Hr|].
    apply offered_possible. exact Ho.
Qed.

End Rendering.

Section Navigation.

Import Wizard Scenario.
Local Open Scope Q_scope.

(** C4 (as amended): in every reachable state the step is one of Style,
    Topic, Settings, Refinement, Result.  [handleNext] moves from Style
    to Topic, from Topic to Settings and from Settings to Refinement, and
    moves nothing in Refinement and in Result: it never skips a step and
    never leaves Refinement.  [handleBack] moves from Topic to Style, from
    Settings to Topic, from Refinement to Settings and from Result to
    Settings (past Refinement), and moves nothing in Style. *)
Theorem next_and_back_follow_the_tables (s : state) (Hr : reachable s) :
  let n := name_of (currentStep s) in
  currentStep s = step_value n
  /\ currentStep (handleNext s) = step_value (after_next n)
  /\ currentStep (handleBack s) = step_value (after_back n)
  /\ (after_next n = n \/ position (after_next n) = S (position n))
  /\ (n = Refinement -> handleNext s = s).
Proof.
  intros n.
  pose proof (valid_step_named _ (reachable_valid_step s Hr)) as Hn.
  fold n in Hn.
  split; [exact Hn|].
  split; [apply handleNext_step; exact Hn|].
  split; [apply handleBack_step; exact Hn|].
  split; [apply after_next_one_forward|].
  intros HR. unfold handleNext. rewrite Hn, HR. reflexivity.
Qed.

Lemma reachable_fresh : reachable (boot 0 NoItem).
Proof. apply reachable_boot. exact I. Qed.

Lemma reachable_in_result :
  exists s,
    run (to_refinement ++ skip) (boot 0 NoItem) = Some s
    /\ reachable s /\ currentStep s = 4.
Proof.
  eexists. split; [vm_compute; reflexivity|].
  split; [|reflexivity].
  apply (run_reachable (to_refinement ++ skip) (boot 0 NoItem));
    [exact reachable_fresh|].
  vm_compute. reflexivity.
Qed.

Lemma next_and_back_follow_the_tables_witness :
  currentStep (handleNext (boot 0 NoItem)) = 2
  /\ currentStep (handleBack (boot 0 NoItem)) = 1.
Proof.
  destruct (next_and_back_follow_the_tables (boot 0 NoItem) reachable_fresh)
    as (_ & Hn & Hb & _).
  split; [exact Hn|exact Hb].
Defined.

(** C4 as stated fails: from the Result step, reached by filling the
    forms and skipping the refinement, [handleBack] lands on Settings,
    two places before Result in the order of the steps, and not on
    Refinement. *)
Lemma back_from_result_skips_refinement :
  exists s,
    run (to_refinement ++ skip) (boot 0 NoItem) = Some s
    /\ name_of (currentStep s) = Result
    /\ name_of (currentStep (handleBack s)) = Settings
    /\ S (position (name_of (currentStep (handleBack s))))
       <> position (name_of (currentStep s)).
Proof.
  eexists. split; [vm_compute; reflexivity|].
  split; [reflexivity|]. split; [reflexivity|].
  cbn. discriminate.
Qed.

End Navigation.

Section Retreat.

Import Wizard Scenario.
Local Open Scope Q_scope.

Lemma handleBack_from_refinement (s : state) :
  currentStep s = 3.5 ->
  handleBack s
  = s |> set_currentStep 3
      |> set_chatMessages []
      |> set_skipRefinement false
      |> set_questionFetchFailed false
      |> set_hasAttemptedQuestionFetch false.
Proof.
  intros H. unfold handleBack. rewrite H. reflexivity.
Qed.

(** An event outside the dialogue leaves an empty history empty. *)
Lemma outside_dialogue_keeps_empty (e : event) (s : state) :
  outside_dialogue e = true -> chatMessages s = [] ->
  chatMessages (apply e s) = [].
Proof.
  intros Hq He. unfold apply. rewrite commit_chatMessages.
  destruct e; try discriminate Hq; cbn [handler]; try exact He.
  - unfold handleNext.
    destruct (Qeq_bool (currentStep s) 3); [exact He|].
    destruct (_ && _)%bool; exact He.
  - unfold handleBack.
    destruct (Qeq_bool (currentStep s) 3.5); [reflexivity|].
    destruct (Qlt_bool 1 (currentStep s)); exact He.
  - unfold errorGoBack, handleBack. cbn [currentStep set_apiError].
    destruct (Qeq_bool (currentStep s) 3.5); [reflexivity|].
    destruct (Qlt_bool 1 (currentStep s)); exact He.
  - unfold fetchFinalScript_settled.
    destruct (Net.generation_error c); [exact He|].
    destruct d; exact He.
  - unfold handleCollapse.
    destruct (hasUnsavedChanges s || Qlt_bool 1 (currentStep s))%bool;
      [exact He|reflexivity].
  - unfold modalConfirm.
    destruct (modalTitle s) as [t|]; [|exact He].
    destruct (String.eqb t "Unsaved Work"); [reflexivity|exact He].
Qed.

Lemma play_outside_dialogue (es : list event) (s : state) :
  forallb outside_dialogue es = true -> chatMessages s = [] ->
  chatMessages (play es s) = [].
Proof.
  revert s. induction es as [|e es IH]; intros s Hq He; [exact He|].
  cbn [forallb] in Hq. apply andb_true_iff in Hq as [Hq1 Hq2].
  cbn [play]. apply IH; [exact Hq2|].
  apply outside_dialogue_keeps_empty; assumption.
Qed.

(** [handleBack] in the Refinement step returns to Settings, empties the
    conversation history and resets the skip flag, the
    question-fetch-failed flag and the has-attempted-fetch flag; the
    style, keyword and settings selections stay as they are.  Entering
    Refinement again, at once or after any events outside the dialogue,
    starts with an empty history. *)
Lemma retreat_from_refinement_clears_dialogue
  (s : state) (Hstep : currentStep s = 3.5) :
  (currentStep (handleBack s) = 3
   /\ chatMessages (handleBack s) = []
   /\ skipRefinement (handleBack s) = false
   /\ questionFetchFailed (handleBack s) = false
   /\ hasAttemptedQuestionFetch (handleBack s) = false
   /\ selections (handleBack s) = selections s)
  /\ (currentStep (handleNext (handleBack s)) = 3.5
      /\ chatMessages (handleNext (handleBack s)) = [])
  /\ (forall es,
        forallb outside_dialogue es = true ->
        chatMessages (apply Next (play es (apply Back s))) = []).
Proof.
  rewrite (handleBack_from_refinement s Hstep).
  split; [repeat split|]. split; [split; reflexivity|].
  intros es Hq.
  apply outside_dialogue_keeps_empty; [reflexivity|].
  apply play_outside_dialogue; [exact Hq|].
  unfold apply. rewrite commit_chatMessages. cbn [handler].
  rewrite (handleBack_from_refinement s Hstep). reflexivity.
Qed.

(** The user has given one answer in the refinement and goes back. *)
Example retreat_after_one_answer :
  List.length (chatMessages (play (to_refinement ++ [answer 1]) (boot 0 NoItem)))
  = 1%nat
  /\ chatMessages
       (handleBack (play (to_refinement ++ [answer 1]) (boot 0 NoItem))) = []
  /\ chatMessages
       (handleNext
          (handleBack (play (to_refinement ++ [answer 1]) (boot 0 NoItem))))
     = [].
Proof.
  assert (Hstep : currentStep
                    (play (to_refinement ++ [answer 1]) (boot 0 NoItem))
                  = 3.5).
  { vm_compute. reflexivity. }
  destruct (retreat_from_refinement_clears_dialogue _ Hstep)
    as ((_ & Hb & _) & (_ & Hn) & _).
  split; [vm_compute; reflexivity|]. split; [exact Hb|exact Hn].
Qed.

(** C7 (the code departs from it): the retreat itself clears the history
    and the flags and keeps the selections, but the reply to an answer
    given before the retreat is still on its way and nothing cancels it:
    it is appended to the emptied history while the settings are shown,
    and the refinement is entered again with one message in the
    history, so that no first question is asked. *)
Theorem late_reply_survives_retreat :
  exists s1 s,
    run (to_refinement ++ [answer 0; Back]) (boot 0 NoItem) = Some s1
    /\ currentStep s1 = 3
    /\ chatMessages s1 = []
    /\ repliesInFlight (pending s1) = 1%nat
    /\ run [next_question; Next] s1 = Some s
    /\ currentStep s = 3.5
    /\ List.length (chatMessages s) = 1%nat
    /\ map type (chatMessages s) = [ai]
    /\ questionWanted s = false.
Proof.
  eexists. eexists. split; [vm_compute; reflexivity|].
  split; [reflexivity|]. split; [reflexivity|]. split; [reflexivity|].
  split; [vm_compute; reflexivity|].
  repeat split.
Qed.

End Retreat.

(* ================================================================== *)
(** ** The session snapshot *)
(* ================================================================== *)

Section Session.

Import Wizard Scenario.
Local Open Scope Z_scope.

Lemma restore_undated (now : Z) (snap : snapshot) (s : state) :
  snap_timestamp snap = None -> restore now (Saved snap) s = s.
Proof.
  intros H. unfold restore, no_timestamp. rewrite H.
  destruct (isExpanded s); reflexivity.
Qed.

Lemma restore_stale (now t : Z) (snap : snapshot) (s : state) :
  snap_timestamp snap = Some t -> 3600000 <= now - t ->
  restore now (Saved snap) s = s.
Proof.
  intros H Hage. unfold restore, no_timestamp. rewrite H.
  destruct (isExpanded s); [reflexivity|].
  destruct (Z.eqb t 0); [reflexivity|].
  assert (Hlt : Z.ltb (now - t) 3600000 = false) by (apply Z.ltb_ge; exact Hage).
  rewrite Hlt. reflexivity.
Qed.

(** C9: a snapshot whose timestamp is one hour old or older, and a
    snapshot without a timestamp, are not restored: the restore effect
    leaves every cell as it is, and the component starts as it does with
    no snapshot at all, on the defaults. *)
Theorem stale_or_undated_snapshot_is_not_restored
  (now : Z) (snap : snapshot) (s : state)
  (Hold : snap_timestamp snap = None
          \/ exists t, snap_timestamp snap = Some t /\ 3600000 <= now - t) :
  restore now (Saved snap) s = s
  /\ boot now (Saved snap) = boot now NoItem
  /\ currentStep (boot now (Saved snap)) = 1%Q
  /\ selections (boot now (Saved snap)) = selections initial
  /\ chatMessages (boot now (Saved snap)) = []
  /\ hasUnsavedChanges (boot now (Saved snap)) = false.
Proof.
  assert (H : forall s', restore now (Saved snap) s' = s').
  { intros s'. destruct Hold as [Hn|(t & Ht & Hage)].
    - apply restore_undated. exact Hn.
    - apply (restore_stale now t); assumption. }
  split; [apply H|].
  unfold boot. rewrite H.
  repeat split.
Qed.

(** A snapshot taken exactly one hour ago, and one without a timestamp. *)
Lemma stale_or_undated_snapshot_is_not_restored_witness :
  boot 3600500 (Saved (saved_in_result (Some 500))) = boot 3600500 NoItem
  /\ boot 3600500 (Saved (saved_in_result None)) = boot 3600500 NoItem
  /\ currentStep (boot 3600499 (Saved (saved_in_result (Some 500)))) = 4%Q.
Proof.
  split; [|split].
  - apply (stale_or_undated_snapshot_is_not_restored
             3600500 (saved_in_result (Some 500)) initial).
    right. exists 500. split; [reflexivity|]. cbn. lia.
  - apply (stale_or_undated_snapshot_is_not_restored
             3600500 (saved_in_result None) initial).
    left. reflexivity.
  - reflexivity.
Defined.

End Session.

(* ================================================================== *)
(** ** The generation trigger *)
(* ================================================================== *)

Section Generation.

Import Wizard Scenario.
Local Open Scope Q_scope.

Ltac branch :=
  match goal with
  | |- context [if ?c then _ else _] => destruct c eqn:?
  | |- context [match questionFetches ?c with [] => _ | _ => _ end] =>
      destruct (questionFetches c) eqn:?
  end.

(** What the first-question part of a render leaves alone. *)
Lemma render_generation_fields (s : state) :
  apiResults (render s) = apiResults (plainEffects s)
  /\ apiError (render s) = apiError (plainEffects s)
  /\ scoreData (render s) = scoreData (plainEffects s)
  /\ generationCalls (pending (render s))
     = generationCalls (pending (plainEffects s)).
Proof.
  unfold render, questionEffect, questionEffect_cleanup. cbv zeta.
  repeat branch; repeat split.
Qed.

Lemma render_keeps_loading (s : state) :
  isLoading (plainEffects s) = true ->
  isLoading (render s) = true.
Proof.
  unfold render, questionEffect, questionEffect_cleanup. cbv zeta.
  intros H. repeat branch; try exact H; reflexivity.
Qed.

Lemma scoreEffect_generationWanted (s : state) :
  generationWanted (scoreEffect s) = generationWanted s.
Proof.
  unfold scoreEffect.
  destruct (_ && _)%bool; [|reflexivity].
  destruct (Score.calculateScores _ _ _); reflexivity.
Qed.

Lemma scoreEffect_idle (s : state) :
  Js.truthy (apiResults s) = false -> scoreEffect s = s.
Proof.
  intros H. unfold scoreEffect. rewrite H. reflexivity.
Qed.

Lemma wanted_no_result (s : state) :
  generationWanted s = true ->
  Js.truthy (apiResults s) = false /\ isLoading s = false.
Proof.
  unfold generationWanted. intros H.
  apply andb_true_iff in H as [H Hl]. apply andb_true_iff in H as [_ Hr].
  split; [apply negb_true_iff; exact Hr|apply negb_true_iff; exact Hl].
Qed.

Lemma loading_not_wanted (s : state) :
  isLoading s = true -> generationWanted s = false.
Proof.
  intros H. unfold generationWanted. rewrite H.
  rewrite andb_false_r. reflexivity.
Qed.

(** A render in which the generation is wanted makes the call. *)
Lemma render_wanted (s : state) :
  generationWanted s = true ->
  isLoading (render s) = true
  /\ apiError (render s) = None
  /\ apiResults (render s) = Js.Null
  /\ scoreData (render s) = None
  /\ generationCalls (pending (render s)) = S (generationCalls (pending s)).
Proof.
  intros Hw. destruct (wanted_no_result s Hw) as [Hr _].
  destruct (render_generation_fields s) as (H1 & H2 & H3 & H4).
  assert (Hg : plainEffects s = fetchFinalScript s).
  { unfold plainEffects. rewrite (scoreEffect_idle s Hr). unfold generationEffect.
    rewrite Hw. reflexivity. }
  rewrite Hg in H1, H2, H3, H4.
  split; [apply render_keeps_loading; rewrite Hg; reflexivity|].
  rewrite H1, H2, H3, H4. repeat split.
Qed.

(** A render in which it is not wanted makes no call and leaves result and
    error alone; it is not wanted afterwards either. *)
Lemma render_not_wanted (s : state) :
  generationWanted s = false ->
  generationWanted (render s) = false
  /\ generationCalls (pending (render s)) = generationCalls (pending s)
  /\ apiResults (render s) = apiResults s
  /\ apiError (render s) = apiError s.
Proof.
  intros Hw.
  destruct (render_generation_fields s) as (H1 & H2 & _ & H4).
  assert (Hg : plainEffects s = scoreEffect s).
  { unfold plainEffects, generationEffect. rewrite scoreEffect_generationWanted, Hw.
    reflexivity. }
  rewrite Hg in H1, H2, H4.
  assert (Hres : apiResults (scoreEffect s) = apiResults s).
  { unfold scoreEffect. destruct (_ && _)%bool; [|reflexivity].
    destruct (Score.calculateScores _ _ _); reflexivity. }
  assert (Herr : apiError (scoreEffect s) = apiError s).
  { unfold scoreEffect. destruct (_ && _)%bool; [|reflexivity].
    destruct (Score.calculateScores _ _ _); reflexivity. }
  assert (Hcalls : generationCalls (pending (scoreEffect s))
                   = generationCalls (pending s)).
  { unfold scoreEffect. destruct (_ && _)%bool; [|reflexivity].
    destruct (Score.calculateScores _ _ _); reflexivity. }
  assert (Hload : isLoading (scoreEffect s) = isLoading s).
  { unfold scoreEffect. destruct (_ && _)%bool; [|reflexivity].
    destruct (Score.calculateScores _ _ _); reflexivity. }
  split; [|rewrite H1, H2, H4, Hres, Herr, Hcalls; repeat split].
  destruct (isLoading (render s)) eqn:Hl;
    [apply loading_not_wanted; exact Hl|].
  assert (Hl0 : isLoading s = false).
  { destruct (isLoading s) eqn:E; [|reflexivity].
    rewrite (render_keeps_loading s) in Hl; [discriminate|].
    rewrite Hg. exact Hload. }
  unfold generationWanted in *.
  rewrite render_currentStep, H1, Hres, Hl. rewrite Hl0 in Hw. exact Hw.
Qed.

Lemma commit_wanted (s : state) :
  generationWanted s = true ->
  isLoading (commit s) = true
  /\ apiError (commit s) = None
  /\ apiResults (commit s) = Js.Null
  /\ scoreData (commit s) = None
  /\ generationCalls (pending (commit s)) = S (generationCalls (pending s))
  /\ generationWanted (commit s) = false.
Proof.
  intros Hw. unfold commit.
  destruct (render_wanted s Hw) as (Hl & He & Hr & Hs & Hc).
  set (r := render s) in *.
  pose proof (loading_not_wanted r Hl) as Hn.
  destruct (render_not_wanted r Hn) as (_ & Hc' & Hr' & He').
  assert (Hidle : plainEffects r = r).
  { unfold plainEffects. rewrite scoreEffect_idle by (rewrite Hr; reflexivity).
    unfold generationEffect. rewrite Hn. reflexivity. }
  assert (Hl' : isLoading (render r) = true).
  { apply render_keeps_loading. rewrite Hidle. exact Hl. }
  destruct (render_generation_fields r) as (_ & _ & Hs' & _).
  rewrite Hidle in Hs'.
  rewrite Hl', He', Hr', Hs', Hc', He, Hr, Hs, Hc.
  repeat split. apply loading_not_wanted. exact Hl'.
Qed.

Lemma commit_not_wanted (s : state) :
  generationWanted s = false ->
  generationCalls (pending (commit s)) = generationCalls (pending s)
  /\ apiResults (commit s) = apiResults s
  /\ apiError (commit s) = apiError s.
Proof.
  intros Hw. unfold commit.
  destruct (render_not_wanted s Hw) as (Hn & Hc & Hr & He).
  destruct (render_not_wanted (render s) Hn) as (_ & Hc' & Hr' & He').
  rewrite Hc', Hr', He', Hc, Hr, He. repeat split.
Qed.

(** C3 (as amended): the two ways into the Result step set the step and
    touch neither result nor score nor error.  The generation effect then
    tests "no result and nothing loading": when the step is entered in
    such a state, [fetchFinalScript] is called once, it clears error,
    result and score and marks the request as loading, and the effect
    does not call it again while the request is loading; when a result is
    present or something is loading at the entry, no call is made and
    result and error are kept. *)
Theorem entering_result_generates_when_nothing_is_there
  (e : event) (s : state) (He : enters_result e) :
  currentStep (handler e s) = 4
  /\ apiResults (handler e s) = apiResults s
  /\ scoreData (handler e s) = scoreData s
  /\ apiError (handler e s) = apiError s
  /\ (Js.truthy (apiResults s) = false -> isLoading s = false ->
      isLoading (apply e s) = true
      /\ apiError (apply e s) = None
      /\ apiResults (apply e s) = Js.Null
      /\ scoreData (apply e s) = None
      /\ generationCalls (pending (apply e s))
         = S (generationCalls (pending s))
      /\ generationWanted (apply e s) = false)
  /\ (Js.truthy (apiResults s) = true \/ isLoading s = true ->
      generationCalls (pending (apply e s)) = generationCalls (pending s)
      /\ apiResults (apply e s) = apiResults s
      /\ apiError (apply e s) = apiError s).
Proof.
  assert (Hh : currentStep (handler e s) = 4
               /\ apiResults (handler e s) = apiResults s
               /\ scoreData (handler e s) = scoreData s
               /\ apiError (handler e s) = apiError s
               /\ isLoading (handler e s) = isLoading s
               /\ generationCalls (pending (handler e s))
                  = generationCalls (pending s)).
  { destruct He as [->| ->]; repeat split. }
  destruct Hh as (H4 & Hr & Hs & Herr & Hl & Hc).
  split; [exact H4|]. split; [exact Hr|]. split; [exact Hs|].
  split; [exact Herr|]. unfold apply. split.
  - intros Hno Hidle.
    assert (Hw : generationWanted (handler e s) = true).
    { unfold generationWanted. rewrite H4, Hr, Hl, Hno, Hidle. reflexivity. }
    rewrite <- Hc. apply commit_wanted. exact Hw.
  - intros Hbusy.
    assert (Hw : generationWanted (handler e s) = false).
    { unfold generationWanted. rewrite Hr, Hl.
      destruct Hbusy as [Hb|Hb]; rewrite Hb;
        [rewrite andb_false_r|rewrite andb_false_r]; reflexivity. }
    rewrite <- Hc, <- Hr, <- Herr. apply commit_not_wanted. exact Hw.
Qed.

(** A session restored in the refinement, with nothing generated yet: the
    confirmed skip starts the one generation. *)
Lemma entering_result_generates_when_nothing_is_there_witness :
  generationCalls (pending (boot 1000 (Saved (saved_at 3.5 (Some 500%Z)))))
  = 0%nat
  /\ generationCalls
       (pending (apply SkipConfirm
                   (boot 1000 (Saved (saved_at 3.5 (Some 500%Z))))))
     = 1%nat
  /\ isLoading (apply SkipConfirm
                  (boot 1000 (Saved (saved_at 3.5 (Some 500%Z))))) = true.
Proof.
  destruct (entering_result_generates_when_nothing_is_there
              SkipConfirm (boot 1000 (Saved (saved_at 3.5 (Some 500%Z))))
              (or_introl eq_refl))
    as (_ & _ & _ & _ & Hgo & _).
  destruct (Hgo eq_refl eq_refl) as (Hl & _ & _ & _ & Hc & _).
  split; [reflexivity|]. split; [exact Hc|exact Hl].
Defined.

(** C3 as stated fails: a session is restored in the Result step and its
    script arrives; the user goes back to the settings, forward into the
    refinement and skips it.  On this entry into the Result step the
    earlier script and its score are still there, and no generation is
    requested. *)
Lemma entering_result_keeps_prior_result :
  exists s,
    run back_and_skip (boot 1000 (Saved (saved_in_result (Some 500%Z))))
    = Some s
    /\ offered SkipConfirm s = true
    /\ currentStep s = 3.5
    /\ currentStep (apply SkipConfirm s) = 4
    /\ apiResults (apply SkipConfirm s) = Js.Str "Cats are great. Subscribe?"
    /\ scoreData (apply SkipConfirm s) = scoreData s
    /\ scoreData s <> None
    /\ generationCalls (pending (apply SkipConfirm s))
       = generationCalls (pending s).
Proof.
  eexists. split; [vm_compute; reflexivity|].
  repeat split. discriminate.
Qed.

End Generation.

(* ================================================================== *)
(** ** The conversation history *)
(* ================================================================== *)

Section History.

Import Wizard Scenario.

Lemma slice_last_length {A : Type} (n : nat) (l : list A) :
  (List.length (slice_last n l) <= n)%nat.
Proof.
  unfold slice_last. rewrite length_skipn. lia.
Qed.

(** After an answer of the user the history holds at most 50 messages. *)
Lemma handleChatResponse_capped
  (response : string) (m : option message_id) (now : Z) (s : state) :
  (List.length (chatMessages (handleChatResponse response m now s)) <= 50)%nat.
Proof.
  unfold handleChatResponse, generateMessageId.
  destruct m; cbn [chatMessages set_chatMessages set_pending
                     set_messageIdCounter];
    rewrite length_app; cbn [List.length];
    match goal with
    | |- context [slice_last 49 ?l] =>
        pose proof (slice_last_length 49 l)
    end; lia.
Qed.

(** The question that follows is appended to the whole history. *)
Lemma chatReplyTyped_grows (nextQ : question_reply) (now : Z) (s : state) :
  List.length (chatMessages (chatReplyTyped nextQ now s))
  = S (List.length (chatMessages s)).
Proof.
  unfold chatReplyTyped, generateMessageId.
  destruct (asks nextQ);
    cbn [chatMessages set_chatMessages set_pending set_messageIdCounter];
    rewrite length_app; cbn [List.length]; lia.
Qed.

(** C6 (the code departs from it): after twenty-five exchanges of the
    dialogue and one more answer the history is at its cap of 50
    messages; the question that follows is appended without any cut, and
    the history holds 51 messages. *)
Theorem question_after_full_history_makes_51 :
  exists s,
    run long_dialogue (boot 0 NoItem) = Some s
    /\ List.length (chatMessages s) = 50%nat
    /\ offered next_question s = true
    /\ List.length (chatMessages (apply next_question s)) = 51%nat.
Proof.
  eexists. split; [vm_compute; reflexivity|].
  repeat split.
Qed.

End History.

Section FirstQuestion.

Import Wizard Scenario.
Local Open Scope Q_scope.

Lemma Qeq_bool_refl (q : Q) : Qeq_bool q q = true.
Proof. apply Qeq_bool_iff. reflexivity. Qed.

Lemma step_not_both (q : Q) :
  Qeq_bool q 4 = true -> Qeq_bool q 3.5 = true -> False.
Proof.
  intros H4 H35. apply Qeq_bool_iff in H4, H35.
  rewrite H4 in H35. discriminate.
Qed.

(** The two effects read the same render: at most one of their tests
    passes. *)
Lemma effects_exclusive (s : state) :
  generationWanted s = true -> questionWanted s = false.
Proof.
  unfold generationWanted, questionWanted. intros H.
  apply andb_true_iff in H as [H _]. apply andb_true_iff in H as [H4 _].
  destruct (Qeq_bool (currentStep s) 3.5) eqn:H35; [|reflexivity].
  destruct (step_not_both _ H4 H35).
Qed.

Lemma both_question_fields (s : state) :
  questionFetches (pending (plainEffects s)) = questionFetches (pending s)
  /\ effectOwnsFetch (pending (plainEffects s)) = effectOwnsFetch (pending s)
  /\ effectDeps (pending (plainEffects s)) = effectDeps (pending s)
  /\ currentStep (plainEffects s) = currentStep s
  /\ chatMessages (plainEffects s) = chatMessages s
  /\ hasAttemptedQuestionFetch (plainEffects s) = hasAttemptedQuestionFetch s.
Proof.
  unfold plainEffects, generationEffect, scoreEffect, fetchFinalScript.
  destruct (_ && _)%bool;
    [destruct (Score.calculateScores _ _ _)|];
    match goal with
    | |- context [if ?c then _ else _] => destruct c
    end; repeat split.
Qed.

Lemma both_loading (s : state) :
  isLoading (plainEffects s) = isLoading s
  \/ (isLoading s = false /\ isLoading (plainEffects s) = true).
Proof.
  unfold plainEffects, generationEffect.
  rewrite scoreEffect_generationWanted.
  assert (Hl : isLoading (scoreEffect s) = isLoading s).
  { unfold scoreEffect. destruct (_ && _)%bool; [|reflexivity].
    destruct (Score.calculateScores _ _ _); reflexivity. }
  destruct (generationWanted s) eqn:Hw; [|left; exact Hl].
  right. split; [apply (wanted_no_result s Hw)|reflexivity].
Qed.

Lemma deps_changed_same (s r : state) :
  effectDeps (pending r) = effectDeps (pending s) ->
  currentStep r = currentStep s ->
  chatMessages r = chatMessages s ->
  isLoading r = isLoading s ->
  deps_changed r = deps_changed s.
Proof.
  intros Hd Hs Hc Hl. unfold deps_changed, questionDeps.
  rewrite Hd, Hs, Hc, Hl. reflexivity.
Qed.

Lemma deps_just_stored (s r : state) :
  effectDeps (pending r) = Some (questionDeps s) ->
  currentStep r = currentStep s ->
  chatMessages r = chatMessages s ->
  deps_changed r = negb (Bool.eqb (isLoading s) (isLoading r)).
Proof.
  intros Hd Hs Hc. unfold deps_changed, questionDeps, deps_eqb.
  rewrite Hd, Hs, Hc. unfold questionDeps. cbv beta iota.
  rewrite Qeq_bool_refl, Nat.eqb_refl. reflexivity.
Qed.

Lemma cleanup_calm (s : state) :
  effectOwnsFetch (pending s) = false -> questionEffect_cleanup s = s.
Proof.
  intros H. unfold questionEffect_cleanup. rewrite H. reflexivity.
Qed.

Lemma questionWanted_idle (s : state) :
  questionWanted s = true -> isLoading s = false.
Proof.
  unfold questionWanted. intros H.
  apply andb_true_iff in H as [H _]. apply andb_true_iff in H as [_ H].
  apply negb_true_iff. exact H.
Qed.

Lemma render_calm (s : state) : calm s -> settled_or_fired (render s).
Proof.
  intros [Hown Hun].
  destruct (both_question_fields s) as (Bf & Bo & Bd & Bs & Bc & Ba).
  unfold render. cbv zeta.
  destruct (deps_changed s) eqn:Hdc.
  - rewrite cleanup_calm by (rewrite Bo; exact Hown).
    unfold questionEffect.
    destruct (questionWanted (plainEffects s)) eqn:Hq.
    + right. cbn [pending set_pending effectOwnsFetch set_effectDeps
                    set_effectOwnsFetch set_questionFetches questionFetches
                    isLoading set_isLoading set_hasAttemptedQuestionFetch].
      split; [reflexivity|].
      split; [eexists; eexists; split; [reflexivity|rewrite Bf; exact Hun]|].
      split; [reflexivity|].
      pose proof (questionWanted_idle _ Hq) as Hidle.
      assert (Hl : isLoading s = false).
      { destruct (both_loading s) as [E|[E _]]; congruence. }
      unfold deps_changed, questionDeps, deps_eqb.
      cbn [pending set_pending effectDeps set_effectDeps set_effectOwnsFetch
             set_questionFetches currentStep chatMessages isLoading
             set_isLoading set_hasAttemptedQuestionFetch].
      rewrite Bs, Bc, Hl. cbv beta iota.
      rewrite Qeq_bool_refl, Nat.eqb_refl. reflexivity.
    + left. split.
      * split; [reflexivity|].
        cbn [pending set_pending questionFetches set_effectDeps
               set_effectOwnsFetch].
        rewrite Bf. exact Hun.
      * intros Hch.
        rewrite (deps_just_stored s) in Hch; [|reflexivity|exact Bs|exact Bc].
        cbn [isLoading set_pending] in Hch |- *.
        destruct (both_loading s) as [E|[_ E]]; [|exact E].
        rewrite E in Hch. rewrite Bool.eqb_reflx in Hch. discriminate.
  - left. split.
    + split; [rewrite Bo; exact Hown|rewrite Bf; exact Hun].
    + intros Hch.
      destruct (both_loading s) as [E|[_ E]]; [|exact E].
      rewrite (deps_changed_same s) in Hch by assumption. congruence.
Qed.

Lemma render_settled_or_fired (r : state) :
  settled_or_fired r -> calm (render r).
Proof.
  destruct (both_question_fields r) as (Bf & Bo & Bd & Bs & Bc & Ba).
  assert (Hkeep : isLoading r = true -> isLoading (plainEffects r) = true).
  { intros H. destruct (both_loading r) as [E|[E _]]; congruence. }
  intros [[[Hown Hun] Hload]|(Hown & (f & rest & Hf & Hun) & Hl & Hdc)].
  - unfold render. cbv zeta.
    destruct (deps_changed r) eqn:Hdc.
    + rewrite cleanup_calm by (rewrite Bo; exact Hown).
      unfold questionEffect.
      destruct (questionWanted (plainEffects r)) eqn:Hq.
      * apply questionWanted_idle in Hq.
        rewrite (Hkeep (Hload eq_refl)) in Hq. discriminate.
      * split; [reflexivity|].
        cbn [pending set_pending questionFetches set_effectDeps
               set_effectOwnsFetch].
        rewrite Bf. exact Hun.
    + split; [rewrite Bo; exact Hown|rewrite Bf; exact Hun].
  - unfold render. cbv zeta. rewrite Hdc.
    unfold questionEffect_cleanup. rewrite Bo, Hown, Bf, Hf.
    unfold questionEffect.
    match goal with
    | |- context [questionWanted ?u] =>
        assert (Hq : questionWanted u = false)
    end.
    { unfold questionWanted.
      cbn [isLoading set_pending]. rewrite (Hkeep Hl).
      cbn [negb]. rewrite andb_false_r. reflexivity. }
    rewrite Hq. split; [reflexivity|].
    cbn [pending set_pending questionFetches set_effectDeps
           set_effectOwnsFetch set_questionFetches].
    constructor; [reflexivity|exact Hun].
Qed.

(** After the renders that follow a state change, every question call in
    flight has been unmounted. *)
Lemma commit_calm (s : state) : calm s -> calm (commit s).
Proof.
  intros H. unfold commit.
  apply render_settled_or_fired, render_calm. exact H.
Qed.

Lemma render_loading_monotone (x : state) :
  isLoading x = true -> isLoading (render x) = true.
Proof.
  intros H. apply render_keeps_loading.
  destruct (both_loading x) as [E|[E _]]; congruence.
Qed.

Lemma render_effectDeps (x : state) :
  effectDeps (pending (render x))
  = if deps_changed x then Some (questionDeps x) else effectDeps (pending x).
Proof.
  destruct (both_question_fields x) as (_ & _ & Bd & _).
  unfold render. cbv zeta.
  destruct (deps_changed x); [reflexivity|exact Bd].
Qed.

(** A further render of the first-question effect can only be due
    because loading has just started. *)
Lemma render_due_again (x : state) :
  deps_changed (render x) = true ->
  isLoading x = false /\ isLoading (render x) = true.
Proof.
  intros H.
  assert (Hdiff : isLoading (render x) <> isLoading x).
  { intros Heq. pose proof (render_effectDeps x) as Hd.
    destruct (deps_changed x) eqn:Hdc.
    - rewrite (deps_just_stored x) in H;
        [|exact Hd|apply render_currentStep|apply render_chatMessages].
      rewrite Heq, Bool.eqb_reflx in H. discriminate.
    - rewrite (deps_changed_same x) in H;
        [congruence|exact Hd|apply render_currentStep
        |apply render_chatMessages|exact Heq]. }
  destruct (isLoading x) eqn:Hx.
  - rewrite (render_loading_monotone x Hx) in Hdiff. contradiction.
  - split; [reflexivity|].
    destruct (isLoading (render x)); [reflexivity|contradiction].
Qed.

Lemma loading_started_by_an_effect (x : state) :
  isLoading x = false -> isLoading (render x) = true ->
  generationWanted x = true \/ deps_changed x = true.
Proof.
  intros Hx Hr.
  destruct (deps_changed x) eqn:Hdc; [right; reflexivity|left].
  unfold render in Hr. rewrite Hdc in Hr. cbv zeta in Hr.
  unfold plainEffects, generationEffect in Hr.
  rewrite scoreEffect_generationWanted in Hr.
  destruct (generationWanted x); [reflexivity|].
  assert (Hl : isLoading (scoreEffect x) = isLoading x).
  { unfold scoreEffect. destruct (_ && _)%bool; [|reflexivity].
    destruct (Score.calculateScores _ _ _); reflexivity. }
  congruence.
Qed.

(** Two renders are enough: after them neither the generation effect nor
    the first-question effect is due. *)
Lemma render_settles (s : state) :
  generationWanted (commit s) = false /\ deps_changed (commit s) = false.
Proof.
  assert (Hw1 : generationWanted (render s) = false).
  { destruct (generationWanted s) eqn:Hw.
    - apply loading_not_wanted. apply (render_wanted s Hw).
    - apply (render_not_wanted s Hw). }
  split; [apply (render_not_wanted (render s) Hw1)|].
  unfold commit.
  destruct (deps_changed (render (render s))) eqn:E; [exfalso|reflexivity].
  destruct (render_due_again _ E) as [Hl1 Hl2].
  destruct (loading_started_by_an_effect _ Hl1 Hl2) as [Hw|Hd].
  - congruence.
  - destruct (render_due_again _ Hd) as [_ Hl]. congruence.
Qed.

Lemma remove_nth_unmounted (k : nat) (l : list question_fetch) :
  unmounted l -> unmounted (remove_nth k l).
Proof.
  unfold unmounted. revert k. induction l as [|f l IH]; intros k H.
  - destruct k; exact H.
  - inversion H as [|? ? Hf Hl]; subst.
    destruct k; cbn [remove_nth]; [exact Hl|].
    constructor; [exact Hf|apply IH; exact Hl].
Qed.

Lemma nth_unmounted (k : nat) (l : list question_fetch) (f : question_fetch) :
  unmounted l -> nth_error l k = Some f -> isMounted f = false.
Proof.
  unfold unmounted. intros H Hn.
  rewrite Forall_forall in H. apply H. eapply nth_error_In. exact Hn.
Qed.

Lemma handler_calm (e : event) (s : state) : calm s -> calm (handler e s).
Proof.
  intros [Hown Hun].
  destruct e; cbn [handler]; try (split; assumption).
  - unfold handleNext.
    destruct (Qeq_bool (currentStep s) 3); [split; assumption|].
    destruct (_ && _)%bool; split; assumption.
  - unfold handleBack.
    destruct (Qeq_bool (currentStep s) 3.5); [split; assumption|].
    destruct (Qlt_bool 1 (currentStep s)); split; assumption.
  - unfold errorGoBack, handleBack. cbn [currentStep set_apiError].
    destruct (Qeq_bool (currentStep s) 3.5); [split; assumption|].
    destruct (Qlt_bool 1 (currentStep s)); split; assumption.
  - unfold handleChatResponse, generateMessageId.
    destruct messageId; split; assumption.
  - unfold chatReplyTyped, generateMessageId.
    destruct (asks nextQ); split; assumption.
  - unfold questionResolved.
    destruct (nth_error _ k) as [f|] eqn:Hn; [|split; assumption].
    rewrite (nth_unmounted k _ f Hun Hn). cbn [negb].
    split; [exact Hown|].
    cbn [set_fetches pending set_pending questionFetches
           set_questionFetches].
    apply remove_nth_unmounted. exact Hun.
  - unfold questionTyped.
    destruct (nth_error _ k) as [f|] eqn:Hn; [|split; assumption].
    destruct (typing f) as [[q o]|]; [|split; assumption].
    rewrite (nth_unmounted k _ f Hun Hn). cbn [negb].
    split; [exact Hown|].
    cbn [set_fetches pending set_pending questionFetches
           set_questionFetches].
    apply remove_nth_unmounted. exact Hun.
  - unfold fetchFinalScript_settled.
    destruct (Net.generation_error c); [split; assumption|].
    destruct d; split; assumption.
  - unfold handleCollapse.
    destruct (hasUnsavedChanges s || Qlt_bool 1 (currentStep s))%bool;
      split; assumption.
  - unfold modalConfirm.
    destruct (modalTitle s) as [t|]; [|split; assumption].
    destruct (String.eqb t "Unsaved Work"); split; assumption.
Qed.

Lemma restore_pending (now : Z) (item : stored) (s : state) :
  pending (restore now item s) = pending s.
Proof.
  unfold restore. destruct (isExpanded s); [reflexivity|].
  destruct item as [| |snap]; try reflexivity.
  destruct (no_timestamp snap); [reflexivity|].
  destruct (Z.ltb _ 3600000); reflexivity.
Qed.

(** In every reachable state the question calls in flight have all been
    unmounted by the cleanup of the effect run that made them. *)
Lemma reachable_calm (s : state) : reachable s -> calm s.
Proof.
  induction 1 as [now item Hw|e s Hr IH Hp].
  - unfold boot. apply commit_calm. unfold calm.
    rewrite restore_pending. split; [reflexivity|constructor].
  - unfold apply. apply commit_calm, handler_calm. exact IH.
Qed.

Lemma render_questionFetchFailed (s : state) :
  questionFetchFailed (render s) = questionFetchFailed s.
Proof.
  unfold render, plainEffects, questionEffect, questionEffect_cleanup,
    generationEffect, scoreEffect, fetchFinalScript. cbv zeta.
  repeat match goal with
         | |- context [if ?c then _ else _] => destruct c eqn:?
         | |- context [match ?c with Score.NotScored => _ | _ => _ end] =>
             destruct c eqn:?
         | |- context [match questionFetches ?c with [] => _ | _ => _ end] =>
             destruct (questionFetches c) eqn:?
         end; reflexivity.
Qed.

(** The reply to the first-question call is discarded in every reachable
    state, whatever it is: no message is shown, the failure flag is not
    set, loading is not ended, no error is set. *)
Lemma reachable_reply_discarded
  (s : state) (k : nat) (firstQ : question_reply) (now : Z) :
  reachable s ->
  chatMessages (apply (QuestionResolved k firstQ now) s) = chatMessages s
  /\ questionFetchFailed (apply (QuestionResolved k firstQ now) s)
     = questionFetchFailed s
  /\ isLoading (questionResolved k firstQ now s) = isLoading s
  /\ apiError (questionResolved k firstQ now s) = apiError s.
Proof.
  intros Hr. destruct (reachable_calm s Hr) as [_ Hun].
  unfold apply, commit.
  rewrite !render_chatMessages, !render_questionFetchFailed.
  cbn [handler]. unfold questionResolved.
  destruct (nth_error _ k) as [f|] eqn:Hn; [|repeat split].
  rewrite (nth_unmounted k _ f Hun Hn). repeat split.
Qed.

(** What does hold on this path: a failed call degrades to
    [{question: null}], the effect records the attempt, and nothing
    writes [apiError]. *)
Lemma fetchNextQuestion_degrades
  (net : Net.network) (decode : string -> option question_reply) :
  (forall e, snd (Net.fetchWithRetry 2 net) = Net.Throws e ->
             fetchNextQuestion net decode = no_question)
  /\ (forall r, snd (Net.fetchWithRetry 2 net) = Net.Returns r ->
                Net.ok r = false ->
                fetchNextQuestion net decode = no_question).
Proof.
  unfold fetchNextQuestion. split.
  - intros e H. rewrite H. reflexivity.
  - intros r H Hok. rewrite H, Hok. reflexivity.
Qed.

Lemma questionEffect_records_attempt (s : state) :
  questionWanted s = true ->
  hasAttemptedQuestionFetch (questionEffect s) = true
  /\ questionWanted (questionEffect s) = false
  /\ apiError (questionEffect s) = apiError s.
Proof.
  intros H. unfold questionEffect. rewrite H.
  split; [reflexivity|]. split; [|reflexivity].
  unfold questionWanted.
  cbn [hasAttemptedQuestionFetch set_pending set_isLoading
         set_hasAttemptedQuestionFetch].
  rewrite andb_false_r. reflexivity.
Qed.

Lemma question_callbacks_keep_apiError
  (s : state) (k : nat) (firstQ : question_reply) (now : Z) :
  apiError (questionResolved k firstQ now s) = apiError s
  /\ apiError (questionTyped k now s) = apiError s.
Proof.
  unfold questionResolved, questionTyped, generateMessageId.
  destruct (nth_error _ k) as [f|]; [|split; reflexivity].
  split.
  - destruct (negb (isMounted f)); [reflexivity|].
    destruct (valid_question firstQ); reflexivity.
  - destruct (typing f) as [[q o]|]; [|reflexivity].
    destruct (negb (isMounted f)); reflexivity.
Qed.

(** C8 (the code departs from it): the user arrives at the refinement;
    the effect records the attempt, starts loading and makes the question
    call, and the render caused by the loading flag runs the cleanup of
    that effect run, which sets its [isMounted] to [false].  The call
    fails and degrades to [{question: null}]; its callback returns at the
    [isMounted] test: no fallback message is shown, the failure flag is
    not set and loading never ends.  No error is set, and the call is not
    made again. *)
Theorem failed_question_call_shows_no_fallback
  (decode : string -> option question_reply) :
  fetchNextQuestion always_unavailable decode = no_question
  /\ exists s0 s,
      run to_refinement (boot 0 NoItem) = Some s0
      /\ questionFetches (pending s0)
         = [ {| isMounted := false; typing := None |} ]
      /\ hasAttemptedQuestionFetch s0 = true
      /\ run question_call_fails (boot 0 NoItem) = Some s
      /\ chatMessages s = []
      /\ questionFetchFailed s = false
      /\ isLoading s = true
      /\ apiError s = None
      /\ questionWanted s = false.
Proof.
  split; [reflexivity|].
  eexists. eexists.
  split; [vm_compute; reflexivity|].
  split; [reflexivity|]. split; [reflexivity|].
  split; [vm_compute; reflexivity|].
  repeat split.
Qed.

End FirstQuestion.

(* ================================================================== *)
(** ** The retry loop as a whole *)
(* ================================================================== *)

Section RetryLoop.

Import Net Trace.

Lemma attempts_stop
  (fuel maxRetries i : nat) (net : network) (e0 : option JsError) :
  (fuel + i = S maxRetries)%nat -> (i <= maxRetries)%nat ->
  exists k,
    (i <= k <= maxRetries)%nat
    /\ attempts fuel maxRetries i net e0
       = (flat_map (fun j => before_attempt j ++ [Fetch j])%list
            (seq i (S k - i)),
          handed_back (net k))
    /\ ((k < maxRetries)%nat -> final (net k) = true)
    /\ (forall j, (i <= j < k)%nat -> final (net j) = false).
Proof.
  revert i e0. induction fuel as [|fuel IH]; intros i e0 Hsum Hi; [lia|].
  assert (Hstay :
            forall c, c = handed_back (net i) ->
            ((i < maxRetries)%nat -> final (net i) = true) ->
            exists k,
              (i <= k <= maxRetries)%nat
              /\ ((before_attempt i ++ [Fetch i])%list, c)
                 = (flat_map (fun j => before_attempt j ++ [Fetch j])%list
                      (seq i (S k - i)),
                    handed_back (net k))
              /\ ((k < maxRetries)%nat -> final (net k) = true)
              /\ (forall j, (i <= j < k)%nat -> final (net j) = false)).
  { intros c -> Hfin. exists i. split; [lia|]. split.
    - replace (S i - i)%nat with 1%nat by lia.
      cbn [seq flat_map]. rewrite app_nil_r. reflexivity.
    - split; [exact Hfin|]. intros j Hj. lia. }
  assert (Hgo :
            forall e1, final (net i) = false -> (i < maxRetries)%nat ->
            exists k,
              (i <= k <= maxRetries)%nat
              /\ (((before_attempt i ++ [Fetch i])
                     ++ fst (attempts fuel maxRetries (S i) net e1))%list,
                  snd (attempts fuel maxRetries (S i) net e1))
                 = (flat_map (fun j => before_attempt j ++ [Fetch j])%list
                      (seq i (S k - i)),
                    handed_back (net k))
              /\ ((k < maxRetries)%nat -> final (net k) = true)
              /\ (forall j, (i <= j < k)%nat -> final (net j) = false)).
  { intros e1 Hnf Hlt.
    destruct (IH (S i) e1 ltac:(lia) ltac:(lia)) as (k & Hk & Heq & Hfin & Hbefore).
    exists k. split; [lia|]. split.
    - rewrite Heq. cbn [fst snd].
      replace (S k - i)%nat with (S (S k - S i))%nat by lia.
      cbn [seq flat_map]. reflexivity.
    - split; [exact Hfin|]. intros j Hj.
      destruct (Nat.eq_dec j i) as [->|Hne]; [exact Hnf|].
      apply Hbefore. lia. }
  cbn [attempts].
  destruct (net i) as [r|err] eqn:Hn.
  - destruct (Z.leb 500 (status r)) eqn:H5;
      destruct (Nat.ltb i maxRetries) eqn:Hlt; cbn [andb].
    + apply Nat.ltb_lt in Hlt. apply Z.leb_le in H5.
      destruct (attempts fuel maxRetries (S i) net _) as [acts c] eqn:Hrec.
      specialize (Hgo (Some {| name := "Error";
                               message := "HTTP " ++ decimal (status r) |})).
      rewrite Hrec in Hgo. apply Hgo; [|exact Hlt].
      cbn [final]. apply Z.ltb_ge. exact H5.
    + apply Nat.ltb_ge in Hlt. apply Hstay; [reflexivity|lia].
    + apply Hstay; [reflexivity|]. intros _. cbn [final].
      apply Z.ltb_lt. apply Z.leb_gt in H5. exact H5.
    + apply Nat.ltb_ge in Hlt. apply Hstay; [reflexivity|lia].
  - destruct (String.eqb (name err) "AbortError") eqn:Hab;
      destruct (Nat.ltb i maxRetries) eqn:Hlt; cbn [negb andb].
    + apply Hstay; [reflexivity|]. intros _. exact Hab.
    + apply Hstay; [reflexivity|]. intros _. exact Hab.
    + apply Nat.ltb_lt in Hlt.
      destruct (attempts fuel maxRetries (S i) net _) as [acts c] eqn:Hrec.
      specialize (Hgo (Some err)). rewrite Hrec in Hgo.
      apply Hgo; [exact Hab|exact Hlt].
    + apply Nat.ltb_ge in Hlt. apply Hstay; [reflexivity|lia].
Qed.

Lemma fetchWithRetry_shape (maxRetries : nat) (net : network) :
  exists k,
    (k <= maxRetries)%nat
    /\ fetchWithRetry maxRetries net = (rounds (S k), handed_back (net k))
    /\ ((k < maxRetries)%nat -> final (net k) = true)
    /\ (forall j, (j < k)%nat -> final (net j) = false).
Proof.
  destruct (attempts_stop (S maxRetries) maxRetries 0 net None
              ltac:(lia) ltac:(lia)) as (k & Hk & Heq & Hfin & Hbefore).
  exists k. split; [lia|]. split.
  - unfold fetchWithRetry, rounds. rewrite Heq.
    replace (S k - 0)%nat with (S k) by lia. reflexivity.
  - split; [exact Hfin|]. intros j Hj. apply Hbefore. lia.
Qed.

(** X1: [fetchWithRetry] stops at the first attempt whose outcome is an
    answer below 500 or an abort, and at attempt [maxRetries] at the
    latest; it has fetched once per attempt up to there, with the pause
    of the backoff before each attempt but the first, and it returns the
    answer or throws the error of that last attempt. *)
Theorem fetchWithRetry_stops_at_first_final
  (maxRetries : nat) (net : network) :
  exists k,
    (k <= maxRetries)%nat
    /\ fetchWithRetry maxRetries net = (rounds (S k), handed_back (net k))
    /\ ((k < maxRetries)%nat -> final (net k) = true)
    /\ (forall j, (j < k)%nat -> final (net j) = false).
Proof. exact (fetchWithRetry_shape maxRetries net). Qed.

Lemma rounds_S (k : nat) :
  rounds (S k) = (rounds k ++ before_attempt k ++ [Fetch k])%list.
Proof.
  unfold rounds. rewrite seq_S, flat_map_app. cbn [flat_map Nat.add].
  rewrite app_nil_r. reflexivity.
Qed.

Lemma fetches_app (a b : list action) :
  fetches (a ++ b) = (fetches a + fetches b)%nat.
Proof. unfold fetches. rewrite filter_app, length_app. reflexivity. Qed.

Lemma slept_app (a b : list action) : slept (a ++ b) = slept a + slept b.
Proof.
  induction a as [|x a IH]; [reflexivity|].
  destruct x; cbn [app slept]; rewrite IH; lia.
Qed.

Lemma fetches_rounds (k : nat) : fetches (rounds k) = k.
Proof.
  induction k as [|k IH]; [reflexivity|].
  rewrite rounds_S, !fetches_app, IH.
  unfold before_attempt. destruct (Nat.ltb 0 k); cbn; lia.
Qed.

Lemma backoff_bounds (i : nat) :
  (1 <= i)%nat -> 1000 <= backoff i <= 8000 /\ backoff i <= 1000 * 2 ^ (Z.of_nat i - 1).
Proof.
  intros Hi. unfold backoff.
  assert (Hp : 1 <= 2 ^ (Z.of_nat i - 1)) by (apply Z.pow_le_mono_r with (b := 0); lia).
  lia.
Qed.

Lemma slept_rounds (k : nat) :
  0 <= slept (rounds (S k)) <= 1000 * (2 ^ Z.of_nat k - 1)
  /\ slept (rounds (S k)) <= 8000 * Z.of_nat k.
Proof.
  induction k as [|k IH]; [cbn; lia|].
  rewrite rounds_S, !slept_app.
  change (before_attempt (S k)) with [Sleep (backoff (S k)); SetRetryCount (S k)].
  cbn [slept].
  destruct (backoff_bounds (S k) ltac:(lia)) as [Hb Hp].
  replace (Z.of_nat (S k) - 1) with (Z.of_nat k) in Hp by lia.
  replace (Z.of_nat (S k)) with (Z.of_nat k + 1) by lia.
  rewrite Z.pow_add_r by lia. change (2 ^ 1) with 2. lia.
Qed.

(** X2: whatever the network does, a call of [fetchWithRetry] fetches at
    least once and at most [maxRetries + 1] times, and sleeps at most
    [1000 * (2^maxRetries - 1)] ms and at most [8000 * maxRetries] ms in
    all: 3 seconds with the two retries of the call sites, 7 seconds with
    the default of three. *)
Theorem fetchWithRetry_bounded (maxRetries : nat) (net : network) :
  (1 <= fetches (fst (fetchWithRetry maxRetries net)) <= S maxRetries)%nat
  /\ 0 <= slept (fst (fetchWithRetry maxRetries net))
     <= 1000 * (2 ^ Z.of_nat maxRetries - 1)
  /\ slept (fst (fetchWithRetry maxRetries net)) <= 8000 * Z.of_nat maxRetries
  /\ slept (fst (fetchWithRetry 2 net)) <= 3000
  /\ slept (fst (fetchWithRetry 3 net)) <= 7000.
Proof.
  assert (H : forall m,
             (1 <= fetches (fst (fetchWithRetry m net)) <= S m)%nat
             /\ 0 <= slept (fst (fetchWithRetry m net))
                <= 1000 * (2 ^ Z.of_nat m - 1)
             /\ slept (fst (fetchWithRetry m net)) <= 8000 * Z.of_nat m).
  { intros m.
    destruct (fetchWithRetry_shape m net) as (k & Hk & Heq & _).
    rewrite Heq. cbn [fst]. rewrite fetches_rounds.
    destruct (slept_rounds k) as [Hs Hc].
    assert (Hp : 2 ^ Z.of_nat k <= 2 ^ Z.of_nat m)
      by (apply Z.pow_le_mono_r; lia).
    split; [lia|]. split; lia. }
  destruct (H maxRetries) as (Hf & Hs & Hc).
  split; [exact Hf|]. split; [exact Hs|]. split; [exact Hc|].
  destruct (H 2%nat) as (_ & H2 & _). destruct (H 3%nat) as (_ & H3 & _).
  change (1000 * (2 ^ Z.of_nat 2 - 1)) with 3000 in H2.
  change (1000 * (2 ^ Z.of_nat 3 - 1)) with 7000 in H3.
  split; lia.
Qed.

End RetryLoop.

(* ================================================================== *)
(** ** Error classes *)
(* ================================================================== *)

Section ErrorClasses.

Import Net Trace.

Lemma decimal_5xx (st : Z) :
  500 <= st <= 599 -> exists rest, decimal st = String "5" rest.
Proof.
  intros H.
  assert (Hall : forallb starts_with_5 (seq 0 100) = true)
    by (vm_compute; reflexivity).
  rewrite forallb_forall in Hall.
  specialize (Hall (Z.to_nat (st - 500))).
  assert (Hin : In (Z.to_nat (st - 500)) (seq 0 100)).
  { apply in_seq. lia. }
  specialize (Hall Hin). unfold starts_with_5 in Hall.
  replace (500 + Z.of_nat (Z.to_nat (st - 500))) with st in Hall by lia.
  destruct (decimal st) as [|c rest]; [discriminate|].
  apply Ascii.eqb_eq in Hall. subst c. exists rest. reflexivity.
Qed.

(** X3: [createApiError] marks an error as not retryable in one case
    only: the error is no abort, the browser is on line, and the message
    contains "HTTP 4" but not "HTTP 5"; the class is then [server].  Every
    other error, a missing one included, is retryable. *)
Theorem createApiError_not_retryable_iff
  (onLine : bool) (error : option JsError) :
  retryable (createApiError onLine error) = false
  <-> (onLine = true
       /\ exists e,
           error = Some e
           /\ name e <> "AbortError"
           /\ Text.includes "HTTP 5" (message e) = false
           /\ Text.includes "HTTP 4" (message e) = true
           /\ type (createApiError onLine error) = server).
Proof.
  unfold createApiError. split.
  - destruct error as [e|].
    + destruct (String.eqb (name e) "AbortError") eqn:Ha; [discriminate|].
      destruct onLine; cbn [negb]; [|discriminate].
      destruct (Text.includes "HTTP 5" (message e)) eqn:H5; [discriminate|].
      destruct (Text.includes "HTTP 4" (message e)) eqn:H4; [|discriminate].
      intros _. split; [reflexivity|]. exists e.
      apply String.eqb_neq in Ha. repeat split; assumption.
    + cbn. destruct onLine; discriminate.
  - intros (-> & e & -> & Ha & H5 & H4 & _).
    apply String.eqb_neq in Ha. rewrite Ha, H5, H4. reflexivity.
Qed.

(** For a status 500..599 seen on line the error made from the status
    line is classified [server] and retryable, whatever the status text
    and the body are. *)
Lemma http_error_5xx_is_server (r : Response) :
  500 <= status r <= 599 ->
  createApiError true (Some (http_error r))
  = {| type := server;
       text := "The server is temporarily unavailable. Please try again shortly.";
       retryable := true |}.
Proof.
  intros H. destruct (decimal_5xx (status r) H) as [rest E].
  unfold createApiError. cbn [name http_error message].
  change (String.eqb "Error" "AbortError") with false. cbn [negb].
  cbv iota.
  assert (H5 : Text.includes "HTTP 5"
                 ("HTTP " ++ decimal (status r) ++ " " ++ statusText r
                  ++ (if String.eqb (body r) "" then ""
                      else " · " ++ slice0 300 (body r))) = true).
  { apply includes_prefix. rewrite E. apply (prefix_append "HTTP 5"). }
  rewrite H5. reflexivity.
Qed.

End ErrorClasses.

(* ================================================================== *)
(** ** The word count *)
(* ================================================================== *)

Section WordCount.

Import Score Measure.

Lemma split_length_spaces (t : string) :
  List.length (Text.split " " t) = S (spaces t).
Proof.
  induction t as [|c r IH]; [reflexivity|].
  cbn [Text.split spaces].
  destruct (Ascii.eqb c " ").
  - cbn [List.length]. rewrite IH. reflexivity.
  - destruct (Text.split " " r) as [|p ps] eqn:E;
      [cbn in IH; discriminate|].
    cbn [List.length] in *. exact IH.
Qed.

(** X6: the word count of [calculateScores] is the number of space
    characters plus one: an empty text counts as one word, and every
    doubled, leading or trailing space adds a word. *)
Theorem words_is_spaces_plus_one (t : string) :
  words t = Z.of_nat (S (spaces t))
  /\ words (t ++ " ") = (words t + 1)%Z
  /\ words (" " ++ t) = (words t + 1)%Z.
Proof.
  unfold words. rewrite !split_length_spaces.
  split; [reflexivity|]. split.
  - assert (H : spaces (t ++ " ") = S (spaces t)).
    { induction t as [|c r IH]; [reflexivity|].
      cbn [append spaces]. destruct (Ascii.eqb c " "); rewrite IH; reflexivity. }
    rewrite H. lia.
  - change (spaces (" " ++ t)) with (S (spaces t)). lia.
Qed.

End WordCount.

(* ================================================================== *)
(** ** Forms, identifiers and the chat *)
(* ================================================================== *)

Section Forms.

Import Wizard Scenario Measure.
Local Open Scope Q_scope.

Ltac branch :=
  match goal with
  | |- context [if ?c then _ else _] => destruct c eqn:?
  | |- context [match ?c with Score.NotScored => _ | _ => _ end] =>
      destruct c eqn:?
  | |- context [match questionFetches ?c with [] => _ | _ => _ end] =>
      destruct (questionFetches c) eqn:?
  end.

Ltac effects :=
  unfold render, plainEffects, questionEffect, questionEffect_cleanup,
    generationEffect, scoreEffect, fetchFinalScript;
  cbv zeta.

(** What no effect writes. *)
Lemma render_untouched (s : state) :
  messageIdCounter (render s) = messageIdCounter s
  /\ skipRefinement (render s) = skipRefinement s
  /\ selections (render s) = selections s
  /\ isExpanded (render s) = isExpanded s
  /\ hasUnsavedChanges (render s) = hasUnsavedChanges s
  /\ modalTitle (render s) = modalTitle s
  /\ showSkipConfirm (render s) = showSkipConfirm s.
Proof. effects. repeat branch; repeat split. Qed.

Lemma commit_untouched (s : state) :
  messageIdCounter (commit s) = messageIdCounter s
  /\ skipRefinement (commit s) = skipRefinement s
  /\ selections (commit s) = selections s
  /\ isExpanded (commit s) = isExpanded s
  /\ hasUnsavedChanges (commit s) = hasUnsavedChanges s
  /\ modalTitle (commit s) = modalTitle s
  /\ showSkipConfirm (commit s) = showSkipConfirm s.
Proof.
  unfold commit.
  destruct (render_untouched (render s)) as (A1 & A2 & A3 & A4 & A5 & A6 & A7).
  destruct (render_untouched s) as (B1 & B2 & B3 & B4 & B5 & B6 & B7).
  rewrite A1, A2, A3, A4, A5, A6, A7. repeat split; assumption.
Qed.

Lemma drop_spaces_empty (t : string) :
  Text.drop_spaces t = "" <-> blank t = true.
Proof.
  induction t as [|c r IH]; [split; reflexivity|].
  cbn [Text.drop_spaces blank].
  destruct (Text.is_space c); cbn [andb]; [exact IH|].
  split; discriminate.
Qed.

Lemma blank_drop_spaces (t : string) :
  blank (Text.drop_spaces t) = blank t.
Proof.
  induction t as [|c r IH]; [reflexivity|].
  cbn [Text.drop_spaces]. destruct (Text.is_space c) eqn:E.
  - cbn [blank]. rewrite E. exact IH.
  - reflexivity.
Qed.

Lemma blank_rev_onto (t acc : string) :
  blank (Text.rev_onto t acc) = (blank t && blank acc)%bool.
Proof.
  revert acc. induction t as [|c r IH]; intros acc; [reflexivity|].
  cbn [Text.rev_onto]. rewrite IH. cbn [blank].
  destruct (Text.is_space c), (blank r), (blank acc); reflexivity.
Qed.

Lemma rev_onto_empty (t acc : string) :
  Text.rev_onto t acc = "" -> t = "".
Proof.
  revert acc. induction t as [|c r IH]; intros acc H; [reflexivity|].
  cbn [Text.rev_onto] in H.
  assert (Hl : forall u a, String.length (Text.rev_onto u a)
                           = (String.length u + String.length a)%nat).
  { induction u as [|d u IHu]; intros a; [reflexivity|].
    cbn [Text.rev_onto String.length]. rewrite IHu. cbn [String.length]. lia. }
  pose proof (Hl r (String c acc)) as E. rewrite H in E.
  cbn [String.length] in E. lia.
Qed.

(** [trim] leaves nothing exactly of the texts made of white space. *)
Lemma trim_empty_iff_blank (t : string) :
  Text.trim t = "" <-> blank t = true.
Proof.
  unfold Text.trim, Text.rev. split.
  - intros H. apply rev_onto_empty in H. apply drop_spaces_empty in H.
    rewrite blank_rev_onto, blank_drop_spaces in H.
    rewrite andb_true_r in H. exact H.
  - intros H.
    assert (Hd : Text.drop_spaces t = "") by (apply drop_spaces_empty; exact H).
    rewrite Hd. reflexivity.
Qed.

Lemma nonempty_trim (t : string) :
  nonempty (Text.trim t) = negb (blank t).
Proof.
  unfold nonempty. destruct (blank t) eqn:E.
  - apply trim_empty_iff_blank in E. rewrite E. reflexivity.
  - destruct (String.eqb (Text.trim t) "") eqn:H; [|reflexivity].
    apply String.eqb_eq in H. apply trim_empty_iff_blank in H. congruence.
Qed.

(** X7: [canProceed] by step.  In Style a style must be chosen, and the
    style "other" needs a custom name that is more than white space; in
    Topic the keyword must be more than white space; in Settings tone and
    language must both differ from "Select"; in Refinement it is always
    false, in Result always true. *)
Theorem canProceed_by_step
  (s : state) (n : step_name) (Hstep : currentStep s = step_value n) :
  canProceed s
  = match n with
    | Style =>
        (negb (String.eqb (selectedStyle s) "")
         && (negb (String.eqb (selectedStyle s) "other")
             || negb (blank (customStyleName s))))%bool
    | Topic => negb (blank (keyword s))
    | Settings =>
        (negb (String.eqb (selectedTone s) "Select")
         && negb (String.eqb (selectedLanguage s) "Select"))%bool
    | Refinement => false
    | Result => true
    end.
Proof.
  unfold canProceed. rewrite Hstep.
  destruct n; cbn [step_value]; cbn -[nonempty Text.trim blank String.eqb];
    rewrite ?nonempty_trim; reflexivity.
Qed.

(** A keyword of three spaces does not let the user leave Topic. *)
Lemma canProceed_by_step_witness :
  canProceed (initial |> set_currentStep 2 |> set_keyword "   ") = false
  /\ canProceed (initial |> set_currentStep 2 |> set_keyword " cats ") = true.
Proof.
  split.
  - exact (canProceed_by_step
             (initial |> set_currentStep 2 |> set_keyword "   ") Topic eq_refl).
  - exact (canProceed_by_step
             (initial |> set_currentStep 2 |> set_keyword " cats ") Topic
             eq_refl).
Defined.

End Forms.

Section Identifiers.

Import Wizard Scenario.
Local Open Scope Z_scope.

(** No handler lowers the counter of [generateMessageId]. *)
Lemma handler_counter (e : event) (s : state) :
  messageIdCounter s <= messageIdCounter (handler e s).
Proof.
  destruct e; cbn [handler];
    unfold handleNext, handleBack, errorGoBack, handleBack,
      handleSkipRefinement, confirmSkip, handleChatResponse, chatReplyTyped,
      chatTransition, questionResolved, questionTyped, retryGeneration,
      regenerate, fetchFinalScript, fetchFinalScript_settled, handleCollapse,
      collapse_now, modalConfirm, collapse_confirmed, modalCancel,
      generateMessageId, set_fetches;
    repeat match goal with
           | |- context [if ?c then _ else _] => destruct c
           | |- context [match ?c with Some _ => _ | None => _ end] =>
               destruct c
           | |- context [match ?c with Net.Returns _ => _ | _ => _ end] =>
               destruct c
           | |- context [match ?c with Decoded _ => _ | _ => _ end] =>
               destruct c
           | |- context [let '(_, _) := ?c in _] => destruct c
           end;
    cbn; lia.
Qed.

Lemma apply_counter (e : event) (s : state) :
  messageIdCounter s <= messageIdCounter (apply e s).
Proof.
  unfold apply.
  destruct (commit_untouched (handler e s)) as (H & _). rewrite H.
  apply handler_counter.
Qed.

Lemma play_counter (es : list event) (s : state) :
  messageIdCounter s <= messageIdCounter (play es s).
Proof.
  revert s. induction es as [|e rest IH]; intros s; cbn [play]; [lia|].
  pose proof (apply_counter e s). pose proof (IH (apply e s)). lia.
Qed.

(** X8: two identifiers made by [generateMessageId] while the component
    stays mounted differ, whatever the clock shows and whatever happens in
    between: the later one carries the larger counter. *)
Theorem message_ids_differ
  (es : list event) (now1 now2 : Z) (s : state) :
  let first := generateMessageId now1 s in
  let second := generateMessageId now2 (play es (snd first)) in
  id_count (fst first) < id_count (fst second)
  /\ message_id_eqb (fst first) (fst second) = false.
Proof.
  cbv zeta. unfold generateMessageId at 1 2 3. cbn [fst snd id_count].
  pose proof (play_counter es (s |> set_messageIdCounter (messageIdCounter s + 1)))
    as H.
  change (messageIdCounter (s |> set_messageIdCounter (messageIdCounter s + 1)))
    with (messageIdCounter s + 1) in H.
  split.
  - unfold generateMessageId. cbn [fst snd id_count]. lia.
  - unfold message_id_eqb, generateMessageId. cbn [fst snd id_count id_time].
    replace (Z.eqb (messageIdCounter s + 1) _) with false.
    + apply andb_false_r.
    + symmetry. apply Z.eqb_neq. lia.
Qed.

End Identifiers.

(* ================================================================== *)
(** ** The chat history after an answer *)
(* ================================================================== *)

Section Answers.

Import Wizard Scenario.

Lemma Forall2_map_right {A B : Type} (R : A -> B -> Prop) (f : A -> B)
  (l : list A) :
  (forall x, R x (f x)) -> Forall2 R l (map f l).
Proof.
  intros H. induction l as [|x r IH]; cbn [map]; constructor;
    [apply H|exact IH].
Qed.

(** X9: what [handleChatResponse] makes of the history.  The earlier
    history splits into the messages dropped, at its front, and the most
    recent ones, 49 of them or all if there are fewer; the new history is
    those recent messages, in their order, followed by the answer of the
    user, whose identifier is made of the clock and the next counter
    value.  A recent message is kept as it was, except that a message
    carrying the identifier of the answered question loses its options. *)
Theorem answer_goes_behind_recent_messages
  (response : string) (messageId : option message_id) (now : Z) (s : state) :
  let old := chatMessages s in
  let new := chatMessages (handleChatResponse response messageId now s) in
  exists dropped recent kept,
    old = (dropped ++ recent)%list
    /\ List.length recent = Nat.min (List.length old) 49
    /\ new
       = (kept
          ++ [ {| id := {| id_time := now;
                           id_count := (messageIdCounter s + 1)%Z |};
                  type := user; content := response; options := None;
                  timestamp := now |} ])%list
    /\ Forall2
         (fun before after =>
            id after = id before
            /\ type after = type before
            /\ content after = content before
            /\ timestamp after = timestamp before
            /\ options after
               = match messageId with
                 | Some m =>
                     if message_id_eqb (id before) m then None
                     else options before
                 | None => options before
                 end)
         recent kept.
Proof.
  cbv zeta. unfold handleChatResponse, generateMessageId.
  set (k := (List.length (chatMessages s) - 49)%nat).
  exists (firstn k (chatMessages s)), (skipn k (chatMessages s)).
  destruct messageId as [m|].
  - exists (map (clear_options m) (skipn k (chatMessages s))).
    split; [symmetry; apply firstn_skipn|].
    split; [rewrite length_skipn; unfold k; lia|].
    split.
    + cbn -[slice_last clear_options]. unfold slice_last.
      rewrite length_map, skipn_map. reflexivity.
    + apply Forall2_map_right. intros x. unfold clear_options.
      destruct (message_id_eqb (id x) m); repeat split.
  - exists (skipn k (chatMessages s)).
    split; [symmetry; apply firstn_skipn|].
    split; [rewrite length_skipn; unfold k; lia|].
    split; [reflexivity|].
    rewrite <- (map_id (skipn k (chatMessages s))) at 2.
    apply Forall2_map_right. intros x. repeat split.
Qed.

End Answers.

(* ================================================================== *)
(** ** Effects outside their steps *)
(* ================================================================== *)

Section Quiet.

Import Wizard Scenario.
Local Open Scope Q_scope.

Lemma plainEffects_outside_result (s : state) :
  Qeq_bool (currentStep s) 4 = false -> plainEffects s = s.
Proof.
  intros H. unfold plainEffects, generationEffect, scoreEffect, generationWanted.
  rewrite H, andb_false_r. cbn [andb]. rewrite H. reflexivity.
Qed.

Lemma cleanup_fields (s : state) :
  currentStep (questionEffect_cleanup s) = currentStep s
  /\ chatMessages (questionEffect_cleanup s) = chatMessages s
  /\ isLoading (questionEffect_cleanup s) = isLoading s
  /\ hasAttemptedQuestionFetch (questionEffect_cleanup s)
     = hasAttemptedQuestionFetch s
  /\ List.length (questionFetches (pending (questionEffect_cleanup s)))
     = List.length (questionFetches (pending s)).
Proof.
  unfold questionEffect_cleanup.
  destruct (effectOwnsFetch (pending s)); [|repeat split].
  destruct (questionFetches (pending s)) eqn:E;
    [repeat split; rewrite E; reflexivity|].
  repeat split.
Qed.

(** Outside the Refinement step, and in it once the attempt is recorded,
    the first-question effect neither starts loading nor makes a call. *)
Lemma render_no_question (s : state) :
  Qeq_bool (currentStep s) 3.5 = false
  \/ hasAttemptedQuestionFetch s = true ->
  isLoading (render s) = isLoading (plainEffects s)
  /\ hasAttemptedQuestionFetch (render s) = hasAttemptedQuestionFetch s
  /\ List.length (questionFetches (pending (render s)))
     = List.length (questionFetches (pending s)).
Proof.
  intros H.
  destruct (both_question_fields s) as (Bf & _ & _ & Bs & _ & Ba).
  destruct (cleanup_fields (plainEffects s)) as (Cs & _ & Cl & Ca & Cf).
  assert (Hq : questionWanted (questionEffect_cleanup (plainEffects s)) = false).
  { unfold questionWanted. rewrite Cs, Ca, Bs, Ba.
    destruct H as [H|H]; rewrite H; [reflexivity|].
    cbn [negb]. apply andb_false_r. }
  unfold render. cbv zeta.
  destruct (deps_changed s).
  - unfold questionEffect. rewrite Hq.
    cbn [isLoading hasAttemptedQuestionFetch pending set_pending
         questionFetches set_effectOwnsFetch set_effectDeps].
    change (isLoading (questionEffect_cleanup (plainEffects s))
            = isLoading (plainEffects s)
            /\ hasAttemptedQuestionFetch (questionEffect_cleanup (plainEffects s))
               = hasAttemptedQuestionFetch s
            /\ List.length
                 (questionFetches (pending (questionEffect_cleanup (plainEffects s))))
               = List.length (questionFetches (pending s))).
    rewrite Cl, Ca, Cf, Ba, Bf. repeat split.
  - rewrite Ba, Bf. repeat split.
Qed.

Lemma commit_no_question (s : state) :
  Qeq_bool (currentStep s) 3.5 = false
  \/ hasAttemptedQuestionFetch s = true ->
  isLoading (commit s) = isLoading (plainEffects (render s))
  /\ hasAttemptedQuestionFetch (commit s) = hasAttemptedQuestionFetch s
  /\ List.length (questionFetches (pending (commit s)))
     = List.length (questionFetches (pending s)).
Proof.
  intros H.
  destruct (render_no_question s H) as (_ & Ha & Hf).
  assert (H' : Qeq_bool (currentStep (render s)) 3.5 = false
               \/ hasAttemptedQuestionFetch (render s) = true).
  { rewrite render_currentStep, Ha. exact H. }
  destruct (render_no_question (render s) H') as (Hl' & Ha' & Hf').
  unfold commit. rewrite Hl', Ha', Hf', Ha, Hf. repeat split.
Qed.

(** In a step that is neither Refinement nor Result no effect writes
    anything the user sees. *)
Lemma commit_quiet (s : state) :
  Qeq_bool (currentStep s) 4 = false ->
  Qeq_bool (currentStep s) 3.5 = false ->
  isLoading (commit s) = isLoading s
  /\ apiResults (commit s) = apiResults s
  /\ apiError (commit s) = apiError s
  /\ scoreData (commit s) = scoreData s.
Proof.
  intros H4 H35.
  assert (Hw : generationWanted s = false).
  { unfold generationWanted. rewrite H4. reflexivity. }
  destruct (commit_not_wanted s Hw) as (_ & Hr & He).
  destruct (commit_no_question s (or_introl H35)) as (Hl & _).
  assert (H4' : Qeq_bool (currentStep (render s)) 4 = false)
    by (rewrite render_currentStep; exact H4).
  rewrite (plainEffects_outside_result _ H4') in Hl.
  destruct (render_no_question s (or_introl H35)) as (Hl1 & _).
  rewrite (plainEffects_outside_result _ H4) in Hl1.
  destruct (render_generation_fields (render s)) as (_ & _ & Hs2 & _).
  rewrite (plainEffects_outside_result _ H4') in Hs2.
  destruct (render_generation_fields s) as (_ & _ & Hs1 & _).
  rewrite (plainEffects_outside_result _ H4) in Hs1.
  unfold commit in *. rewrite Hl, Hl1, Hr, He, Hs2, Hs1. repeat split.
Qed.

End Quiet.

(* ================================================================== *)
(** ** Closing the panel *)
(* ================================================================== *)

Section Closing.

Import Wizard Scenario.
Local Open Scope Q_scope.

(** X10: the two ways of closing the panel.  Closed without a question
    (nothing restored, first step), every form is back at its initial
    value and result, score, error, loading and the skip flag are cleared.
    Closed through the "Unsaved Work" confirmation, the step, the style,
    the keyword, the chat and the result are cleared, but script length,
    language, tone, the call-to-action choice, the score, the error, the
    loading flag and the skip flag stay as they were. *)
Theorem close_resets_or_keeps (s : state) :
  (hasUnsavedChanges s = false -> Qlt_bool 1 (currentStep s) = false ->
   let r := apply Collapse s in
   isExpanded r = false /\ currentStep r = 1
   /\ selections r = selections initial
   /\ chatMessages r = [] /\ apiResults r = Js.Null
   /\ scoreData r = None /\ apiError r = None /\ isLoading r = false
   /\ skipRefinement r = false)
  /\ (modalTitle s = Some "Unsaved Work" ->
      let r := apply ModalConfirm s in
      isExpanded r = false /\ currentStep r = 1
      /\ (selectedStyle r, customStyleName r, broadTopic r, keyword r)
         = (""%string, ""%string, ""%string, ""%string)
      /\ chatMessages r = [] /\ apiResults r = Js.Null
      /\ hasUnsavedChanges r = false /\ modalTitle r = None
      /\ (scriptLength r, selectedLanguage r, selectedTone r, ctaInclusion r)
         = (scriptLength s, selectedLanguage s, selectedTone s, ctaInclusion s)
      /\ scoreData r = scoreData s /\ apiError r = apiError s
      /\ isLoading r = isLoading s
      /\ skipRefinement r = skipRefinement s).
Proof.
  split.
  - intros Hu Hs. cbv zeta. unfold apply. cbn [handler].
    unfold handleCollapse. rewrite Hu, Hs. cbn [orb].
    destruct (commit_untouched (collapse_now s))
      as (_ & U2 & U3 & U4 & _).
    destruct (commit_quiet (collapse_now s) eq_refl eq_refl)
      as (Q1 & Q2 & Q3 & Q4).
    rewrite commit_currentStep, commit_chatMessages, U2, U3, U4, Q1, Q2, Q3, Q4.
    repeat split.
  - intros Hm. cbv zeta. unfold apply. cbn [handler].
    unfold modalConfirm. rewrite Hm, String.eqb_refl.
    destruct (commit_untouched (collapse_confirmed s))
      as (_ & U2 & U3 & U4 & U5 & U6 & _).
    destruct (commit_quiet (collapse_confirmed s) eq_refl eq_refl)
      as (Q1 & Q2 & Q3 & Q4).
    unfold selections in U3. injection U3 as V1 V2 V3 V4 V5 V6 V7 V8.
    rewrite commit_currentStep, commit_chatMessages, U2, U4, U5, U6,
      Q1, Q2, Q3, Q4, V1, V2, V3, V4, V5, V6, V7, V8.
    repeat split.
Qed.

(** A user in Settings with tone, language and a length of 60 asks to
    close and confirms: the settings are still there. *)
Lemma close_resets_or_keeps_witness :
  (let r :=
     apply ModalConfirm
       (play [Expand; SelectStyle "meme"; Next; TypeKeyword "cats"; Next;
              PickTone "Casual"; PickLanguage "English"; SetScriptLength 60;
              Collapse] (boot 0 NoItem)) in
   (scriptLength r, selectedLanguage r, selectedTone r, ctaInclusion r)
   = (60%Z, "English"%string, "Casual"%string, false))
  /\ selections (apply Collapse (play [Expand] (boot 0 NoItem)))
     = selections initial.
Proof.
  split.
  - assert (Hm : modalTitle
                   (play [Expand; SelectStyle "meme"; Next; TypeKeyword "cats";
                          Next; PickTone "Casual"; PickLanguage "English";
                          SetScriptLength 60; Collapse] (boot 0 NoItem))
                 = Some "Unsaved Work"%string) by (vm_compute; reflexivity).
    pose proof (proj2 (close_resets_or_keeps _) Hm) as H.
    destruct H as (_ & _ & _ & _ & _ & _ & _ & H & _).
    refine (eq_trans H _). vm_compute. reflexivity.
  - assert (Hu : hasUnsavedChanges (play [Expand] (boot 0 NoItem)) = false)
      by (vm_compute; reflexivity).
    assert (Hs : Qlt_bool 1 (currentStep (play [Expand] (boot 0 NoItem)))
                 = false) by (vm_compute; reflexivity).
    pose proof (proj1 (close_resets_or_keeps _) Hu Hs) as H.
    destruct H as (_ & _ & H & _). exact H.
Defined.

End Closing.

(* ================================================================== *)
(** ** Saving and restoring *)
(* ================================================================== *)

Section Reload.

Import Wizard Scenario Request.
Local Open Scope Z_scope.

Lemma restore_fresh (now now' : Z) (s s0 : state) :
  isExpanded s0 = false -> now <> 0 -> now' - now < 3600000 ->
  restore now' (Saved (autosave now s)) s0 = repopulate (autosave now s) s0.
Proof.
  intros Hc Hn Hf. unfold restore. rewrite Hc.
  unfold no_timestamp. cbn [autosave snap_timestamp].
  destruct (Z.eqb now 0) eqn:E; [apply Z.eqb_eq in E; contradiction|].
  destruct (Z.ltb (now' - now) 3600000) eqn:L; [reflexivity|].
  apply Z.ltb_ge in L. lia.
Qed.

(** X11: what is saved comes back.  A snapshot written by the auto-save at
    a time other than 0 and read less than an hour later by a collapsed
    component gives back the step, every selection and the chat, and marks
    the work as unsaved; the result, the score, the error, the skip flag
    and the identifier counter are no part of it and stay as the reading
    component has them. *)
Theorem snapshot_round_trip
  (now now' : Z) (s s0 : state)
  (Hclosed : isExpanded s0 = false)
  (Hdated : now <> 0)
  (Hfresh : now' - now < 3600000) :
  let r := restore now' (Saved (autosave now s)) s0 in
  currentStep r = currentStep s
  /\ selections r = selections s
  /\ chatMessages r = chatMessages s
  /\ hasUnsavedChanges r = true
  /\ apiResults r = apiResults s0
  /\ scoreData r = scoreData s0
  /\ apiError r = apiError s0
  /\ skipRefinement r = skipRefinement s0
  /\ messageIdCounter r = messageIdCounter s0.
Proof.
  cbv zeta. rewrite (restore_fresh now now' s s0 Hclosed Hdated Hfresh).
  repeat split.
Qed.

Lemma snapshot_round_trip_witness :
  currentStep
    (restore 2000 (Saved (autosave 1000 (play to_refinement (boot 0 NoItem))))
       (render initial)) = 3.5%Q.
Proof.
  assert (Hc : isExpanded (render initial) = false) by reflexivity.
  assert (Hn : 1000 <> 0) by lia.
  assert (Hf : 2000 - 1000 < 3600000) by lia.
  destruct (snapshot_round_trip 1000 2000
              (play to_refinement (boot 0 NoItem)) (render initial) Hc Hn Hf)
    as (H & _).
  refine (eq_trans H _). vm_compute. reflexivity.
Defined.

(** X12: a session saved in the Result step and reloaded within the hour
    asks for the script again at once: the result is no part of the
    snapshot.  The skip flag is not saved either, so the new request
    carries the joined answers as context even when the user had skipped
    the refinement. *)
Theorem reload_in_result_generates_again
  (now now' : Z) (s : state)
  (Hstep : Qeq_bool (currentStep s) 4 = true)
  (Hdated : now <> 0)
  (Hfresh : now' - now < 3600000) :
  let r := boot now' (Saved (autosave now s)) in
  generationCalls (pending r) = 1%nat
  /\ isLoading r = true
  /\ apiResults r = Js.Null
  /\ currentStep r = currentStep s
  /\ refinementContext r = Some (answers s).
Proof.
  cbv zeta. unfold boot.
  assert (Hc : isExpanded (render initial) = false) by reflexivity.
  rewrite (restore_fresh now now' s (render initial) Hc Hdated Hfresh).
  set (x := repopulate (autosave now s) (render initial)).
  assert (Hw : generationWanted x = true).
  { unfold generationWanted.
    change (currentStep x) with (currentStep s). rewrite Hstep. reflexivity. }
  destruct (commit_wanted x Hw) as (Hl & _ & Hr & _ & Hcalls & _).
  destruct (commit_untouched x) as (_ & Hskip & _).
  split; [exact Hcalls|]. split; [exact Hl|]. split; [exact Hr|].
  split; [rewrite commit_currentStep; reflexivity|].
  unfold refinementContext, answers.
  rewrite Hskip, commit_chatMessages. reflexivity.
Qed.

Lemma reload_in_result_generates_again_witness :
  isLoading
    (boot 2000
       (Saved (autosave 1000
                 (play (to_refinement ++ skip) (boot 0 NoItem))))) = true.
Proof.
  assert (Hs : Qeq_bool
                 (currentStep (play (to_refinement ++ skip) (boot 0 NoItem))) 4
               = true) by (vm_compute; reflexivity).
  assert (Hn : 1000 <> 0) by lia.
  assert (Hf : 2000 - 1000 < 3600000) by lia.
  exact (proj1 (proj2 (reload_in_result_generates_again 1000 2000
                         (play (to_refinement ++ skip) (boot 0 NoItem))
                         Hs Hn Hf))).
Defined.

End Reload.

(* ================================================================== *)
(** ** When a generation has settled *)
(* ================================================================== *)

Section Settled.

Import Wizard Scenario Outcome.
Local Open Scope Q_scope.

Lemma settled_fields
  (onLine : bool) (c : Net.completion) (d : decoded) (s : state) :
  let r := fetchFinalScript_settled onLine c d s in
  currentStep r = currentStep s /\ isLoading r = false
  /\ scriptLength r = scriptLength s /\ ctaInclusion r = ctaInclusion s
  /\ generationCalls (pending r) = generationCalls (pending s)
  /\ apiResults r
     = match Net.generation_error c with
       | Some _ => apiResults s
       | None => match d with
                 | Decoded v => normalizeResult v
                 | DecodeThrows _ => apiResults s
                 end
       end.
Proof.
  cbv zeta. unfold fetchFinalScript_settled.
  destruct (Net.generation_error c); [repeat split|].
  destruct d; repeat split.
Qed.

(** X13: a generation that leaves no script behind is requested again at
    once.  In the Result step, when the request or the decoding fails, or
    the answer normalises to a falsy value such as the empty string, the
    generation effect finds "no result and nothing loading" and calls
    [fetchFinalScript] again, which clears the error that was just
    stored: the state after the event is loading again, without
    error. *)
Theorem failed_generation_is_requested_again
  (onLine : bool) (c : Net.completion) (d : decoded) (s : state)
  (Hstep : Qeq_bool (currentStep s) 4 = true)
  (Hnone : Js.truthy (apiResults s) = false)
  (Hfail : no_script c d = true) :
  let r := apply (GenerationSettled onLine c d) s in
  generationCalls (pending r) = S (generationCalls (pending s))
  /\ isLoading r = true
  /\ apiError r = None
  /\ apiResults r = Js.Null.
Proof.
  cbv zeta. unfold apply. cbn [handler].
  destruct (settled_fields onLine c d s) as (Fs & Fl & _ & _ & Fc & Fr).
  cbv zeta in Fs, Fl, Fc, Fr.
  set (x := fetchFinalScript_settled onLine c d s) in *.
  assert (Hx : Js.truthy (apiResults x) = false).
  { rewrite Fr. unfold no_script in Hfail.
    destruct (Net.generation_error c); [exact Hnone|].
    destruct d; [apply negb_true_iff; exact Hfail|exact Hnone]. }
  assert (Hw : generationWanted x = true).
  { unfold generationWanted. rewrite Fs, Hstep, Hx, Fl. reflexivity. }
  destruct (commit_wanted x Hw) as (Hl & He & Hr & _ & Hc & _).
  rewrite Hc, Fc. repeat split; assumption.
Qed.

(** A session is restored in the Result step and the service answers 500
    to its generation. *)
Lemma failed_generation_is_requested_again_witness :
  possible (GenerationSettled true (Net.Returns unavailable) (Decoded Js.Null))
    (boot 1000 (Saved (saved_in_result (Some 500%Z)))) = true
  /\ isLoading
       (apply (GenerationSettled true (Net.Returns unavailable)
                 (Decoded Js.Null))
          (boot 1000 (Saved (saved_in_result (Some 500%Z))))) = true
  /\ apiError
       (apply (GenerationSettled true (Net.Returns unavailable)
                 (Decoded Js.Null))
          (boot 1000 (Saved (saved_in_result (Some 500%Z))))) = None.
Proof.
  assert (Hs : Qeq_bool
                 (currentStep (boot 1000 (Saved (saved_in_result (Some 500%Z)))))
                 4 = true) by (vm_compute; reflexivity).
  assert (Hn : Js.truthy
                 (apiResults (boot 1000 (Saved (saved_in_result (Some 500%Z)))))
               = false) by (vm_compute; reflexivity).
  assert (Hf : no_script (Net.Returns unavailable) (Decoded Js.Null) = true)
    by (vm_compute; reflexivity).
  destruct (failed_generation_is_requested_again true
              (Net.Returns unavailable) (Decoded Js.Null)
              (boot 1000 (Saved (saved_in_result (Some 500%Z)))) Hs Hn Hf)
    as (_ & Hl & He & _).
  split; [vm_compute; reflexivity|]. split; [exact Hl|exact He].
Defined.

(** In the Result step, with a result that the score function accepts and
    nothing loading, the renders store the score and leave the rest. *)
Lemma result_is_scored (x : state) (sc : Score.scores) :
  Qeq_bool (currentStep x) 4 = true ->
  isLoading x = false ->
  Score.calculateScores (apiResults x) (scriptLength x) (ctaInclusion x)
  = Score.Scored sc ->
  apiResults (commit x) = apiResults x
  /\ isLoading (commit x) = false
  /\ scoreData (commit x) = Some sc
  /\ apiError (commit x) = apiError x
  /\ generationCalls (pending (commit x)) = generationCalls (pending x).
Proof.
  intros Hstep Hload Hscored.
  assert (Ht : Js.truthy (apiResults x) = true).
  { unfold Score.calculateScores in Hscored.
    destruct (Js.truthy (apiResults x)); [reflexivity|discriminate]. }
  assert (H35 : Qeq_bool (currentStep x) 3.5 = false).
  { destruct (Qeq_bool (currentStep x) 3.5) eqn:E; [|reflexivity].
    destruct (step_not_both _ Hstep E). }
  assert (Hw : generationWanted x = false).
  { unfold generationWanted. rewrite Ht, andb_false_r. reflexivity. }
  destruct (commit_not_wanted x Hw) as (Hc & Hr & He).
  destruct (render_not_wanted x Hw) as (Hw1 & _ & Hr1 & _).
  destruct (commit_no_question x (or_introl H35)) as (Hl & _).
  destruct (render_no_question x (or_introl H35)) as (Hl1 & _).
  destruct (render_untouched x) as (_ & _ & Hsel & _).
  unfold selections in Hsel. injection Hsel as _ _ _ _ Hlen1 _ _ Hcta1.
  assert (Hplain : forall y,
             generationWanted y = false ->
             Qeq_bool (currentStep y) 4 = true ->
             apiResults y = apiResults x ->
             scriptLength y = scriptLength x ->
             ctaInclusion y = ctaInclusion x ->
             isLoading (plainEffects y) = isLoading y
             /\ scoreData (plainEffects y) = Some sc).
  { intros y Hwy Hsy Hry Hly Hcy.
    unfold plainEffects, generationEffect.
    rewrite scoreEffect_generationWanted, Hwy.
    unfold scoreEffect. rewrite Hry, Ht, Hsy, Hly, Hcy, Hscored.
    split; reflexivity. }
  destruct (Hplain x Hw Hstep eq_refl eq_refl eq_refl) as (Px & _).
  destruct (Hplain (render x) Hw1
              ltac:(rewrite render_currentStep; exact Hstep)
              Hr1 Hlen1 Hcta1)
    as (Pr & Ps).
  destruct (render_generation_fields (render x)) as (_ & _ & Hs2 & _).
  split; [exact Hr|].
  split; [rewrite Hl, Pr, Hl1, Px; exact Hload|].
  split; [unfold commit; rewrite Hs2; exact Ps|].
  split; [exact He|exact Hc].
Qed.

(** X14: a generation that delivers a script ends the loading.  In the
    Result step, when the request succeeds and what was read normalises
    to a value the score function accepts, the normalised value is stored
    as the result, loading has ended, the score of that value for the
    session's length and call-to-action choice is stored, no error is
    added and no further request is made.  This is the state when the
    call has settled.  For an answer that was an event stream, a timer
    that is still set when the stream ends fires afterwards: it replaces
    the normalised result by the text as it was read, and the score by
    the score of that text. *)
Theorem delivered_script_is_stored_and_scored
  (onLine : bool) (c : Net.completion) (v : Js.value) (sc : Score.scores)
  (s : state)
  (Hstep : Qeq_bool (currentStep s) 4 = true)
  (Hok : Net.generation_error c = None)
  (Hscored : Score.calculateScores (normalizeResult v) (scriptLength s)
               (ctaInclusion s) = Score.Scored sc) :
  let r := apply (GenerationSettled onLine c (Decoded v)) s in
  (apiResults r = normalizeResult v
   /\ isLoading r = false
   /\ scoreData r = Some sc
   /\ apiError r = apiError s
   /\ generationCalls (pending r) = generationCalls (pending s))
  /\ (forall acc,
        acc <> ""%string ->
        let late := apply (StreamPublished acc) r in
        apiResults late = Js.Str acc
        /\ scoreData late
           = Some (Score.score_text acc (scriptLength s) (ctaInclusion s))
        /\ isLoading late = false
        /\ generationCalls (pending late) = generationCalls (pending s)).
Proof.
  cbv zeta.
  destruct (settled_fields onLine c (Decoded v) s)
    as (Fs & Fl & Flen & Fcta & Fc & Fr).
  cbv zeta in Fs, Fl, Flen, Fcta, Fc, Fr. rewrite Hok in Fr.
  assert (Ferr : apiError (fetchFinalScript_settled onLine c (Decoded v) s)
                 = apiError s).
  { unfold fetchFinalScript_settled. rewrite Hok. reflexivity. }
  assert (Hfirst :
            apiResults (apply (GenerationSettled onLine c (Decoded v)) s)
            = normalizeResult v
            /\ isLoading (apply (GenerationSettled onLine c (Decoded v)) s)
               = false
            /\ scoreData (apply (GenerationSettled onLine c (Decoded v)) s)
               = Some sc
            /\ apiError (apply (GenerationSettled onLine c (Decoded v)) s)
               = apiError s
            /\ generationCalls
                 (pending (apply (GenerationSettled onLine c (Decoded v)) s))
               = generationCalls (pending s)).
  { unfold apply. cbn [handler].
    set (x := fetchFinalScript_settled onLine c (Decoded v) s) in *.
    destruct (result_is_scored x sc) as (R1 & R2 & R3 & R4 & R5).
    - rewrite Fs. exact Hstep.
    - exact Fl.
    - rewrite Fr, Flen, Fcta. exact Hscored.
    - rewrite R1, R4, R5, Fr, Ferr, Fc. repeat split; assumption. }
  split; [exact Hfirst|].
  destruct Hfirst as (_ & Hl & _ & _ & Hc).
  intros acc Hacc.
  set (r := apply (GenerationSettled onLine c (Decoded v)) s) in *.
  assert (Hrs : currentStep r = currentStep s
                /\ scriptLength r = scriptLength s
                /\ ctaInclusion r = ctaInclusion s).
  { unfold r, apply. cbn [handler].
    destruct (commit_untouched (fetchFinalScript_settled onLine c (Decoded v) s))
      as (_ & _ & Hsel & _).
    unfold selections in Hsel. injection Hsel as _ _ _ _ Hlen _ _ Hcta.
    rewrite commit_currentStep, Hlen, Hcta, Fs.
    repeat split; assumption || reflexivity. }
  destruct Hrs as (Rs & Rlen & Rcta).
  unfold apply. cbn [handler].
  assert (Hne : String.eqb acc "" = false)
    by (apply String.eqb_neq; exact Hacc).
  destruct (result_is_scored (streamPublished acc r)
              (Score.score_text acc (scriptLength s) (ctaInclusion s)))
    as (R1 & R2 & R3 & _ & R5).
  - change (currentStep (streamPublished acc r)) with (currentStep r).
    rewrite Rs. exact Hstep.
  - exact Hl.
  - change (apiResults (streamPublished acc r)) with (Js.Str acc).
    change (scriptLength (streamPublished acc r)) with (scriptLength r).
    change (ctaInclusion (streamPublished acc r)) with (ctaInclusion r).
    rewrite Rlen, Rcta.
    unfold Score.calculateScores, Score.scriptText. cbn. rewrite Hne.
    reflexivity.
  - rewrite R1, R2, R3, R5.
    change (generationCalls (pending (streamPublished acc r)))
      with (generationCalls (pending r)).
    rewrite Hc. repeat split.
Qed.

(** A session is restored in the Result step; its answer is an event
    stream whose last chunk sets a timer; the call settles with the
    script, and the timer fires with the text as it was read. *)
Lemma delivered_script_is_stored_and_scored_witness :
  let s := apply (StreamChunk streamed_answer)
             (boot 1000 (Saved (saved_in_result (Some 500%Z)))) in
  let settled :=
    GenerationSettled true (Net.Returns streamed_answer)
      (Decoded (Js.Str (Text.trim streamed_text)))
  in
  possible (StreamChunk streamed_answer)
    (boot 1000 (Saved (saved_in_result (Some 500%Z)))) = true
  /\ possible settled s = true
  /\ apiResults (apply settled s) = Js.Str "Cats are great. Subscribe?"
  /\ isLoading (apply settled s) = false
  /\ possible (StreamPublished streamed_text) (apply settled s) = true
  /\ apiResults (apply (StreamPublished streamed_text) (apply settled s))
     = Js.Str streamed_text.
Proof.
  cbv zeta.
  assert (Hs : Qeq_bool
                 (currentStep
                    (apply (StreamChunk streamed_answer)
                       (boot 1000 (Saved (saved_in_result (Some 500%Z))))))
                 4 = true) by (vm_compute; reflexivity).
  assert (Hok : Net.generation_error (Net.Returns streamed_answer) = None)
    by (vm_compute; reflexivity).
  assert (Hsc : Score.calculateScores
                  (normalizeResult
                     (Js.Str (Text.trim streamed_text)))
                  (scriptLength
                     (apply (StreamChunk streamed_answer)
                        (boot 1000 (Saved (saved_in_result (Some 500%Z))))))
                  (ctaInclusion
                     (apply (StreamChunk streamed_answer)
                        (boot 1000 (Saved (saved_in_result (Some 500%Z))))))
                = Score.Scored
                    (Score.score_text "Cats are great. Subscribe?" 45 false))
    by (vm_compute; reflexivity).
  assert (Hacc : streamed_text <> ""%string) by discriminate.
  destruct (delivered_script_is_stored_and_scored true
              (Net.Returns streamed_answer)
              (Js.Str (Text.trim streamed_text))
              (Score.score_text "Cats are great. Subscribe?" 45 false)
              (apply (StreamChunk streamed_answer)
                 (boot 1000 (Saved (saved_in_result (Some 500%Z)))))
              Hs Hok Hsc)
    as ((Hr & Hl & _) & Hlate).
  destruct (Hlate streamed_text Hacc) as (Hpub & _).
  split; [vm_compute; reflexivity|].
  split; [vm_compute; reflexivity|].
  split; [exact Hr|]. split; [exact Hl|].
  split; [vm_compute; reflexivity|exact Hpub].
Defined.

(** X4: which answers of the service leave an error behind.  When the
    fetch of a generation has returned an answer, the error cell, which
    the call emptied when it began, stays empty exactly when the status is
    200..299 and the body could be read.  An answer with another status
    stores the error made from its status line; a body that could not be
    read stores the error that the reading threw; and for a status
    500..599 seen on line the stored error is of the server class and
    retryable. *)
Theorem answer_errors_by_status
  (onLine : bool) (r : Net.Response) (d : decoded) (s : state)
  (Hclear : apiError s = None) :
  let after := fetchFinalScript_settled onLine (Net.Returns r) d s in
  (apiError after = None
   <-> (200 <= Net.status r <= 299)%Z /\ exists v, d = Decoded v)
  /\ (~ (200 <= Net.status r <= 299)%Z ->
      apiError after
      = Some (Net.createApiError onLine (Some (Net.http_error r))))
  /\ ((200 <= Net.status r <= 299)%Z ->
      forall e, d = DecodeThrows e ->
      apiError after = Some (Net.createApiError onLine (Some e)))
  /\ (onLine = true -> (500 <= Net.status r <= 599)%Z ->
      apiError after
      = Some {| Net.type := Net.server;
                Net.text := "The server is temporarily unavailable. Please try again shortly.";
                Net.retryable := true |}).
Proof.
  cbv zeta. unfold fetchFinalScript_settled. cbn [Net.generation_error].
  assert (Hokiff : Net.ok r = true <-> (200 <= Net.status r <= 299)%Z).
  { unfold Net.ok. rewrite andb_true_iff, !Z.leb_le. reflexivity. }
  destruct (Net.ok r) eqn:Hok.
  - assert (Hin : (200 <= Net.status r <= 299)%Z)
      by (apply Hokiff; reflexivity).
    split; [|split; [|split]].
    + destruct d as [v|e]; cbn [apiError set_apiError set_isLoading
                                 set_pending set_apiResults].
      * split; [intros _; split; [exact Hin|exists v; reflexivity]
               |intros _; exact Hclear].
      * split; [discriminate|].
        intros (_ & v & Hv). discriminate Hv.
    + intros Hout. contradiction.
    + intros _ e ->. reflexivity.
    + intros _ H5. lia.
  - assert (Hout : ~ (200 <= Net.status r <= 299)%Z).
    { intros H. apply Hokiff in H. discriminate H. }
    split; [|split; [|split]].
    + split; [discriminate|]. intros (Hin & _). contradiction.
    + intros _. reflexivity.
    + intros Hin. contradiction.
    + intros -> H5.
      cbn [apiError set_apiError set_isLoading set_pending].
      rewrite (http_error_5xx_is_server r H5). reflexivity.
Qed.

(** A session is restored in the Result step and the service answers
    500 to its generation. *)
Lemma answer_errors_by_status_witness :
  apiError
    (fetchFinalScript_settled true (Net.Returns unavailable) (Decoded Js.Null)
       (boot 1000 (Saved (saved_in_result (Some 500%Z)))))
  = Some {| Net.type := Net.server;
            Net.text := "The server is temporarily unavailable. Please try again shortly.";
            Net.retryable := true |}.
Proof.
  assert (Hc : apiError (boot 1000 (Saved (saved_in_result (Some 500%Z))))
               = None) by (vm_compute; reflexivity).
  assert (H5 : (500 <= Net.status unavailable <= 599)%Z)
    by (vm_compute; split; discriminate).
  exact (proj2 (proj2 (proj2
           (answer_errors_by_status true unavailable (Decoded Js.Null)
              (boot 1000 (Saved (saved_in_result (Some 500%Z)))) Hc)))
           eq_refl H5).
Defined.

End Settled.

(* ================================================================== *)
(** ** Flags and entries *)
(* ================================================================== *)

Section Flags.

Import Wizard Scenario Outcome.
Local Open Scope Q_scope.

Ltac open_handler :=
  unfold handleNext, handleBack, errorGoBack, handleBack,
    handleSkipRefinement, confirmSkip, handleChatResponse, chatReplyTyped,
    chatTransition, questionResolved, questionTyped, retryGeneration,
    regenerate, fetchFinalScript, fetchFinalScript_settled, handleCollapse,
    collapse_now, modalConfirm, collapse_confirmed, modalCancel,
    generateMessageId, set_fetches.

Ltac cases :=
  repeat match goal with
         | |- context [if ?c then _ else _] => destruct c eqn:?
         | |- context [match ?c with Some _ => _ | None => _ end] =>
             destruct c eqn:?
         | |- context [match ?c with Net.Returns _ => _ | _ => _ end] =>
             destruct c eqn:?
         | |- context [match ?c with Decoded _ => _ | _ => _ end] =>
             destruct c eqn:?
         | |- context [let '(_, _) := ?c in _] => destruct c eqn:?
         end.

(** The skip flag after a handler. *)
Lemma handler_skipRefinement (e : event) (s : state) :
  skipRefinement (handler e s)
  = match e with
    | SkipConfirm => true
    | Back | ErrorGoBack =>
        if Qeq_bool (currentStep s) 3.5 then false else skipRefinement s
    | Collapse =>
        if (hasUnsavedChanges s || Qlt_bool 1 (currentStep s))%bool
        then skipRefinement s else false
    | _ => skipRefinement s
    end.
Proof.
  destruct e; cbn [handler]; open_handler;
    cbn [currentStep set_apiError]; cases; reflexivity.
Qed.

(** X15: the skip flag is set by the confirmed skip and by nothing else,
    and once set it is cleared only by leaving the Refinement step
    backwards (Back, or "Go back" of the error panel) or by closing the
    panel without confirmation; every other event, among them the
    confirmed close and a new pass through the forms, leaves it set, and
    the generation request then carries no refinement context. *)
Theorem skip_flag_is_sticky (e : event) (s : state) :
  (skipRefinement s = false -> skipRefinement (apply e s) = true ->
   e = SkipConfirm)
  /\ (skipRefinement s = true -> skipRefinement (apply e s) = false ->
      e = Back \/ e = ErrorGoBack \/ e = Collapse)
  /\ (skipRefinement (apply e s) = true ->
      Request.refinementContext (apply e s) = None).
Proof.
  unfold apply.
  destruct (commit_untouched (handler e s)) as (_ & U & _).
  unfold Request.refinementContext. rewrite U, handler_skipRefinement.
  split; [|split].
  - intros H0 H1. destruct e; try congruence.
    + destruct (Qeq_bool (currentStep s) 3.5); congruence.
    + destruct (Qeq_bool (currentStep s) 3.5); congruence.
    + destruct (_ || _)%bool; congruence.
  - intros H1 H0. destruct e; try congruence; auto.
  - intros ->. reflexivity.
Qed.

(** The user skips the refinement, closes the panel with confirmation,
    opens it again and walks through the forms to the refinement: the
    flag is still set. *)
Lemma skip_flag_is_sticky_witness :
  SkipConfirm = SkipConfirm
  /\ Request.refinementContext
       (apply Next
          (play (to_refinement ++ skip
                 ++ [Collapse; ModalConfirm; Expand; SelectStyle "meme"; Next;
                     TypeKeyword "dogs"; Next])%list
             (boot 0 NoItem))) = None.
Proof.
  split.
  - assert (H0 : skipRefinement (play (to_refinement ++ [SkipRequest])%list
                                   (boot 0 NoItem)) = false)
      by (vm_compute; reflexivity).
    assert (H1 : skipRefinement
                   (apply SkipConfirm
                      (play (to_refinement ++ [SkipRequest])%list
                         (boot 0 NoItem))) = true)
      by (vm_compute; reflexivity).
    exact (proj1 (skip_flag_is_sticky SkipConfirm
                    (play (to_refinement ++ [SkipRequest])%list
                       (boot 0 NoItem))) H0 H1).
  - assert (H1 : skipRefinement
                   (apply Next
                      (play (to_refinement ++ skip
                             ++ [Collapse; ModalConfirm; Expand;
                                 SelectStyle "meme"; Next;
                                 TypeKeyword "dogs"; Next])%list
                         (boot 0 NoItem))) = true)
      by (vm_compute; reflexivity).
    exact (proj2 (proj2 (skip_flag_is_sticky Next
                           (play (to_refinement ++ skip
                                  ++ [Collapse; ModalConfirm; Expand;
                                      SelectStyle "meme"; Next;
                                      TypeKeyword "dogs"; Next])%list
                              (boot 0 NoItem)))) H1).
Defined.

(** The step after a handler that is no navigation. *)
Lemma handler_step_kept (e : event) (s : state) :
  currentStep (handler e s) = currentStep s
  \/ currentStep (handler e s) = 1
  \/ e = Next \/ e = Back \/ e = ErrorGoBack \/ enters_result e.
Proof.
  unfold enters_result.
  destruct e; cbn [handler]; auto 10; open_handler; cases; auto.
Qed.

(** X16: the Result step is entered by the confirmed skip and by the
    completion of the chat, and by no other event: from a state whose step
    is one of the five and is not Result, an event that ends in Result is
    one of those two. *)
Theorem result_is_entered_by_skip_or_completion
  (e : event) (s : state)
  (Hvalid : valid_step (currentStep s))
  (Hout : Qeq_bool (currentStep s) 4 = false)
  (Hin : Qeq_bool (currentStep (apply e s)) 4 = true) :
  enters_result e.
Proof.
  unfold apply in Hin. rewrite commit_currentStep in Hin.
  pose proof (valid_step_named _ Hvalid) as Hn.
  assert (Hnot : name_of (currentStep s) <> Result).
  { intros E. rewrite E in Hn. rewrite Hn in Hout. discriminate. }
  destruct (handler_step_kept e s) as [H|[H|[->|[->|[->|H]]]]].
  - rewrite H in Hin. congruence.
  - rewrite H in Hin. discriminate.
  - cbn [handler] in Hin. rewrite (handleNext_step s _ Hn) in Hin.
    destruct (name_of (currentStep s)); try discriminate. contradiction.
  - cbn [handler] in Hin. rewrite (handleBack_step s _ Hn) in Hin.
    destruct (name_of (currentStep s)); discriminate.
  - cbn [handler] in Hin. unfold errorGoBack in Hin.
    rewrite (handleBack_step (set_apiError None s) _ Hn) in Hin.
    destruct (name_of (currentStep s)); discriminate.
  - exact H.
Qed.

Lemma result_is_entered_by_skip_or_completion_witness :
  enters_result ChatTransition.
Proof.
  assert (Hv : valid_step
                 (currentStep
                    (play (to_refinement
                           ++ [answer 0; ChatReplyTyped no_question 2000])%list
                       (boot 0 NoItem))))
    by (right; right; right; left; vm_compute; reflexivity).
  assert (Ho : Qeq_bool
                 (currentStep
                    (play (to_refinement
                           ++ [answer 0; ChatReplyTyped no_question 2000])%list
                       (boot 0 NoItem))) 4 = false)
    by (vm_compute; reflexivity).
  assert (Hi : Qeq_bool
                 (currentStep
                    (apply ChatTransition
                       (play (to_refinement
                              ++ [answer 0; ChatReplyTyped no_question 2000])%list
                          (boot 0 NoItem)))) 4 = true)
    by (vm_compute; reflexivity).
  exact (result_is_entered_by_skip_or_completion ChatTransition
           (play (to_refinement
                  ++ [answer 0; ChatReplyTyped no_question 2000])%list
              (boot 0 NoItem)) Hv Ho Hi).
Defined.

Lemma remove_nth_shorter {A : Type} (k : nat) (l : list A) :
  (List.length (remove_nth k l) <= List.length l)%nat.
Proof.
  revert k. induction l as [|x r IH]; intros k; destruct k; cbn; try lia.
  specialize (IH k). lia.
Qed.

Lemma replace_nth_same_length {A : Type} (k : nat) (y : A) (l : list A) :
  List.length (replace_nth k y l) = List.length l.
Proof.
  revert k. induction l as [|x r IH]; intros k; destruct k; cbn;
    try reflexivity.
  rewrite IH. reflexivity.
Qed.

Lemma handler_attempt (e : event) (s : state) :
  moves_around_refinement e = false ->
  hasAttemptedQuestionFetch (handler e s) = hasAttemptedQuestionFetch s
  /\ (List.length (questionFetches (pending (handler e s)))
      <= List.length (questionFetches (pending s)))%nat.
Proof.
  intros He.
  destruct e; try discriminate He; cbn [handler]; open_handler; cases;
    (split; [reflexivity|]);
    first [ apply Nat.le_refl
          | apply remove_nth_shorter
          | apply Nat.eq_le_incl, replace_nth_same_length ].
Qed.

(** X17: the first question is asked for once per entry into the
    Refinement step.  Once the attempt is recorded, no event other than
    Next, Back and "Go back" clears the record, and none of them makes a
    further question call, whatever happens to the chat and to the
    loading flag. *)
Theorem question_call_once_per_entry
  (e : event) (s : state)
  (Hatt : hasAttemptedQuestionFetch s = true)
  (Hstay : moves_around_refinement e = false) :
  hasAttemptedQuestionFetch (apply e s) = true
  /\ (List.length (questionFetches (pending (apply e s)))
      <= List.length (questionFetches (pending s)))%nat.
Proof.
  destruct (handler_attempt e s Hstay) as (Ha & Hf).
  unfold apply.
  destruct (commit_no_question (handler e s)) as (_ & Ca & Cf).
  { right. rewrite Ha. exact Hatt. }
  rewrite Ca, Cf, Ha. split; [exact Hatt|exact Hf].
Qed.

(** The question call of the entry has failed and its reply is thrown
    away; the history is still empty, and no second call is made. *)
Lemma question_call_once_per_entry_witness :
  chatMessages (play question_call_fails (boot 0 NoItem)) = []
  /\ List.length
       (questionFetches
          (pending (apply SkipRequest (play question_call_fails (boot 0 NoItem)))))
     = 0%nat.
Proof.
  assert (Ha : hasAttemptedQuestionFetch
                 (play question_call_fails (boot 0 NoItem)) = true)
    by (vm_compute; reflexivity).
  destruct (question_call_once_per_entry SkipRequest
              (play question_call_fails (boot 0 NoItem)) Ha eq_refl)
    as (_ & Hf).
  split; [vm_compute; reflexivity|].
  assert (H0 : List.length
                 (questionFetches
                    (pending (play question_call_fails (boot 0 NoItem))))
               = 0%nat) by (vm_compute; reflexivity).
  rewrite H0 in Hf. apply Nat.le_0_r. exact Hf.
Defined.

End Flags.

(* ================================================================== *)
(** ** What a normalised answer can be *)
(* ================================================================== *)

Section Normalised.

(** X18: [normalizeResult] never returns [null] or [undefined]: what it
    returns is a string or an object (an array included), whatever it is
    given. *)
Theorem normalizeResult_string_or_object (input : Js.value) :
  Js.loose_null (normalizeResult input) = false
  /\ (Js.is_string (normalizeResult input) = true
      \/ Js.is_object (normalizeResult input) = true).
Proof.
  destruct input as [| |b|t|t|items|fs];
    try (split; [reflexivity|cbn; auto]).
  unfold normalizeResult.
  cbn [Js.loose_null Js.is_string Js.is_object Js.typeof]. cbv iota.
  cbn [Js.get].
  destruct (Js.lookup "result" fs) as [[| |b|t|t|items|gs]|];
    try destruct b; cbn; rewrite ?andb_false_r; cbn;
    (split; [reflexivity|auto]).
Qed.

(** X19: the answers that normalise to a falsy value, which the Result
    step treats as "no result", are exactly [null], [undefined], the empty
    string, and an object whose [result] is the empty string. *)
Theorem normalizeResult_falsy_iff
  (input : Js.value)
  (Hnum : forall t, input = Js.Num t -> t <> ""%string) :
  Js.truthy (normalizeResult input) = false
  <-> (input = Js.Null \/ input = Js.Undefined \/ input = Js.Str ""
       \/ exists fs, input = Js.Obj fs
                     /\ Js.lookup "result" fs = Some (Js.Str "")).
Proof.
  split.
  - destruct input as [| |b|t|t|items|fs]; intros H; auto.
    + destruct b; discriminate H.
    + exfalso. apply (Hnum t eq_refl).
      cbn in H. apply negb_false_iff, String.eqb_eq in H. exact H.
    + cbn in H. apply negb_false_iff, String.eqb_eq in H. subst t. auto.
    + discriminate H.
    + right. right. right. exists fs. split; [reflexivity|].
      unfold normalizeResult in H.
      cbn [Js.loose_null Js.is_string Js.is_object Js.typeof Js.get] in H.
      cbv iota in H.
      destruct (Js.lookup "result" fs) as [[| |b|t|t|items|gs]|];
        try destruct b; cbn in H; rewrite ?andb_false_r in H;
        try discriminate H. apply negb_false_iff, String.eqb_eq in H. subst t.
      reflexivity.
  - intros [->|[->|[->|(fs & -> & Hl)]]]; try reflexivity.
    unfold normalizeResult.
    cbn [Js.loose_null Js.is_string Js.is_object Js.typeof Js.get].
    cbv iota. rewrite Hl. reflexivity.
Qed.

Lemma normalizeResult_falsy_iff_witness :
  Js.truthy (normalizeResult (Js.Obj [("result"%string, Js.Str "")])) = false
  /\ Js.truthy (normalizeResult (Js.Bool false)) <> false.
Proof.
  split.
  - apply (normalizeResult_falsy_iff (Js.Obj [("result"%string, Js.Str "")])).
    + intros t H. discriminate H.
    + right. right. right. eexists. split; reflexivity.
  - intros H.
    apply (normalizeResult_falsy_iff (Js.Bool false)) in H.
    + destruct H as [H|[H|[H|(fs & H & _)]]]; discriminate H.
    + intros t E. discriminate E.
Defined.

End Normalised.

(* ================================================================== *)
(** ** Questions, the style sent, and the Result step *)
(* ================================================================== *)

Section Requests.

Import Wizard Scenario Measure Trace.
Local Open Scope Q_scope.

(** X20: [fetchNextQuestion] hands back what the service said only from
    an answer with a 2xx status whose body decodes, reached within three
    attempts that were each preceded by answers of 500 and above or by
    errors other than an abort; in every other case it hands back the
    reply without a question, and it never throws. *)
Theorem fetchNextQuestion_replies_from_2xx_only
  (net : Net.network) (decode : string -> option question_reply) :
  fetchNextQuestion net decode = no_question
  \/ exists k r,
       (k <= 2)%nat
       /\ net k = Net.Resolves r
       /\ Net.ok r = true
       /\ decode (Net.body r) = Some (fetchNextQuestion net decode)
       /\ (forall j, (j < k)%nat -> final (net j) = false).
Proof.
  destruct (fetchWithRetry_shape 2 net) as (k & Hk & Heq & _ & Hbefore).
  unfold fetchNextQuestion. rewrite Heq. cbn [snd].
  destruct (net k) as [r|e] eqn:Hn; cbn [handed_back]; [|left; reflexivity].
  destruct (Net.ok r) eqn:Hok; [|left; reflexivity].
  destruct (decode (Net.body r)) as [data|] eqn:Hd; [|left; reflexivity].
  right. exists k, r. repeat split; try assumption.
Qed.

(** X21: a user who may leave the Style step sends a style that is not
    empty: the chosen style, or for "other" the custom name, which is then
    more than white space. *)
Theorem style_sent_is_not_empty
  (s : state)
  (Hstep : Qeq_bool (currentStep s) 1 = true)
  (Hgo : canProceed s = true) :
  Request.style s <> ""%string
  /\ (selectedStyle s = "other"%string -> blank (Request.style s) = false).
Proof.
  unfold canProceed in Hgo. rewrite Hstep in Hgo.
  apply andb_true_iff in Hgo as [Hsel Hother].
  unfold nonempty in Hsel. apply negb_true_iff, String.eqb_neq in Hsel.
  unfold Request.style.
  destruct (String.eqb (selectedStyle s) "other") eqn:E.
  - cbn [negb orb] in Hother. rewrite nonempty_trim in Hother.
    apply negb_true_iff in Hother. split.
    + intros H. rewrite H in Hother. discriminate Hother.
    + intros _. exact Hother.
  - split; [exact Hsel|].
    intros H. rewrite H in E. discriminate E.
Qed.

Lemma style_sent_is_not_empty_witness :
  Request.style
    (initial |> set_selectedStyle "other" |> set_customStyleName " noir ")
  <> ""%string.
Proof.
  exact (proj1 (style_sent_is_not_empty
                  (initial |> set_selectedStyle "other"
                           |> set_customStyleName " noir ")
                  eq_refl eq_refl)).
Defined.

(** X22: in every reachable state in the Result step a result is stored
    or the loading flag is set, so the "Retry" and "Go back" buttons of
    the error panel, which need an error and no loading, are only offered
    in states where a result is stored.  The flag need not belong to a
    request: after the ordinary path through the forms and a confirmed
    skip, the Result step is shown with no result, no generation ever
    requested, and the loading flag that the first-question effect left
    set. *)
Theorem result_step_has_result_or_loading_flag :
  (forall s,
      reachable s -> Qeq_bool (currentStep s) 4 = true ->
      (Js.truthy (apiResults s) = true \/ isLoading s = true)
      /\ (offered Retry s = true -> Js.truthy (apiResults s) = true)
      /\ (offered ErrorGoBack s = true -> Js.truthy (apiResults s) = true))
  /\ (exists s,
        run (to_refinement ++ skip) (boot 0 NoItem) = Some s
        /\ reachable s
        /\ Qeq_bool (currentStep s) 4 = true
        /\ apiResults s = Js.Null
        /\ isLoading s = true
        /\ generationCalls (pending s) = 0%nat
        /\ generationsInFlight (pending s) = 0%nat).
Proof.
  split.
  - intros s Hr Hstep.
    assert (Hw : generationWanted s = false).
    { destruct Hr as [now item _|e x _ _].
      - unfold boot. apply render_settles.
      - unfold apply. apply render_settles. }
    unfold generationWanted in Hw. rewrite Hstep in Hw. cbn [andb] in Hw.
    assert (H : Js.truthy (apiResults s) = true \/ isLoading s = true).
    { destruct (Js.truthy (apiResults s)); [left; reflexivity|].
      destruct (isLoading s); [right; reflexivity|discriminate Hw]. }
    split; [exact H|].
    unfold offered. cbn [possible andb]. rewrite Hstep.
    split; intros Ho; destruct H as [H|H]; try exact H;
      rewrite H in Ho; cbn [negb] in Ho; rewrite !andb_false_r in Ho;
      discriminate Ho.
  - assert (Hrun : run (to_refinement ++ skip) (boot 0 NoItem)
                   = Some (play (to_refinement ++ skip) (boot 0 NoItem)))
      by (vm_compute; reflexivity).
    exists (play (to_refinement ++ skip) (boot 0 NoItem)).
    split; [exact Hrun|].
    split; [exact (run_reachable (to_refinement ++ skip) (boot 0 NoItem) _
                     reachable_fresh Hrun)|].
    repeat split; vm_compute; reflexivity.
Qed.

(** A session restored in the Result step: its generation is loading. *)
Lemma result_step_has_result_or_loading_flag_witness :
  isLoading (boot 1000 (Saved (saved_in_result (Some 500%Z)))) = true.
Proof.
  assert (Hr : reachable (boot 1000 (Saved (saved_in_result (Some 500%Z))))).
  { apply reachable_boot. right. right. right. right. reflexivity. }
  assert (Hs : Qeq_bool
                 (currentStep (boot 1000 (Saved (saved_in_result (Some 500%Z)))))
                 4 = true) by (vm_compute; reflexivity).
  destruct (proj1 result_step_has_result_or_loading_flag _ Hr Hs)
    as ([H|H] & _).
  - vm_compute in H. discriminate H.
  - exact H.
Defined.

End Requests.

Section Again.

Import Wizard Scenario.
Local Open Scope Q_scope.

(** X23: "Retry" and "Regenerate" start one generation and no more: the
    request made by the button sets the loading flag, so the generation
    effect of the renders that follow makes no second one; error, result
    and score are cleared. *)
Theorem retry_and_regenerate_start_one_generation (s : state) :
  forall e, e = Retry \/ e = Regenerate ->
  generationCalls (pending (apply e s)) = S (generationCalls (pending s))
  /\ isLoading (apply e s) = true
  /\ apiError (apply e s) = None
  /\ apiResults (apply e s) = Js.Null
  /\ scoreData (apply e s) = None.
Proof.
  intros e He. unfold apply.
  assert (Hx : isLoading (handler e s) = true
               /\ apiError (handler e s) = None
               /\ apiResults (handler e s) = Js.Null
               /\ scoreData (handler e s) = None
               /\ generationCalls (pending (handler e s))
                  = S (generationCalls (pending s))).
  { destruct He as [->| ->]; repeat split. }
  destruct Hx as (Xl & Xe & Xr & Xs & Xc).
  set (x := handler e s) in *.
  pose proof (loading_not_wanted x Xl) as Hw.
  destruct (commit_not_wanted x Hw) as (Hc & Hres & Herr).
  destruct (render_not_wanted x Hw) as (_ & _ & Hr1 & _).
  assert (Hidle : forall y, Js.truthy (apiResults y) = false ->
                            generationWanted y = false -> plainEffects y = y).
  { intros y Hy Hwy. unfold plainEffects.
    rewrite (scoreEffect_idle y Hy). unfold generationEffect.
    rewrite Hwy. reflexivity. }
  destruct (render_generation_fields x) as (_ & _ & Hs1 & _).
  rewrite (Hidle x) in Hs1 by (rewrite ?Xr; auto).
  pose proof (render_loading_monotone x Xl) as Hl1.
  destruct (render_generation_fields (render x)) as (_ & _ & Hs2 & _).
  rewrite (Hidle (render x)) in Hs2
    by (rewrite ?Hr1, ?Xr; auto using loading_not_wanted).
  split; [rewrite Hc; exact Xc|].
  split; [unfold commit; apply render_loading_monotone; exact Hl1|].
  split; [rewrite Herr; exact Xe|].
  split; [rewrite Hres; exact Xr|].
  unfold commit. rewrite Hs2, Hs1. exact Xs.
Qed.

Lemma retry_and_regenerate_start_one_generation_witness :
  generationCalls
    (pending (apply Regenerate
                (apply script_arrives
                   (boot 1000 (Saved (saved_in_result (Some 500%Z)))))))
  = 2%nat.
Proof.
  destruct (retry_and_regenerate_start_one_generation
              (apply script_arrives
                 (boot 1000 (Saved (saved_in_result (Some 500%Z)))))
              Regenerate (or_intror eq_refl)) as (H & _).
  refine (eq_trans H _). vm_compute. reflexivity.
Defined.

End Again.
